(** * MindfulMate: the multimodal emotion pipeline

    A shallow embedding of
    - [src/core/emotion_analyzer.py]   (voice scorer, text analyzer, fusion),
    - [src/core/conversation_manager.py] (session store and risk flags),
    - [src/therapeutic/crisis_detection.py] (crisis detector and
      intervention protocol),
    - [src/core/gemma_client.py]       (the fallbacks of the model client),
    - [src/api/main.py]                (health check and chat endpoint),
    followed by the properties the specification states about them and by
    further properties of the code.

    Conventions of the embedding.
    - Python numbers ([int] and [float] alike) are exact rationals [Q]; the
      decimal literals of the source are written as they stand.  Rounding of
      binary64 arithmetic is therefore outside this model.  The module
      [Binary64] holds the voice scorer once more on machine floats; the two
      differ where a sum of literals is rounded (0.4 + 0.3 + 0.2 is below
      0.9, and 0.4 + 0.2 is above 0.6, as floats), and what is stated about
      one value of a score is stated there.
    - [str] is [string]; [str.lower] is the case folding of the letters
      [A]-[Z], every other byte is left alone.
    - A [dict] whose iteration order is observed is an association list in
      insertion order; a [dict] only read through [get] is a [gmap].
    - A Python exception is [None] in the [option] monad.
    - [datetime] values are integers counting the microseconds since
      [datetime.min], a [timedelta] is its number of microseconds, and every
      [datetime.now()] of the source is an explicit argument.  The
      [OverflowError] of a [timedelta] or a [datetime] out of range is
      modelled where the source builds one from the session timeout. *)

From Stdlib Require Import ZArith QArith Qminmax Lqa Lia Bool List String Ascii.
From Stdlib Require Floats.PrimFloat.
From stdpp Require Import base option list strings gmap.

Local Open Scope string_scope.
Local Open Scope list_scope.

Set Warnings "-inexact-float".

(** ** Python helpers *)

Module Py.

(** [x < y] and [x > y] on numbers. *)
Definition ltb (x y : Q) : bool := negb (Qle_bool y x).
Definition gtb (x y : Q) : bool := ltb y x.

(** [d.get(k, dflt)] *)
Definition get {V} (d : gmap string V) (k : string) (dflt : V) : V :=
  default dflt (d !! k).

(** [d[k]] on an insertion-ordered dict; [None] is [KeyError]. *)
Fixpoint item {K V} `{EqDecision K} (d : list (K * V)) (k : K) : option V :=
  match d with
  | [] => None
  | (k', v) :: rest => if decide (k' = k) then Some v else item rest k
  end.

(** [max(xs, key=f)]: the first element whose key is maximal; [None] is the
    [ValueError] raised on an empty iterable. *)
Fixpoint max_from {A} (key : A -> Q) (best : A) (xs : list A) : A :=
  match xs with
  | [] => best
  | x :: rest => max_from key (if gtb (key x) (key best) then x else best) rest
  end.

Definition max_key {A} (key : A -> Q) (xs : list A) : option A :=
  match xs with
  | [] => None
  | x :: rest => Some (max_from key x rest)
  end.

(** [c.lower()] on one character and [s.lower()] on a string. *)
Definition lower_ascii (c : ascii) : ascii :=
  let n := nat_of_ascii c in
  if (65 <=? n)%nat && (n <=? 90)%nat then ascii_of_nat (n + 32) else c.

Fixpoint lower (s : string) : string :=
  match s with
  | EmptyString => EmptyString
  | String c rest => String (lower_ascii c) (lower rest)
  end.

(** [c.isspace()] for the characters below 128. *)
Definition isspace (c : ascii) : bool :=
  let n := nat_of_ascii c in
  ((9 <=? n)%nat && (n <=? 13)%nat) || ((28 <=? n)%nat && (n <=? 32)%nat).

(** [s.lstrip()], [s.rstrip()] and [s.strip()] *)
Fixpoint lstrip (s : string) : string :=
  match s with
  | EmptyString => EmptyString
  | String c rest => if isspace c then lstrip rest else s
  end.

Fixpoint rstrip (s : string) : string :=
  match s with
  | EmptyString => EmptyString
  | String c rest =>
      match rstrip rest with
      | EmptyString => if isspace c then EmptyString else String c EmptyString
      | kept => String c kept
      end
  end.

Definition strip (s : string) : string := rstrip (lstrip s).

(** [sep.join(xs)] *)
Fixpoint join (sep : string) (xs : list string) : string :=
  match xs with
  | [] => EmptyString
  | [x] => x
  | x :: rest => x ++ sep ++ join sep rest
  end.


(** [sub in s] *)
Fixpoint contains (sub s : string) : bool :=
  match s with
  | EmptyString => String.prefix sub EmptyString
  | String _ rest => String.prefix sub s || contains sub rest
  end.

(** [s.startswith(p)] *)
Definition startswith (s p : string) : bool := String.prefix p s.

(** [x in xs] for a list of strings. *)
Definition mem (x : string) (xs : list string) : bool :=
  existsb (String.eqb x) xs.

(** [sum(1 for x in xs if p(x))] *)
Definition count {A} (p : A -> bool) (xs : list A) : nat :=
  length (filter (fun x => p x = true) xs).

(** [xs[start:]] with Python's treatment of a negative start. *)
Definition slice_from {A} (start : Z) (xs : list A) : list A :=
  let n := Z.of_nat (length xs) in
  let i := if (start <? 0)%Z then Z.max 0 (n + start) else Z.min start n in
  drop (Z.to_nat i) xs.

End Py.

(** ** emotion_analyzer.py: the data model *)

Inductive EmotionState :=
  | ANXIOUS | DEPRESSED | STRESSED | ANGRY | HAPPY | CALM | CONFUSED | EXCITED.

Inductive RiskLevel := LOW | MEDIUM | HIGH | CRISIS.

#[global] Instance EmotionState_eq_dec : EqDecision EmotionState.
Proof. solve_decision. Defined.

#[global] Instance RiskLevel_eq_dec : EqDecision RiskLevel.
Proof. solve_decision. Defined.

(** The [.value] of the two enums. *)
Definition emotion_value (e : EmotionState) : string :=
  match e with
  | ANXIOUS => "anxious" | DEPRESSED => "depressed" | STRESSED => "stressed"
  | ANGRY => "angry" | HAPPY => "happy" | CALM => "calm"
  | CONFUSED => "confused" | EXCITED => "excited"
  end.

Definition risk_value (r : RiskLevel) : string :=
  match r with
  | LOW => "low" | MEDIUM => "medium" | HIGH => "high" | CRISIS => "crisis"
  end.

Record EmotionAnalysis := mkEmotionAnalysis {
  primary_emotion : EmotionState;
  confidence : Q;
  risk_level : RiskLevel;
  emotional_indicators : list string;
  suggested_technique : string;
  intensity : string;
  patterns : list string
}.

(** ** emotion_analyzer.py: VoiceEmotionAnalyzer *)

Module VoiceEmotionAnalyzer.
Import Py.

Definition _calculate_anxiety_score
    (pitch_mean pitch_variance speech_rate energy : Q) : Q :=
  let score := 0.0%Q in
  let score := if gtb pitch_variance 75 then (score + 0.3)%Q else score in
  let score := if gtb speech_rate 180 then (score + 0.3)%Q else score in
  let score := if gtb pitch_mean 200 then (score + 0.2)%Q else score in
  let score :=
    if gtb energy 0.6 && (gtb pitch_variance 60 || gtb speech_rate 170)
    then (score + 0.2)%Q else score in
  Qmin score 1.0.

Definition _calculate_depression_score
    (pitch_mean energy pause_duration speech_rate : Q) : Q :=
  let score := 0.0%Q in
  let score := if ltb energy 0.3 then (score + 0.4)%Q else score in
  let score := if ltb pitch_mean 120 then (score + 0.3)%Q else score in
  let score := if gtb pause_duration 1.5 then (score + 0.3)%Q else score in
  let score := if ltb speech_rate 120 then (score + 0.2)%Q else score in
  Qmin score 1.0.

Definition _calculate_stress_score
    (speech_rate pitch_variance energy : Q) : Q :=
  let score := 0.0%Q in
  let score :=
    if gtb speech_rate 200 || ltb speech_rate 100
    then (score + 0.3)%Q else score in
  let score := if gtb pitch_variance 80 then (score + 0.3)%Q else score in
  let score :=
    if gtb energy 0.7 && gtb pitch_variance 60
    then (score + 0.2)%Q else score in
  let score :=
    if (ltb 0.4 energy && ltb energy 0.7)
       && (gtb speech_rate 190 || ltb speech_rate 110)
    then (score + 0.2)%Q else score in
  Qmin score 1.0.

Definition _calculate_anger_score (pitch_mean energy speech_rate : Q) : Q :=
  let score := 0.0%Q in
  let score := if gtb energy 0.8 then (score + 0.4)%Q else score in
  let score := if gtb pitch_mean 180 then (score + 0.3)%Q else score in
  let score := if gtb speech_rate 190 then (score + 0.3)%Q else score in
  Qmin score 1.0.

Definition _calculate_happiness_score
    (pitch_mean energy speech_rate pitch_variance : Q) : Q :=
  let score := 0.0%Q in
  let score :=
    if ltb 0.6 energy && ltb energy 0.9 then (score + 0.3)%Q else score in
  let score :=
    if ltb 160 pitch_mean && ltb pitch_mean 200
    then (score + 0.2)%Q else score in
  let score :=
    if ltb 150 speech_rate && ltb speech_rate 180
    then (score + 0.2)%Q else score in
  let score :=
    if ltb 40 pitch_variance && ltb pitch_variance 70
    then (score + 0.3)%Q else score in
  Qmin score 1.0.

Definition _calculate_calm_score
    (pitch_variance speech_rate energy pause_duration : Q) : Q :=
  let score := 0.0%Q in
  let score :=
    if ltb 25 pitch_variance && ltb pitch_variance 55
    then (score + 0.3)%Q else score in
  let score :=
    if ltb 140 speech_rate && ltb speech_rate 170
    then (score + 0.3)%Q else score in
  let score :=
    if ltb 0.4 energy && ltb energy 0.7 then (score + 0.2)%Q else score in
  let score :=
    if ltb 0.3 pause_duration && ltb pause_duration 0.8
    then (score + 0.2)%Q else score in
  Qmin score 1.0.

(** The [scores] dict, in the order its keys are assigned. *)
Definition _calculate_emotion_scores
    (pitch_mean pitch_variance speech_rate energy pause_duration : Q)
    : list (EmotionState * Q) :=
  [ (ANXIOUS, _calculate_anxiety_score pitch_mean pitch_variance speech_rate energy);
    (DEPRESSED, _calculate_depression_score pitch_mean energy pause_duration speech_rate);
    (STRESSED, _calculate_stress_score speech_rate pitch_variance energy);
    (ANGRY, _calculate_anger_score pitch_mean energy speech_rate);
    (HAPPY, _calculate_happiness_score pitch_mean energy speech_rate pitch_variance);
    (CALM, _calculate_calm_score pitch_variance speech_rate energy pause_duration) ].

Definition _assess_voice_risk
    (emotion_scores : list (EmotionState * Q)) (voice_features : gmap string Q)
    : option RiskLevel :=
  let energy := get voice_features "energy" 0.5%Q in
  let speech_rate := get voice_features "speech_rate" 150%Q in
  let pause_duration := get voice_features "avg_pause_duration" 0.5%Q in
  depressed ← item emotion_scores DEPRESSED;
  if gtb depressed 0.8 && ltb energy 0.2 && ltb speech_rate 100
  then Some CRISIS
  else
    anxious ← item emotion_scores ANXIOUS;
    if gtb anxious 0.8 && gtb pause_duration 2.0
    then Some HIGH
    else
      let concerning_emotions :=
        count (fun score => gtb score 0.7) (map snd emotion_scores) in
      if (2 <=? concerning_emotions)%nat
      then Some HIGH
      else
        stressed ← item emotion_scores STRESSED;
        if gtb (Qmax (Qmax depressed anxious) stressed) 0.6
        then Some MEDIUM
        else Some LOW.

Definition _generate_voice_indicators (voice_features : gmap string Q)
    : list string :=
  let speech_rate := get voice_features "speech_rate" 150%Q in
  let energy := get voice_features "energy" 0.5%Q in
  let pitch_variance := get voice_features "pitch_variance" 50%Q in
  let pause_duration := get voice_features "avg_pause_duration" 0.5%Q in
  (if gtb speech_rate 190 then ["Rapid speech pattern"]
   else if ltb speech_rate 120 then ["Slow speech pattern"] else [])
  ++ (if ltb energy 0.3 then ["Low vocal energy"]
      else if gtb energy 0.8 then ["High vocal energy"] else [])
  ++ (if gtb pitch_variance 75 then ["Variable pitch patterns"]
      else if ltb pitch_variance 25 then ["Monotone speech"] else [])
  ++ (if gtb pause_duration 1.5 then ["Extended pauses"]
      else if ltb pause_duration 0.2 then ["Minimal pauses"] else []).

Definition _calculate_intensity (confidence : Q) : string :=
  if gtb confidence 0.7 then "high"
  else if gtb confidence 0.4 then "medium"
  else "low".

Definition _suggest_voice_technique (emotion : EmotionState) (risk : RiskLevel)
    : string :=
  if decide (risk = CRISIS) then "crisis_intervention"
  else if decide (risk = HIGH) then "safety_planning"
  else match emotion with
       | ANXIOUS => "breathing_exercise"
       | DEPRESSED => "behavioral_activation"
       | STRESSED => "grounding_technique"
       | ANGRY => "emotion_regulation"
       | HAPPY => "positive_reinforcement"
       | CALM => "maintenance_check"
       | _ => "general_support"
       end.

Definition _identify_voice_patterns (voice_features : gmap string Q)
    : list string :=
  let energy := get voice_features "energy" 0.5%Q in
  let speech_rate := get voice_features "speech_rate" 150%Q in
  let pitch_variance := get voice_features "pitch_variance" 50%Q in
  (if ltb energy 0.3 && ltb speech_rate 120
   then ["potential_depression_indicators"] else [])
  ++ (if gtb speech_rate 180 && gtb pitch_variance 70
      then ["potential_anxiety_indicators"] else [])
  ++ (if (gtb speech_rate 200 || ltb speech_rate 100) && gtb energy 0.6
      then ["potential_stress_indicators"] else []).

Definition analyze_voice_features (voice_features : gmap string Q)
    : option EmotionAnalysis :=
  let pitch_mean := get voice_features "pitch_mean" 150%Q in
  let pitch_variance := get voice_features "pitch_variance" 50%Q in
  let speech_rate := get voice_features "speech_rate" 150%Q in
  let energy := get voice_features "energy" 0.5%Q in
  let pause_duration := get voice_features "avg_pause_duration" 0.5%Q in
  let emotion_scores :=
    _calculate_emotion_scores
      pitch_mean pitch_variance speech_rate energy pause_duration in
  primary ← max_key (fun e => default 0%Q (item emotion_scores e))
                     (map fst emotion_scores);
  conf ← item emotion_scores primary;
  risk ← _assess_voice_risk emotion_scores voice_features;
  Some {| primary_emotion := primary;
          confidence := conf;
          risk_level := risk;
          emotional_indicators := _generate_voice_indicators voice_features;
          suggested_technique := _suggest_voice_technique primary risk;
          intensity := _calculate_intensity conf;
          patterns := _identify_voice_patterns voice_features |}.

End VoiceEmotionAnalyzer.

(** ** emotion_analyzer.py: TextEmotionAnalyzer *)

(** The dict that [gemma_client.analyze_emotion_from_text] returns, with the
    keys and the types of values its prompt prescribes; a key that is missing
    from the dict is [None]. *)
Record GemmaAnalysis := mkGemmaAnalysis {
  g_primary_emotion : option string;
  g_confidence : option Q;
  g_intensity : option string;
  g_risk_level : option string;
  g_crisis_indicators : option (list string);
  g_positive_indicators : option (list string);
  g_emotional_patterns : option (list string);
  g_suggested_approach : option string
}.

Module TextEmotionAnalyzer.
Import Py.

Definition crisis_keywords : list string :=
  [ "suicide"; "kill myself"; "end it all"; "better off dead";
    "self harm"; "hurt myself"; "cutting"; "overdose";
    "hopeless"; "worthless"; "no point"; "can't go on";
    "want to die"; "end my life"; "not worth living" ].

Definition emotion_keywords : list (EmotionState * list string) :=
  [ (ANXIOUS, ["worried"; "nervous"; "scared"; "panic"; "anxious"; "afraid"]);
    (DEPRESSED, ["sad"; "empty"; "hopeless"; "worthless"; "depressed"; "down"]);
    (STRESSED, ["overwhelmed"; "pressure"; "stressed"; "burden"; "exhausted"]);
    (ANGRY, ["angry"; "furious"; "mad"; "frustrated"; "rage"; "irritated"]);
    (HAPPY, ["happy"; "joy"; "excited"; "good"; "great"; "wonderful"]) ].

Definition _detect_crisis_keywords (text : string) : bool :=
  existsb (fun keyword => contains keyword text) crisis_keywords.

Definition _string_to_emotion (emotion_str : string) : EmotionState :=
  let mapping :=
    [ ("anxious", ANXIOUS); ("depressed", DEPRESSED); ("stressed", STRESSED);
      ("angry", ANGRY); ("happy", HAPPY); ("calm", CALM);
      ("confused", CONFUSED); ("excited", EXCITED) ] in
  default CALM (item mapping (lower emotion_str)).

Definition _string_to_risk (risk_str : string) : RiskLevel :=
  let mapping :=
    [ ("low", LOW); ("medium", MEDIUM); ("high", HIGH); ("crisis", CRISIS) ] in
  default LOW (item mapping (lower risk_str)).

Definition _suggest_text_technique
    (emotion : EmotionState) (risk : RiskLevel) (analysis : GemmaAnalysis)
    : string :=
  if decide (risk = CRISIS) then "crisis_intervention"
  else if decide (risk = HIGH) then "safety_planning"
  else
    let suggested_approach := default "" (g_suggested_approach analysis) in
    if mem suggested_approach
         ["cbt"; "behavioral_activation"; "validation"; "crisis_intervention"]
    then suggested_approach
    else match emotion with
         | ANXIOUS => "breathing_exercise"
         | DEPRESSED => "behavioral_activation"
         | STRESSED => "grounding_technique"
         | ANGRY => "emotion_regulation"
         | CONFUSED => "clarification_questions"
         | _ => "validation"
         end.

(** The keyword scores of the fallback, one entry per key of
    [emotion_keywords]; [score / len(keywords)] is Python's true division. *)
Definition keyword_scores (text_lower : string) : list (EmotionState * Q) :=
  map (fun '(emotion, keywords) =>
         let score := count (fun keyword => contains keyword text_lower) keywords in
         (emotion,
          (inject_Z (Z.of_nat score) / inject_Z (Z.of_nat (length keywords)))%Q))
      emotion_keywords.

Definition _fallback_text_analysis (text : string) (crisis_detected : bool)
    : option EmotionAnalysis :=
  let text_lower := lower text in
  let emotion_scores := keyword_scores text_lower in
  '(primary, conf) ←
    match emotion_scores with
    | _ :: _ =>
        primary ← max_key (fun e => default 0%Q (item emotion_scores e))
                           (map fst emotion_scores);
        conf ← item emotion_scores primary;
        Some (primary, conf)
    | [] => Some (CALM, 0.3%Q)
    end;
  let risk := if crisis_detected then CRISIS else LOW in
  Some {| primary_emotion := primary;
          confidence := conf;
          risk_level := risk;
          emotional_indicators := ["Keyword-based analysis"];
          suggested_technique := "validation";
          intensity := "medium";
          patterns := ["fallback_analysis"] |}.

(** The body of the [try]: what is built from the dict the client returned. *)
Definition from_gemma (crisis_detected : bool) (gemma_analysis : GemmaAnalysis)
    : EmotionAnalysis :=
  let emotion_str := default "calm" (g_primary_emotion gemma_analysis) in
  let primary := _string_to_emotion emotion_str in
  let conf := default 0.5%Q (g_confidence gemma_analysis) in
  let risk :=
    if crisis_detected then CRISIS
    else _string_to_risk (default "low" (g_risk_level gemma_analysis)) in
  let crisis_indicators := default [] (g_crisis_indicators gemma_analysis) in
  let positive_indicators := default [] (g_positive_indicators gemma_analysis) in
  let pats := default [] (g_emotional_patterns gemma_analysis) in
  let indicators := crisis_indicators ++ positive_indicators in
  let indicators :=
    if crisis_detected && bool_decide (crisis_indicators = [])
    then indicators ++ ["Crisis keywords detected"] else indicators in
  let technique := _suggest_text_technique primary risk gemma_analysis in
  {| primary_emotion := primary;
     confidence := conf;
     risk_level := risk;
     emotional_indicators := indicators;
     suggested_technique := technique;
     intensity := default "medium" (g_intensity gemma_analysis);
     patterns := pats |}.

(** [gemma] is the outcome of awaiting the client: [Some d] when the call
    handed back the dict [d], [None] when an [Exception] left the [try] (the
    call failed, or reading the value it returned raised).  The [context]
    argument of the source is only passed on to the client. *)
Definition analyze_text_emotion (text : string) (gemma : option GemmaAnalysis)
    : option EmotionAnalysis :=
  let crisis_detected := _detect_crisis_keywords (lower text) in
  match gemma with
  | Some gemma_analysis => Some (from_gemma crisis_detected gemma_analysis)
  | None => _fallback_text_analysis text crisis_detected
  end.

End TextEmotionAnalyzer.

(** ** emotion_analyzer.py: MultimodalEmotionFusion *)

Module MultimodalEmotionFusion.
Import Py.

Definition voice_weight : Q := 0.4.
Definition text_weight : Q := 0.6.
Definition min_confidence : Q := 0.3.
Definition agreement_bonus : Q := 0.2.

Definition risk_priorities (r : RiskLevel) : Q :=
  match r with LOW => 0 | MEDIUM => 1 | HIGH => 2 | CRISIS => 3 end.

Definition _choose_combined_technique
    (emotion : EmotionState) (risk : RiskLevel)
    (voice_analysis text_analysis : EmotionAnalysis) : string :=
  if decide (risk = CRISIS) then "crisis_intervention"
  else if decide (risk = HIGH) then "safety_planning"
  else if String.eqb (suggested_technique voice_analysis)
                     (suggested_technique text_analysis)
  then suggested_technique voice_analysis
  else suggested_technique text_analysis.

Definition intensity_values (s : string) : option Q :=
  item [("low", 1%Q); ("medium", 2%Q); ("high", 3%Q)] s.

Definition _determine_combined_intensity
    (voice_intensity text_intensity : string) (conf : Q) : string :=
  let voice_val := default 2%Q (intensity_values voice_intensity) in
  let text_val := default 2%Q (intensity_values text_intensity) in
  let combined_val := (voice_val * voice_weight + text_val * text_weight)%Q in
  let combined_val :=
    if gtb conf 0.8 then (combined_val * 1.1)%Q
    else if ltb conf 0.4 then (combined_val * 0.9)%Q
    else combined_val in
  if gtb combined_val 2.5 then "high"
  else if gtb combined_val 1.5 then "medium"
  else "low".

(** [list(set(xs))] is modelled by [remove_dups]: the members are those of
    the Python list, the order Python gives them is not modelled. *)
Definition fuse_emotions
    (voice_analysis : option EmotionAnalysis) (text_analysis : EmotionAnalysis)
    : EmotionAnalysis :=
  match voice_analysis with
  | None => text_analysis
  | Some voice_analysis =>
      let combined_confidence :=
        (confidence voice_analysis * voice_weight
         + confidence text_analysis * text_weight)%Q in
      let emotions_agree :=
        bool_decide (primary_emotion voice_analysis = primary_emotion text_analysis) in
      let '(primary, combined_confidence) :=
        if emotions_agree
        then (primary_emotion voice_analysis,
              Qmin (combined_confidence + agreement_bonus) 1.0)
        else (primary_emotion text_analysis, (combined_confidence * 0.8)%Q) in
      let risk :=
        max_from risk_priorities
                 (risk_level voice_analysis) [risk_level text_analysis] in
      let combined_indicators :=
        emotional_indicators voice_analysis ++ emotional_indicators text_analysis in
      let combined_patterns :=
        remove_dups (patterns voice_analysis ++ patterns text_analysis) in
      let technique :=
        _choose_combined_technique primary risk voice_analysis text_analysis in
      let intens :=
        _determine_combined_intensity
          (intensity voice_analysis) (intensity text_analysis)
          combined_confidence in
      {| primary_emotion := primary;
         confidence := Qmax combined_confidence min_confidence;
         risk_level := risk;
         emotional_indicators := combined_indicators;
         suggested_technique := technique;
         intensity := intens;
         patterns := combined_patterns |}
  end.

End MultimodalEmotionFusion.

(** ** conversation_manager.py *)

(** One entry of [conversation_history]; [timestamp] stands for the ISO text
    of the instant it holds. *)
Module Interaction.
Record t := mk {
  timestamp : Z;
  user : string;
  assistant : string;
  emotion : string;
  risk_level : string;
  confidence : Q
}.
End Interaction.

Record ConversationContext := mkConversationContext {
  user_id : string;
  session_id : string;
  conversation_history : list Interaction.t;
  emotion_history : list EmotionAnalysis;
  risk_flags : list string;
  last_interaction : Z;
  session_start : Z;
  therapeutic_goals : list string;
  check_in_schedule : list (string * string)
}.

(** The microseconds of [n] seconds and of [n] hours. *)
Definition timedelta_seconds (n : Z) : Z := (n * 1000000)%Z.
Definition timedelta_hours (n : Z) : Z := (n * 3600 * 1000000)%Z.

(** The seconds a [timedelta] can hold: the whole days of the value, rounded
    down, have a magnitude of at most 999999999. *)
Definition timedelta_ok (seconds : Z) : Prop :=
  (Z.abs (seconds / 86400) <= 999999999)%Z.

(** [timedelta(seconds=n)] for an integer [n]; [None] is the [OverflowError]
    raised outside that range. *)
Definition timedelta (seconds : Z) : option Z :=
  if (Z.abs (seconds / 86400) <=? 999999999)%Z
  then Some (timedelta_seconds seconds) else None.

(** [datetime.max], counted from [datetime.min]: the last microsecond of the
    year 9999. *)
Definition datetime_max : Z := 315537897599999999.

(** The instants a [datetime] can hold. *)
Definition datetime_ok (instant : Z) : Prop :=
  (0 <= instant <= datetime_max)%Z.

(** [d - delta] for a [datetime] and a [timedelta]; [None] is the
    [OverflowError] raised when the result is no [datetime]. *)
Definition datetime_sub (d delta : Z) : option Z :=
  let result := (d - delta)%Z in
  if (0 <=? result)%Z && (result <=? datetime_max)%Z
  then Some result else None.

Module ConversationManager.
Import Py.

(** The fields of the manager.  [active_sessions] maps a context key to a
    reference: the contexts themselves are shared, mutable objects and live
    in the [heap] of the [Store] below. *)
Record t := mk {
  max_history : Z;
  session_timeout : Z;
  active_sessions : gmap string nat
}.

(** The object store: [heap] holds every context ever created, a reference
    is a position in it, and [self] is the manager. *)
Record Store := mkStore {
  heap : list ConversationContext;
  self : t
}.

(** [ConversationManager(max_history, session_timeout)] *)
Definition __init__ (max_history session_timeout : Z) : Store :=
  {| heap := [];
     self := {| max_history := max_history;
                session_timeout := session_timeout;
                active_sessions := ∅ |} |}.

Definition context_key (user_id session_id : string) : string :=
  user_id ++ ":" ++ session_id.

(** The [ConversationContext(...)] built by [_create_new_context]; the two
    instants are its two calls of [datetime.now()]. *)
Definition new_context (user_id session_id : string) (t_last t_start : Z)
    : ConversationContext :=
  {| user_id := user_id;
     session_id := session_id;
     conversation_history := [];
     emotion_history := [];
     risk_flags := [];
     last_interaction := t_last;
     session_start := t_start;
     therapeutic_goals := [];
     check_in_schedule := [] |}.

Definition _create_new_context
    (t_last t_start : Z) (st : Store) (user_id session_id : string)
    : nat * Store :=
  let context := new_context user_id session_id t_last t_start in
  let ref := length (heap st) in
  (ref,
   {| heap := heap st ++ [context];
      self := {| max_history := max_history (self st);
                 session_timeout := session_timeout (self st);
                 active_sessions :=
                   <[context_key user_id session_id := ref]>
                     (active_sessions (self st)) |} |}).

(** [not session_id] for an [Optional[str]]. *)
Definition falsy (session_id : option string) : bool :=
  match session_id with
  | None => true
  | Some s => bool_decide (s = "")
  end.

(** [now] is the instant read for the expiry test, [t_last] and [t_start]
    those read when a context is created, [uuid4] the text of
    [uuid.uuid4()].  [None] is an exception: the [OverflowError] of
    [timedelta(seconds=self.session_timeout)], which is built only when the
    key is found, or the [KeyError] of a dangling reference. *)
Definition get_or_create_context
    (now t_last t_start : Z) (uuid4 : string)
    (st : Store) (user_id : string) (session_id : option string)
    : option (nat * Store) :=
  let session_id := if falsy session_id then uuid4 else default "" session_id in
  let key := context_key user_id session_id in
  match active_sessions (self st) !! key with
  | Some ref =>
      context ← heap st !! ref;
      timeout ← timedelta (session_timeout (self st));
      if (now - last_interaction context >? timeout)%Z
      then Some (_create_new_context t_last t_start st user_id session_id)
      else Some (ref, st)
  | None => Some (_create_new_context t_last t_start st user_id session_id)
  end.

Definition risk_values (r : RiskLevel) : Z :=
  match r with LOW => 1 | MEDIUM => 2 | HIGH => 3 | CRISIS => 4 end.

(** [all(p(xs[i], xs[i+1]) for i in range(len(xs)-1))] *)
Fixpoint all_adjacent {A} (p : A -> A -> bool) (xs : list A) : bool :=
  match xs with
  | x :: (y :: _) as rest => p x y && all_adjacent p rest
  | _ => true
  end.

Definition negative_emotions : list EmotionState :=
  [DEPRESSED; ANXIOUS; STRESSED].

Definition _update_risk_assessment
    (context : ConversationContext) (emotion_analysis : EmotionAnalysis)
    : ConversationContext :=
  let flags :=
    filter (fun flag => startswith flag "session_" = false) (risk_flags context) in
  let flags :=
    if decide (risk_level emotion_analysis = CRISIS)
    then flags ++ ["session_crisis_detected"] else flags in
  let recent_emotions :=
    if (5 <=? length (emotion_history context))%nat
    then slice_from (-5) (emotion_history context)
    else emotion_history context in
  let negative_count :=
    count (fun analysis =>
             bool_decide (primary_emotion analysis ∈ negative_emotions))
          recent_emotions in
  let flags :=
    if (4 <=? negative_count)%nat
    then flags ++ ["session_persistent_negative_mood"] else flags in
  let flags :=
    if (3 <=? length (emotion_history context))%nat
    then
      let recent_risks :=
        map risk_level (slice_from (-3) (emotion_history context)) in
      if all_adjacent (fun a b => (risk_values a <=? risk_values b)%Z) recent_risks
      then flags ++ ["session_escalating_risk"] else flags
    else flags in
  {| user_id := user_id context;
     session_id := session_id context;
     conversation_history := conversation_history context;
     emotion_history := emotion_history context;
     risk_flags := flags;
     last_interaction := last_interaction context;
     session_start := session_start context;
     therapeutic_goals := therapeutic_goals context;
     check_in_schedule := check_in_schedule context |}.

Definition goal_mapping (emotion : EmotionState) : option string :=
  match emotion with
  | ANXIOUS => Some "anxiety_management"
  | DEPRESSED => Some "mood_improvement"
  | STRESSED => Some "stress_reduction"
  | ANGRY => Some "anger_management"
  | _ => None
  end.

Definition _update_therapeutic_goals
    (context : ConversationContext) (emotion_analysis : EmotionAnalysis)
    : ConversationContext :=
  let goals := therapeutic_goals context in
  let goals :=
    match goal_mapping (primary_emotion emotion_analysis) with
    | Some goal => if mem goal goals then goals else goals ++ [goal]
    | None => goals
    end in
  let goals :=
    if (3 <? length goals)%nat then slice_from (-3) goals else goals in
  {| user_id := user_id context;
     session_id := session_id context;
     conversation_history := conversation_history context;
     emotion_history := emotion_history context;
     risk_flags := risk_flags context;
     last_interaction := last_interaction context;
     session_start := session_start context;
     therapeutic_goals := goals;
     check_in_schedule := check_in_schedule context |}.

(** The effect of [add_interaction] on the context object it is given;
    [t_stamp] and [t_last] are its two calls of [datetime.now()]. *)
Definition add_interaction
    (self : t) (t_stamp t_last : Z) (context : ConversationContext)
    (user_input ai_response : string) (emotion_analysis : EmotionAnalysis)
    : ConversationContext :=
  let interaction :=
    {| Interaction.timestamp := t_stamp;
       Interaction.user := user_input;
       Interaction.assistant := ai_response;
       Interaction.emotion := emotion_value (primary_emotion emotion_analysis);
       Interaction.risk_level := risk_value (risk_level emotion_analysis);
       Interaction.confidence := confidence emotion_analysis |} in
  let conv := conversation_history context ++ [interaction] in
  let emo := emotion_history context ++ [emotion_analysis] in
  let '(conv, emo) :=
    if (max_history self <? Z.of_nat (length conv))%Z
    then (slice_from (- max_history self) conv,
          slice_from (- max_history self) emo)
    else (conv, emo) in
  let context :=
    {| user_id := user_id context;
       session_id := session_id context;
       conversation_history := conv;
       emotion_history := emo;
       risk_flags := risk_flags context;
       last_interaction := t_last;
       session_start := session_start context;
       therapeutic_goals := therapeutic_goals context;
       check_in_schedule := check_in_schedule context |} in
  let context := _update_risk_assessment context emotion_analysis in
  _update_therapeutic_goals context emotion_analysis.


(** [now] is the instant read by [datetime.now()]. *)
Definition should_suggest_professional_help
    (now : Z) (context : ConversationContext) : bool :=
  if mem "session_crisis_detected" (risk_flags context) then true
  else if mem "session_persistent_negative_mood" (risk_flags context)
          && mem "session_escalating_risk" (risk_flags context) then true
  else
    let session_duration := (now - session_start context)%Z in
    if (session_duration >? timedelta_hours 2)%Z
       && (15 <? length (conversation_history context))%nat
    then true
    else false.

(** The dict [get_conversation_summary] returns for a conversation that has
    a history. *)
Module Summary.
Record t := mk {
  session_length_minutes : Z;
  total_interactions : nat;
  recent_emotions : list string;
  current_risk_level : string;
  active_risk_flags : list string;
  therapeutic_goals : list string;
  key_themes : list string
}.
End Summary.

(** [NewConversation] is the dict
    [{"summary": "New conversation", "key_points": []}]. *)
Inductive SummaryResult :=
  | NewConversation
  | Summarised (summary : Summary.t).

Definition theme_keywords : list (string * list string) :=
  [ ("work_stress", ["work"; "job"; "boss"; "deadline"; "pressure"]);
    ("relationships", ["partner"; "friend"; "family"; "relationship"; "lonely"]);
    ("health_concerns", ["sick"; "health"; "pain"; "tired"; "sleep"]);
    ("financial_stress", ["money"; "bills"; "debt"; "financial"; "afford"]);
    ("academic_stress", ["school"; "exam"; "grade"; "study"; "homework"]) ].

(** The text the themes are looked for in. *)
Definition recent_text (context : ConversationContext) : string :=
  lower (join " " (map Interaction.user
                       (slice_from (-5) (conversation_history context)))).

Definition _extract_key_themes (context : ConversationContext) : list string :=
  let themes :=
    omap (fun '(theme, keywords) =>
            if existsb (fun keyword => contains keyword (recent_text context))
                       keywords
            then Some theme else None)
         theme_keywords in
  take 3 themes.

(** [now] is the instant read by [datetime.now()]; the session length is
    [int(total_seconds() / 60)], the quotient rounded towards zero. *)
Definition get_conversation_summary (now : Z) (context : ConversationContext)
    : SummaryResult :=
  match conversation_history context with
  | [] => NewConversation
  | _ :: _ =>
      let recent_emotions :=
        map (fun analysis => emotion_value (primary_emotion analysis))
            (slice_from (-5) (emotion_history context)) in
      let current_risk :=
        match last (emotion_history context) with
        | Some analysis => risk_value (risk_level analysis)
        | None => "low"
        end in
      let session_duration := (now - session_start context)%Z in
      Summarised
        {| Summary.session_length_minutes := Z.quot session_duration 60000000;
           Summary.total_interactions := length (conversation_history context);
           Summary.recent_emotions := recent_emotions;
           Summary.current_risk_level := current_risk;
           Summary.active_risk_flags := risk_flags context;
           Summary.therapeutic_goals := therapeutic_goals context;
           Summary.key_themes := _extract_key_themes context |}
  end.

(** The keys of the sessions whose context was last used before [cutoff_time];
    [None] is the [KeyError] of a dangling reference. *)
Fixpoint expired_sessions (heap : list ConversationContext) (cutoff_time : Z)
    (items : list (string * nat)) : option (list string) :=
  match items with
  | [] => Some []
  | (key, ref) :: rest =>
      context ← heap !! ref;
      keys ← expired_sessions heap cutoff_time rest;
      Some (if (last_interaction context <? cutoff_time)%Z
            then key :: keys else keys)
  end.

(** [now] is the instant read by [datetime.now()]; the result is the number
    of sessions removed and the store without them.  [None] is an exception:
    the [OverflowError] of the [timedelta] or of the subtraction that gives
    [cutoff_time]. *)
Definition cleanup_expired_sessions (now : Z) (st : Store) : option (nat * Store) :=
  delta ← timedelta (session_timeout (self st));
  cutoff_time ← datetime_sub now delta;
  expired ← expired_sessions (heap st) cutoff_time
              (map_to_list (active_sessions (self st)));
  Some (length expired,
        {| heap := heap st;
           self := {| max_history := max_history (self st);
                      session_timeout := session_timeout (self st);
                      active_sessions :=
                        fold_left (fun sessions session_key =>
                                     delete session_key sessions)
                                  expired (active_sessions (self st)) |} |}).


End ConversationManager.

(** ** crisis_detection.py: CrisisDetector *)

Inductive CrisisType :=
  | SUICIDAL_IDEATION | SELF_HARM | SEVERE_DEPRESSION
  | PANIC_ATTACK | PSYCHOTIC_EPISODE | SUBSTANCE_ABUSE.

Inductive CrisisUrgency := IMMEDIATE | URGENT | MONITOR.

#[global] Instance CrisisType_eq_dec : EqDecision CrisisType.
Proof. solve_decision. Defined.

#[global] Instance CrisisUrgency_eq_dec : EqDecision CrisisUrgency.
Proof. solve_decision. Defined.

Definition crisis_type_value (c : CrisisType) : string :=
  match c with
  | SUICIDAL_IDEATION => "suicidal_ideation" | SELF_HARM => "self_harm"
  | SEVERE_DEPRESSION => "severe_depression" | PANIC_ATTACK => "panic_attack"
  | PSYCHOTIC_EPISODE => "psychotic_episode" | SUBSTANCE_ABUSE => "substance_abuse"
  end.

Definition urgency_value (u : CrisisUrgency) : string :=
  match u with
  | IMMEDIATE => "immediate" | URGENT => "urgent" | MONITOR => "monitor"
  end.

(** One value of the [crisis_patterns] table. *)
Record Patterns := mkPatterns {
  keywords : list string;
  phrases : list string;
  urgency : CrisisUrgency
}.

(** One entry of the [crisis_types] list of a detection result. *)
Record DetectedCrisis := mkDetectedCrisis {
  dc_type : string;
  dc_score : Q;
  dc_urgency : string
}.

(** The [emotion_context] dict, read through its two keys only. *)
Record EmotionContext := mkEmotionContext {
  ec_risk_level : option string;
  ec_confidence : option Q
}.

(** The dict of resources [_get_crisis_resources] builds. *)
Record Resources := mkResources {
  immediate_help : list (string * string);
  professional_resources : list string;
  self_help_techniques : list string
}.


(** The fields of the result of [detect_crisis] that depend on the scores
    ([resources_needed] is a table lookup on [crisis_types]). *)
Record Detection := mkDetection {
  crisis_detected : bool;
  crisis_types : list DetectedCrisis;
  highest_urgency : option string;
  immediate_action_needed : bool;
  safety_planning_required : bool
}.

Module CrisisDetector.
Import Py.

Definition crisis_patterns : list (CrisisType * Patterns) :=
  [ (SUICIDAL_IDEATION,
     {| keywords := [ "suicide"; "kill myself"; "end it all"; "want to die";
                      "better off dead"; "end my life"; "not worth living";
                      "suicide plan"; "ways to die" ];
        phrases := [ "i want to die"; "i should die"; "kill me";
                     "end it all"; "can't go on"; "no reason to live" ];
        urgency := IMMEDIATE |});
    (SELF_HARM,
     {| keywords := [ "hurt myself"; "cut myself"; "self harm"; "cutting";
                      "burn myself"; "punch wall"; "harm myself" ];
        phrases := [ "want to hurt myself"; "cutting helps";
                     "pain makes it better" ];
        urgency := URGENT |});
    (SEVERE_DEPRESSION,
     {| keywords := [ "hopeless"; "worthless"; "useless"; "burden";
                      "empty"; "numb"; "void"; "pointless" ];
        phrases := [ "nothing matters"; "no point"; "completely hopeless";
                     "total failure"; "everyone hates me" ];
        urgency := MONITOR |});
    (PANIC_ATTACK,
     {| keywords := [ "panic attack"; "can't breathe"; "heart racing";
                      "chest pain"; "dizzy"; "dying" ];
        phrases := [ "having a panic attack"; "can't catch my breath";
                     "feel like dying"; "heart pounding" ];
        urgency := URGENT |}) ].

Definition keyword_matches (text : string) (patterns : Patterns) : nat :=
  count (fun keyword => contains keyword text) (keywords patterns).

Definition phrase_matches (text : string) (patterns : Patterns) : nat :=
  count (fun phrase => contains phrase text) (phrases patterns).

Definition _calculate_crisis_score (text : string) (patterns : Patterns) : Q :=
  let keyword_score :=
    Qmin (inject_Z (Z.of_nat (keyword_matches text patterns)) * 0.3) 0.8 in
  let phrase_score :=
    Qmin (inject_Z (Z.of_nat (phrase_matches text patterns)) * 0.5) 1.0 in
  Qmax keyword_score phrase_score.

Definition _urgency_priority (u : CrisisUrgency) : Z :=
  match u with MONITOR => 1 | URGENT => 2 | IMMEDIATE => 3 end.

Definition _detect_contextual_crisis (emotion_context : EmotionContext)
    : list DetectedCrisis :=
  let risk_level := default "low" (ec_risk_level emotion_context) in
  let confidence := default 0.0%Q (ec_confidence emotion_context) in
  if String.eqb risk_level "crisis" && gtb confidence 0.7
  then [ {| dc_type := "contextual_crisis"; dc_score := confidence;
            dc_urgency := "immediate" |} ]
  else if String.eqb risk_level "high" && gtb confidence 0.8
  then [ {| dc_type := "contextual_high_risk"; dc_score := confidence;
            dc_urgency := "urgent" |} ]
  else [].

(** The loop over [crisis_patterns]: the pair [(detected_crises,
    highest_urgency)] after the categories of [table] have been visited. *)
Fixpoint scan (text_lower : string) (table : list (CrisisType * Patterns))
    (detected_crises : list DetectedCrisis) (highest_urgency : option CrisisUrgency)
    : list DetectedCrisis * option CrisisUrgency :=
  match table with
  | [] => (detected_crises, highest_urgency)
  | (crisis_type, patterns) :: rest =>
      let score := _calculate_crisis_score text_lower patterns in
      if gtb score 0.3
      then
        let detected_crises :=
          detected_crises
          ++ [ {| dc_type := crisis_type_value crisis_type;
                  dc_score := score;
                  dc_urgency := urgency_value (urgency patterns) |} ] in
        let highest_urgency :=
          match highest_urgency with
          | None => Some (urgency patterns)
          | Some h =>
              if (_urgency_priority (urgency patterns) >? _urgency_priority h)%Z
              then Some (urgency patterns) else Some h
          end in
        scan text_lower rest detected_crises highest_urgency
      else scan text_lower rest detected_crises highest_urgency
  end.

(** [emotion_context] is [None] for a missing or empty dict. *)
Definition detect_crisis (text : string) (emotion_context : option EmotionContext)
    : Detection :=
  let text_lower := lower text in
  let '(detected_crises, highest_urgency) :=
    scan text_lower crisis_patterns [] None in
  let detected_crises :=
    match emotion_context with
    | Some ctx => detected_crises ++ _detect_contextual_crisis ctx
    | None => detected_crises
    end in
  {| crisis_detected := (0 <? length detected_crises)%nat;
     crisis_types := detected_crises;
     highest_urgency := urgency_value <$> highest_urgency;
     immediate_action_needed := bool_decide (highest_urgency = Some IMMEDIATE);
     safety_planning_required := (0 <? length detected_crises)%nat |}.

(** [_get_crisis_resources]: [None] is the empty dict returned when nothing
    was detected. *)
Definition _get_crisis_resources (detected_crises : list DetectedCrisis)
    : option Resources :=
  match detected_crises with
  | [] => None
  | _ :: _ =>
      let crisis_types := map dc_type detected_crises in
      let urgencies := map dc_urgency detected_crises in
      let immediate_help :=
        if mem "immediate" urgencies
        then [ ("suicide_crisis_lifeline", "988");
               ("emergency_services", "911");
               ("crisis_text_line", "Text HOME to 741741") ]
        else if mem "urgent" urgencies
        then [ ("suicide_crisis_lifeline", "988");
               ("crisis_text_line", "Text HOME to 741741") ]
        else [] in
      let professional_resources :=
        if existsb (fun crisis => mem crisis crisis_types)
                   ["suicidal_ideation"; "self_harm"]
        then [ "Emergency room evaluation";
               "Mental health crisis center";
               "Psychiatrist or therapist" ]
        else [] in
      let self_help_techniques :=
        if forallb (fun urgency => negb (String.eqb urgency "immediate")) urgencies
        then [ "Safety planning"; "Grounding techniques"; "Crisis coping skills" ]
        else [] in
      Some {| immediate_help := immediate_help;
              professional_resources := professional_resources;
              self_help_techniques := self_help_techniques |}
  end.

(** The [resources_needed] entry of the result of [detect_crisis]. *)
Definition resources_needed (text : string) (emotion_context : option EmotionContext)
    : option Resources :=
  _get_crisis_resources (crisis_types (detect_crisis text emotion_context)).


End CrisisDetector.

(** ** crisis_detection.py: CrisisInterventionProtocol *)

(** One value of the [intervention_responses] table; the default protocol
    has no [resources] key. *)
Record Protocol := mkProtocol {
  immediate_response : string;
  safety_questions : list string;
  protocol_resources : option (list string)
}.

(** The dict [generate_crisis_response] returns when a crisis was detected. *)
Module CrisisResponse.
Record t := mk {
  urgency_level : option string;
  immediate_response : string;
  safety_assessment_needed : bool;
  recommended_actions : list string;
  crisis_resources : option Resources;
  follow_up_required : bool;
  safety_questions : option (list string)
}.
End CrisisResponse.

(** [NoCrisis] is the dict [{"crisis_response": False}]. *)
Inductive CrisisResponseResult :=
  | NoCrisis
  | Intervention (response : CrisisResponse.t).

Module CrisisInterventionProtocol.
Import Py.

Definition intervention_responses (crisis_type : CrisisType) : option Protocol :=
  match crisis_type with
  | SUICIDAL_IDEATION =>
      Some {| immediate_response := "I'm very concerned about what you've shared. Your life has value and there are people who want to help. Let's talk about keeping you safe right now.";
              safety_questions :=
                [ "Do you have a plan to hurt yourself?";
                  "Do you have access to means of self-harm?";
                  "Are you alone right now?";
                  "Is there someone you trust who could come be with you?" ];
              protocol_resources :=
                Some ["988 Suicide & Crisis Lifeline"; "Emergency Services 911"] |}
  | SELF_HARM =>
      Some {| immediate_response := "I'm worried about you wanting to hurt yourself. Self-harm might provide temporary relief, but there are safer ways to cope with these feelings.";
              safety_questions :=
                [ "What usually triggers your urge to self-harm?";
                  "Do you have a support person you can call?";
                  "Are you in a safe environment right now?" ];
              protocol_resources :=
                Some ["Crisis Text Line"; "Self-Injury Outreach & Support"] |}
  | SEVERE_DEPRESSION =>
      Some {| immediate_response := "I can hear how much pain you're in right now. These feelings of hopelessness are symptoms of depression, and they can improve with proper support.";
              safety_questions :=
                [ "Have you had thoughts of hurting yourself?";
                  "Who in your life knows you're struggling?";
                  "What has helped you get through difficult times before?" ];
              protocol_resources :=
                Some ["Mental health professionals"; "Depression support groups"] |}
  | _ => None
  end.

Definition _get_default_crisis_protocol : Protocol :=
  {| immediate_response := "I'm concerned about what you've shared. Let's focus on keeping you safe right now and getting you the support you need.";
     safety_questions :=
       [ "Are you safe right now?";
         "Do you have someone you can call for support?";
         "Have you been having thoughts of hurting yourself?" ];
     protocol_resources := None |}.

(** [CrisisType(value)]; [None] is the [ValueError] of a value no member has. *)
Definition CrisisType_of_value (value : string) : option CrisisType :=
  item (map (fun c => (crisis_type_value c, c))
            [ SUICIDAL_IDEATION; SELF_HARM; SEVERE_DEPRESSION;
              PANIC_ATTACK; PSYCHOTIC_EPISODE; SUBSTANCE_ABUSE ])
       value.

Definition priority_order : list CrisisType :=
  [SUICIDAL_IDEATION; SELF_HARM; SEVERE_DEPRESSION; PANIC_ATTACK].

Definition _determine_primary_crisis (crisis_types : list string)
    : option CrisisType :=
  match List.find (fun crisis_type => mem (crisis_type_value crisis_type) crisis_types)
                  priority_order with
  | Some crisis_type => Some crisis_type
  | None =>
      match crisis_types with
      | first :: _ => CrisisType_of_value first
      | [] => Some SEVERE_DEPRESSION
      end
  end.

(** [urgency] is [None] for the value [None] of a detection without a
    category. *)
Definition _get_recommended_actions (urgency : option string) : list string :=
  let monitor :=
    [ "Schedule appointment with mental health professional";
      "Increase social support";
      "Monitor mood and thoughts closely";
      "Use coping strategies";
      "Consider therapy or counseling" ] in
  let actions :=
    [ ("immediate",
       [ "Call 911 if in immediate danger";
         "Call 988 Suicide & Crisis Lifeline";
         "Remove access to means of self-harm";
         "Stay with a trusted person";
         "Go to emergency room" ]);
      ("urgent",
       [ "Call 988 Suicide & Crisis Lifeline";
         "Text HOME to 741741 for crisis support";
         "Contact a mental health professional";
         "Reach out to trusted friend or family";
         "Create a safety plan" ]);
      ("monitor", monitor) ] in
  match urgency with
  | Some urgency => default monitor (item actions urgency)
  | None => monitor
  end.

(** [crisis_info] is a result of [detect_crisis], given by its fields and
    its [resources_needed]; [None] is the [ValueError] raised when the primary
    crisis cannot be determined. *)
Definition generate_crisis_response
    (crisis_info : Detection) (resources_needed : option Resources)
    : option CrisisResponseResult :=
  if negb (crisis_detected crisis_info) then Some NoCrisis
  else
    let crisis_types := map dc_type (crisis_types crisis_info) in
    let highest_urgency := highest_urgency crisis_info in
    primary_crisis ← _determine_primary_crisis crisis_types;
    let protocol :=
      default _get_default_crisis_protocol (intervention_responses primary_crisis) in
    let asks :=
      match highest_urgency with
      | Some urgency => mem urgency ["immediate"; "urgent"]
      | None => false
      end in
    Some (Intervention
            {| CrisisResponse.urgency_level := highest_urgency;
               CrisisResponse.immediate_response := immediate_response protocol;
               CrisisResponse.safety_assessment_needed := true;
               CrisisResponse.recommended_actions :=
                 _get_recommended_actions highest_urgency;
               CrisisResponse.crisis_resources := resources_needed;
               CrisisResponse.follow_up_required := true;
               CrisisResponse.safety_questions :=
                 if asks then Some (safety_questions protocol) else None |}).

End CrisisInterventionProtocol.


(** ** gemma_client.py: GemmaClient *)

(** The [emotion_context] dict given to the response generation, read
    through its keys [primary_emotion] and [risk_level]. *)
Record TherapyContext := mkTherapyContext {
  tc_primary_emotion : option string;
  tc_risk_level : option string
}.

(** The dict the response generation returns. *)
Module TherapeuticResponse.
Record t := mk {
  response : string;
  suggested_technique : string;
  follow_up_question : option string;
  check_in_time : string;
  professional_help_needed : bool;
  crisis_resources_provided : bool
}.
End TherapeuticResponse.

Module GemmaClient.
Import Py.

Definition _fallback_emotion_analysis : GemmaAnalysis :=
  {| g_primary_emotion := Some "unknown";
     g_confidence := Some 0.0%Q;
     g_intensity := Some "medium";
     g_risk_level := Some "low";
     g_crisis_indicators := Some [];
     g_positive_indicators := Some [];
     g_emotional_patterns := Some ["analysis_unavailable"];
     g_suggested_approach := Some "validation" |}.

(** [generated] is the outcome of the [try]: [Some d] when the model answered
    and [json.loads] read its answer as the dict [d], [None] when an
    [Exception] was raised on the way. *)
Definition analyze_emotion_from_text (generated : option GemmaAnalysis)
    : GemmaAnalysis :=
  match generated with
  | Some analysis => analysis
  | None => _fallback_emotion_analysis
  end.

Definition _parse_therapeutic_response (response_text : string)
    : TherapeuticResponse.t :=
  let response_text := strip response_text in
  let text_lower := lower response_text in
  let suggested_technique :=
    if contains "breath" text_lower then "breathing_exercise"
    else if contains "ground" text_lower || contains "5 things" text_lower
    then "grounding_technique"
    else if contains "activity" text_lower || contains "do something" text_lower
    then "behavioral_activation"
    else if contains "crisis" text_lower || contains "help" text_lower
    then "crisis_intervention"
    else "validation" in
  let professional_help_needed :=
    existsb (fun word => contains word text_lower)
            ["crisis"; "professional"; "therapist"; "emergency"] in
  {| TherapeuticResponse.response := response_text;
     TherapeuticResponse.suggested_technique := suggested_technique;
     TherapeuticResponse.follow_up_question := None;
     TherapeuticResponse.check_in_time := "4hours";
     TherapeuticResponse.professional_help_needed := professional_help_needed;
     TherapeuticResponse.crisis_resources_provided := false |}.

Definition fallback_responses : list (string * string) :=
  [ ("anxious", "I can hear that you're feeling anxious. That must be really difficult. Let's try a quick breathing exercise: breathe in for 4 counts, hold for 4, then breathe out for 4. Would you like to try this together?");
    ("depressed", "Thank you for sharing with me. It sounds like you're going through a tough time. Sometimes when we're feeling low, small activities can help. Is there one small thing you enjoyed doing before that we could think about?");
    ("stressed", "It sounds like you're under a lot of pressure right now. Let's try a grounding technique: can you name 5 things you can see around you right now? This can help bring you back to the present moment.");
    ("angry", "I can sense your frustration. Those feelings are valid. When we're angry, it can help to take some deep breaths or do some physical movement. What usually helps you when you're feeling this way?");
    ("unknown", "I'm here to listen and support you. It sounds like you're going through something difficult. Can you tell me more about what's bothering you right now? Sometimes talking it through can help.") ].

Definition technique_mapping : list (string * string) :=
  [ ("anxious", "breathing_exercise");
    ("depressed", "behavioral_activation");
    ("stressed", "grounding_technique");
    ("angry", "emotion_regulation");
    ("unknown", "validation") ].

Definition _fallback_therapeutic_response (emotion_context : TherapyContext)
    : option TherapeuticResponse.t :=
  let emotion := default "unknown" (tc_primary_emotion emotion_context) in
  unknown ← item fallback_responses "unknown";
  Some {| TherapeuticResponse.response :=
            default unknown (item fallback_responses emotion);
          TherapeuticResponse.suggested_technique :=
            default "validation" (item technique_mapping emotion);
          TherapeuticResponse.follow_up_question :=
            Some "What would be most helpful for you right now?";
          TherapeuticResponse.check_in_time := "4hours";
          TherapeuticResponse.professional_help_needed :=
            match tc_risk_level emotion_context with
            | Some risk => mem risk ["high"; "crisis"]
            | None => false
            end;
          TherapeuticResponse.crisis_resources_provided := false |}.

(** The generation profile chosen for a response. *)
Definition config_type (emotion_context : TherapyContext) : string :=
  if bool_decide (tc_risk_level emotion_context = Some "crisis")
  then "crisis" else "therapeutic".

(** [generated] is the outcome of the [try]: [Some text] when the model
    answered with [text], [None] when an [Exception] was raised; the result
    [None] stands for an exception that leaves the method. *)
Definition generate_therapeutic_response
    (generated : option string) (emotion_context : TherapyContext)
    : option TherapeuticResponse.t :=
  match generated with
  | Some response => Some (_parse_therapeutic_response response)
  | None => _fallback_therapeutic_response emotion_context
  end.

End GemmaClient.

(** ** api/main.py: the chat endpoint *)

Module ChatRequest.
Record t := mk {
  message : string;
  user_id : string;
  session_id : option string;
  voice_features : option (gmap string Q)
}.
End ChatRequest.

Module ChatResponse.
Record t := mk {
  response : string;
  session_id : string;
  emotion_detected : string;
  confidence : Q;
  risk_level : string;
  suggested_technique : string;
  follow_up_question : option string;
  professional_help_suggested : bool;
  timestamp : Z
}.
End ChatResponse.


Module Api.
Import Py.

(** The module-level [gemma_client]: it is [None] until [startup_event] has
    set it.  A client is given by what its generation does when it is asked:
    [generation] is [Some text] when the model answers with [text] and [None]
    when the generation raises. *)
Record Client := mkClient {
  generation : option string
}.

(** [HealthResponse] of [health_check], by its [status] and [gemma_status].
    With [gemma_client] still [None] the call of its method raises an
    [AttributeError], which the [try] of the endpoint catches. *)
Definition health_check (gemma_client : option Client) : string * string :=
  let gemma_status :=
    match gemma_client with
    | None => "unhealthy"
    | Some client =>
        match GemmaClient.generate_therapeutic_response (generation client)
                {| tc_primary_emotion := Some "calm";
                   tc_risk_level := Some "low" |} with
        | Some test_response => "healthy"
        | None => "unhealthy"
        end
    end in
  (if String.eqb gemma_status "healthy" then "healthy" else "degraded",
   gemma_status).

(** What an endpoint answers: the body of the reply, or the status of the
    [HTTPException] it raises. *)
Inductive Reply (A : Type) :=
  | Ok (body : A)
  | HttpError (status : Z).
Arguments Ok {A} body.
Arguments HttpError {A} status.

(** [not d.get(k)] for a dict of numbers: the key is missing or its value
    is zero. *)
Definition missing_or_zero (d : gmap string Q) (k : string) : bool :=
  match d !! k with
  | Some value => Qeq_bool value 0
  | None => true
  end.

(** [/voice/features] of the service after [startup_event], for a request
    whose [voice_features], if present, is a dict of numbers; a missing
    entry is the empty dict.  The body holds the fields of the analysis and
    the features as they came in. *)
Definition analyze_voice_features_endpoint
    (request_voice_features : option (gmap string Q))
    : Reply (EmotionAnalysis * gmap string Q) :=
  let voice_features := default ∅ request_voice_features in
  if missing_or_zero voice_features "pitch_mean"
     || missing_or_zero voice_features "energy"
  then HttpError 400
  else
    match VoiceEmotionAnalyzer.analyze_voice_features voice_features with
    | Some emotion_analysis => Ok (emotion_analysis, voice_features)
    | None => HttpError 500
    end.


End Api.


(** ** The voice scorer on machine floats *)

(** [VoiceEmotionAnalyzer] once more, on binary64 numbers with the rounding
    of the hardware: the scores are sums of the literals 0.2, 0.3 and 0.4,
    and a sum such as 0.4 + 0.3 + 0.2 is not the float 0.9.  The features
    are floats; an integer feature of the source is the float of the same
    value. *)
Module Binary64.
Import PrimFloat.

(** [min(x, y)] and [max(x, y)] *)
Definition py_min (x y : float) : float :=
  if PrimFloat.ltb y x then y else x.

Definition py_max (x y : float) : float :=
  if PrimFloat.ltb x y then y else x.

Definition _calculate_anxiety_score
    (pitch_mean pitch_variance speech_rate energy : float) : float :=
  let score := 0.0%float in
  let score := if PrimFloat.ltb 75 pitch_variance then (score + 0.3)%float else score in
  let score := if PrimFloat.ltb 180 speech_rate then (score + 0.3)%float else score in
  let score := if PrimFloat.ltb 200 pitch_mean then (score + 0.2)%float else score in
  let score :=
    if PrimFloat.ltb 0.6 energy
       && (PrimFloat.ltb 60 pitch_variance || PrimFloat.ltb 170 speech_rate)
    then (score + 0.2)%float else score in
  py_min score 1.0.

Definition _calculate_depression_score
    (pitch_mean energy pause_duration speech_rate : float) : float :=
  let score := 0.0%float in
  let score := if PrimFloat.ltb energy 0.3 then (score + 0.4)%float else score in
  let score := if PrimFloat.ltb pitch_mean 120 then (score + 0.3)%float else score in
  let score := if PrimFloat.ltb 1.5 pause_duration then (score + 0.3)%float else score in
  let score := if PrimFloat.ltb speech_rate 120 then (score + 0.2)%float else score in
  py_min score 1.0.

Definition _calculate_stress_score
    (speech_rate pitch_variance energy : float) : float :=
  let score := 0.0%float in
  let score :=
    if PrimFloat.ltb 200 speech_rate || PrimFloat.ltb speech_rate 100
    then (score + 0.3)%float else score in
  let score := if PrimFloat.ltb 80 pitch_variance then (score + 0.3)%float else score in
  let score :=
    if PrimFloat.ltb 0.7 energy && PrimFloat.ltb 60 pitch_variance
    then (score + 0.2)%float else score in
  let score :=
    if (PrimFloat.ltb 0.4 energy && PrimFloat.ltb energy 0.7)
       && (PrimFloat.ltb 190 speech_rate || PrimFloat.ltb speech_rate 110)
    then (score + 0.2)%float else score in
  py_min score 1.0.

Definition _calculate_anger_score (pitch_mean energy speech_rate : float) : float :=
  let score := 0.0%float in
  let score := if PrimFloat.ltb 0.8 energy then (score + 0.4)%float else score in
  let score := if PrimFloat.ltb 180 pitch_mean then (score + 0.3)%float else score in
  let score := if PrimFloat.ltb 190 speech_rate then (score + 0.3)%float else score in
  py_min score 1.0.

Definition _calculate_happiness_score
    (pitch_mean energy speech_rate pitch_variance : float) : float :=
  let score := 0.0%float in
  let score :=
    if PrimFloat.ltb 0.6 energy && PrimFloat.ltb energy 0.9
    then (score + 0.3)%float else score in
  let score :=
    if PrimFloat.ltb 160 pitch_mean && PrimFloat.ltb pitch_mean 200
    then (score + 0.2)%float else score in
  let score :=
    if PrimFloat.ltb 150 speech_rate && PrimFloat.ltb speech_rate 180
    then (score + 0.2)%float else score in
  let score :=
    if PrimFloat.ltb 40 pitch_variance && PrimFloat.ltb pitch_variance 70
    then (score + 0.3)%float else score in
  py_min score 1.0.

Definition _calculate_calm_score
    (pitch_variance speech_rate energy pause_duration : float) : float :=
  let score := 0.0%float in
  let score :=
    if PrimFloat.ltb 25 pitch_variance && PrimFloat.ltb pitch_variance 55
    then (score + 0.3)%float else score in
  let score :=
    if PrimFloat.ltb 140 speech_rate && PrimFloat.ltb speech_rate 170
    then (score + 0.3)%float else score in
  let score :=
    if PrimFloat.ltb 0.4 energy && PrimFloat.ltb energy 0.7
    then (score + 0.2)%float else score in
  let score :=
    if PrimFloat.ltb 0.3 pause_duration && PrimFloat.ltb pause_duration 0.8
    then (score + 0.2)%float else score in
  py_min score 1.0.

(** The [scores] dict, in the order its keys are assigned. *)
Definition _calculate_emotion_scores
    (pitch_mean pitch_variance speech_rate energy pause_duration : float)
    : list (EmotionState * float) :=
  [ (ANXIOUS, _calculate_anxiety_score pitch_mean pitch_variance speech_rate energy);
    (DEPRESSED, _calculate_depression_score pitch_mean energy pause_duration speech_rate);
    (STRESSED, _calculate_stress_score speech_rate pitch_variance energy);
    (ANGRY, _calculate_anger_score pitch_mean energy speech_rate);
    (HAPPY, _calculate_happiness_score pitch_mean energy speech_rate pitch_variance);
    (CALM, _calculate_calm_score pitch_variance speech_rate energy pause_duration) ].

(** The first rule of [_assess_voice_risk]. *)
Definition crisis_rule (depressed energy speech_rate : float) : bool :=
  PrimFloat.ltb 0.8 depressed && PrimFloat.ltb energy 0.2
  && PrimFloat.ltb speech_rate 100.

Definition _assess_voice_risk
    (emotion_scores : list (EmotionState * float))
    (voice_features : gmap string float) : option RiskLevel :=
  let energy := Py.get voice_features "energy" 0.5%float in
  let speech_rate := Py.get voice_features "speech_rate" 150%float in
  let pause_duration := Py.get voice_features "avg_pause_duration" 0.5%float in
  depressed ← Py.item emotion_scores DEPRESSED;
  if crisis_rule depressed energy speech_rate
  then Some CRISIS
  else
    anxious ← Py.item emotion_scores ANXIOUS;
    if PrimFloat.ltb 0.8 anxious && PrimFloat.ltb 2.0 pause_duration
    then Some HIGH
    else
      let concerning_emotions :=
        Py.count (fun score => PrimFloat.ltb 0.7 score) (map snd emotion_scores) in
      if (2 <=? concerning_emotions)%nat
      then Some HIGH
      else
        stressed ← Py.item emotion_scores STRESSED;
        if PrimFloat.ltb 0.6 (py_max (py_max depressed anxious) stressed)
        then Some MEDIUM
        else Some LOW.

Definition _generate_voice_indicators (voice_features : gmap string float)
    : list string :=
  let speech_rate := Py.get voice_features "speech_rate" 150%float in
  let energy := Py.get voice_features "energy" 0.5%float in
  let pitch_variance := Py.get voice_features "pitch_variance" 50%float in
  let pause_duration := Py.get voice_features "avg_pause_duration" 0.5%float in
  (if PrimFloat.ltb 190 speech_rate then ["Rapid speech pattern"]
   else if PrimFloat.ltb speech_rate 120 then ["Slow speech pattern"] else [])
  ++ (if PrimFloat.ltb energy 0.3 then ["Low vocal energy"]
      else if PrimFloat.ltb 0.8 energy then ["High vocal energy"] else [])
  ++ (if PrimFloat.ltb 75 pitch_variance then ["Variable pitch patterns"]
      else if PrimFloat.ltb pitch_variance 25 then ["Monotone speech"] else [])
  ++ (if PrimFloat.ltb 1.5 pause_duration then ["Extended pauses"]
      else if PrimFloat.ltb pause_duration 0.2 then ["Minimal pauses"] else []).

Definition _calculate_intensity (confidence : float) : string :=
  if PrimFloat.ltb 0.7 confidence then "high"
  else if PrimFloat.ltb 0.4 confidence then "medium"
  else "low".

Definition _identify_voice_patterns (voice_features : gmap string float)
    : list string :=
  let energy := Py.get voice_features "energy" 0.5%float in
  let speech_rate := Py.get voice_features "speech_rate" 150%float in
  let pitch_variance := Py.get voice_features "pitch_variance" 50%float in
  (if PrimFloat.ltb energy 0.3 && PrimFloat.ltb speech_rate 120
   then ["potential_depression_indicators"] else [])
  ++ (if PrimFloat.ltb 180 speech_rate && PrimFloat.ltb 70 pitch_variance
      then ["potential_anxiety_indicators"] else [])
  ++ (if (PrimFloat.ltb 200 speech_rate || PrimFloat.ltb speech_rate 100)
         && PrimFloat.ltb 0.6 energy
      then ["potential_stress_indicators"] else []).

(** [max(xs, key=f)] for float keys: the first element whose key is
    maximal. *)
Fixpoint max_from {A} (key : A -> float) (best : A) (xs : list A) : A :=
  match xs with
  | [] => best
  | x :: rest =>
      max_from key (if PrimFloat.ltb (key best) (key x) then x else best) rest
  end.

Definition max_key {A} (key : A -> float) (xs : list A) : option A :=
  match xs with
  | [] => None
  | x :: rest => Some (max_from key x rest)
  end.

(** An [EmotionAnalysis] whose confidence is a float. *)
Record Analysis := mkAnalysis {
  primary_emotion : EmotionState;
  confidence : float;
  risk_level : RiskLevel;
  emotional_indicators : list string;
  suggested_technique : string;
  intensity : string;
  patterns : list string
}.

Definition analyze_voice_features (voice_features : gmap string float)
    : option Analysis :=
  let pitch_mean := Py.get voice_features "pitch_mean" 150%float in
  let pitch_variance := Py.get voice_features "pitch_variance" 50%float in
  let speech_rate := Py.get voice_features "speech_rate" 150%float in
  let energy := Py.get voice_features "energy" 0.5%float in
  let pause_duration := Py.get voice_features "avg_pause_duration" 0.5%float in
  let emotion_scores :=
    _calculate_emotion_scores
      pitch_mean pitch_variance speech_rate energy pause_duration in
  primary ← max_key (fun e => default 0%float (Py.item emotion_scores e))
                     (map fst emotion_scores);
  conf ← Py.item emotion_scores primary;
  risk ← _assess_voice_risk emotion_scores voice_features;
  Some {| primary_emotion := primary;
          confidence := conf;
          risk_level := risk;
          emotional_indicators := _generate_voice_indicators voice_features;
          suggested_technique :=
            VoiceEmotionAnalyzer._suggest_voice_technique primary risk;
          intensity := _calculate_intensity conf;
          patterns := _identify_voice_patterns voice_features |}.

(** The voice features of the scenario of the specification as floats
    ([avg_pause_duration] is left out), and the scores they get. *)
Definition scenario64 : gmap string float :=
  {[ "pitch_mean" := 110%float; "pitch_variance" := 15%float;
     "speech_rate" := 90%float; "energy" := 0.1%float ]}.

Definition scenario64_scores : list (EmotionState * float) :=
  _calculate_emotion_scores 110 15 90 0.1 0.5.

(** A slow and quiet voice with no other sign: energy 0.25 and 110 words a
    minute. *)
Definition quiet_voice64 : gmap string float :=
  {[ "speech_rate" := 110%float; "energy" := 0.25%float ]}.

End Binary64.

(** ** Vocabulary of the properties *)

(** The order [low < medium < high < crisis], as the specification words it. *)
Definition risk_rank (r : RiskLevel) : nat :=
  match r with LOW => 0 | MEDIUM => 1 | HIGH => 2 | CRISIS => 3 end.

Definition risk_le (a b : RiskLevel) : Prop := risk_rank a <= risk_rank b.

Definition risk_max (a b : RiskLevel) : RiskLevel :=
  if (risk_rank a <? risk_rank b)%nat then b else a.

(** The voice features of the scenario; [avg_pause_duration] is left out. *)
Definition scenario : gmap string Q :=
  {[ "pitch_mean" := 110%Q; "pitch_variance" := 15%Q;
     "speech_rate" := 90%Q; "energy" := 0.1%Q ]}.

(** A slow and quiet voice with no other sign: energy 0.25 and 110 words a
    minute. *)
Definition quiet_voice : gmap string Q :=
  {[ "speech_rate" := 110%Q; "energy" := 0.25%Q ]}.

(** The weighted sum of the two confidences. *)
Definition weighted (va ta : EmotionAnalysis) : Q :=
  (confidence va * MultimodalEmotionFusion.voice_weight
   + confidence ta * MultimodalEmotionFusion.text_weight)%Q.

(** An analysis with a given emotion, confidence and risk level. *)
Definition analysis_of (e : EmotionState) (c : Q) (r : RiskLevel) : EmotionAnalysis :=
  {| primary_emotion := e; confidence := c; risk_level := r;
     emotional_indicators := []; suggested_technique := "validation";
     intensity := "medium"; patterns := [] |}.

(** A dict as the prompt of the client asks for it: the model reports a low
    risk and no crisis indicator. *)
Definition low_risk_reply : GemmaAnalysis :=
  {| g_primary_emotion := Some "depressed";
     g_confidence := Some 0.8%Q;
     g_intensity := Some "high";
     g_risk_level := Some "low";
     g_crisis_indicators := Some [];
     g_positive_indicators := Some [];
     g_emotional_patterns := Some ["hopelessness"];
     g_suggested_approach := Some "cbt" |}.

(** The arguments of one call of [add_interaction]. *)
Record Call := mkCall {
  call_stamp : Z;
  call_last : Z;
  call_user : string;
  call_assistant : string;
  call_analysis : EmotionAnalysis
}.

Definition call_of (n : Z) (e : EmotionState) (r : RiskLevel) : Call :=
  {| call_stamp := n; call_last := n;
     call_user := "user"; call_assistant := "assistant";
     call_analysis := analysis_of e 0.5 r |}.

(** The history entry a call appends. *)
Definition interaction_of (call : Call) : Interaction.t :=
  {| Interaction.timestamp := call_stamp call;
     Interaction.user := call_user call;
     Interaction.assistant := call_assistant call;
     Interaction.emotion := emotion_value (primary_emotion (call_analysis call));
     Interaction.risk_level := risk_value (risk_level (call_analysis call));
     Interaction.confidence := confidence (call_analysis call) |}.

Definition step (self : ConversationManager.t) (context : ConversationContext)
    (call : Call) : ConversationContext :=
  ConversationManager.add_interaction self (call_stamp call) (call_last call)
    context (call_user call) (call_assistant call) (call_analysis call).

(** A sequence of [add_interaction] calls on one context. *)
Definition run (self : ConversationManager.t) (context : ConversationContext)
    (calls : list Call) : ConversationContext :=
  fold_left (step self) calls context.

(** The last [n] elements of a list. *)
Definition lastn {A} (n : nat) (xs : list A) : list A :=
  drop (length xs - n) xs.

(** No reference of the session table dangles. *)
Definition wf (st : ConversationManager.Store) : Prop :=
  forall key ref,
    ConversationManager.active_sessions (ConversationManager.self st) !! key
    = Some ref ->
    ref < length (ConversationManager.heap st).

(** The store of a manager with the default settings after the first lookup
    of the session "s1" of "user", at the instant 0. *)
Definition store_s1 : ConversationManager.Store :=
  snd (ConversationManager._create_new_context 0 0
         (ConversationManager.__init__ 20 3600) "user" "s1").

(** The entry the loop of [detect_crisis] appends for a category, if any. *)
Definition entry (text_lower : string) (row : CrisisType * Patterns)
    : option DetectedCrisis :=
  let score := CrisisDetector._calculate_crisis_score text_lower (snd row) in
  if Py.gtb score 0.3
  then Some {| dc_type := crisis_type_value (fst row);
               dc_score := score;
               dc_urgency := urgency_value (urgency (snd row)) |}
  else None.

(** What the [emotion_context] adds to the detected crises. *)
Definition from_context (emotion_context : option EmotionContext)
    : list DetectedCrisis :=
  match emotion_context with
  | Some ctx => CrisisDetector._detect_contextual_crisis ctx
  | None => []
  end.

(** An emotion context that reports a crisis with confidence 0.9. *)
Definition crisis_context : EmotionContext :=
  {| ec_risk_level := Some "crisis"; ec_confidence := Some 0.9%Q |}.

(** The dict of scores [analyze_voice_features] computes for a dict of
    features. *)
Definition voice_scores (voice_features : gmap string Q)
    : list (EmotionState * Q) :=
  VoiceEmotionAnalyzer._calculate_emotion_scores
    (Py.get voice_features "pitch_mean" 150%Q)
    (Py.get voice_features "pitch_variance" 50%Q)
    (Py.get voice_features "speech_rate" 150%Q)
    (Py.get voice_features "energy" 0.5%Q)
    (Py.get voice_features "avg_pause_duration" 0.5%Q).


(** The three tags [_update_risk_assessment] sets, and the four goals
    [_update_therapeutic_goals] adds. *)
Definition session_tags : list string :=
  [ "session_crisis_detected"; "session_persistent_negative_mood";
    "session_escalating_risk" ].

Definition goal_tags : list string :=
  [ "anxiety_management"; "mood_improvement"; "stress_reduction";
    "anger_management" ].

(** An analysis whose emotion is depressed, anxious or stressed. *)
Definition negative (analysis : EmotionAnalysis) : bool :=
  bool_decide (primary_emotion analysis ∈ ConversationManager.negative_emotions).

(** The risk levels of a window of analyses never go down. *)
Definition escalating (window : list EmotionAnalysis) : bool :=
  ConversationManager.all_adjacent
    (fun a b => (ConversationManager.risk_values a
                 <=? ConversationManager.risk_values b)%Z)
    (map risk_level window).

(** The session tags [_update_risk_assessment] computes from the emotion
    history and the latest analysis. *)
Definition session_flags (history : list EmotionAnalysis) (latest : EmotionAnalysis)
    : list string :=
  (if decide (risk_level latest = CRISIS) then ["session_crisis_detected"] else [])
  ++ (if (4 <=? Py.count negative (lastn 5 history))%nat
      then ["session_persistent_negative_mood"] else [])
  ++ (if (3 <=? length history)%nat && escalating (lastn 3 history)
      then ["session_escalating_risk"] else []).

(** The techniques an analysis built from a reply of the client can name. *)
Definition text_techniques : list string :=
  [ "crisis_intervention"; "safety_planning"; "cbt"; "behavioral_activation";
    "validation"; "breathing_exercise"; "grounding_technique";
    "emotion_regulation"; "clarification_questions" ].


(** The context a reference points to was last used before [cutoff_time]. *)
Definition expired (heap : list ConversationContext) (cutoff_time : Z) (ref : nat)
    : bool :=
  match heap !! ref with
  | Some context => (last_interaction context <? cutoff_time)%Z
  | None => false
  end.

(** The goals after [_update_therapeutic_goals], from the goals before. *)
Definition goals_after (goals : list string) (ea : EmotionAnalysis) : list string :=
  let goals :=
    match ConversationManager.goal_mapping (primary_emotion ea) with
    | Some goal => if Py.mem goal goals then goals else goals ++ [goal]
    | None => goals
    end in
  if (3 <? length goals)%nat then Py.slice_from (-3) goals else goals.


(** The string holds no space. *)
Fixpoint spaceless (s : string) : bool :=
  match s with
  | EmptyString => true
  | String c rest => negb (Ascii.eqb c " ") && spaceless rest
  end.

(** One of the keywords of a theme occurs in the lower-cased text of one of
    the last five user messages. *)
Definition theme_matches (context : ConversationContext)
    (row : string * list string) : bool :=
  existsb (fun keyword =>
             existsb (fun interaction =>
                        Py.contains keyword (Py.lower (Interaction.user interaction)))
                     (Py.slice_from (-5) (conversation_history context)))
          (snd row).




(** ** Facts about the Python helpers *)

(** Membership in a list that is written out. *)
Ltac in_list := apply list_elem_of_In; simpl; tauto.

Section PyFacts.
Import Py.

Example lower_mixed_case : lower "I want to END it all" = "i want to end it all".
Proof. reflexivity. Qed.

Example contains_inside : contains "end it all" "i want to end it all" = true.
Proof. reflexivity. Qed.

Example contains_absent : contains "end it all" "the end of it all" = false.
Proof. reflexivity. Qed.

Example contains_empty : contains "" "" = true.
Proof. reflexivity. Qed.

Example slice_last_two : slice_from (-2) [1; 2; 3] = [2; 3].
Proof. reflexivity. Qed.

Example slice_last_five_of_three : slice_from (-5) [1; 2; 3] = [1; 2; 3].
Proof. reflexivity. Qed.

Example slice_minus_zero : slice_from (- 0) [1; 2; 3] = [1; 2; 3].
Proof. reflexivity. Qed.

Example slice_from_two : slice_from 2 [1; 2; 3] = [3].
Proof. reflexivity. Qed.

Example max_key_first_of_ties :
  max_key (fun n : nat => if (n <? 3)%nat then 1%Q else 0%Q) [5; 1; 2; 7]%nat
  = Some 1%nat.
Proof. reflexivity. Qed.

Lemma ltb_lt (x y : Q) : ltb x y = true <-> (x < y)%Q.
Proof.
  unfold ltb. rewrite negb_true_iff, <- not_true_iff_false, Qle_bool_iff.
  split; [apply Qnot_le_lt | apply Qlt_not_le].
Qed.

Lemma ltb_ge (x y : Q) : ltb x y = false <-> (y <= x)%Q.
Proof. unfold ltb. rewrite negb_false_iff. apply Qle_bool_iff. Qed.

Lemma gtb_gt (x y : Q) : gtb x y = true <-> (y < x)%Q.
Proof. apply ltb_lt. Qed.

Lemma gtb_le (x y : Q) : gtb x y = false <-> (x <= y)%Q.
Proof. apply ltb_ge. Qed.

Lemma max_from_elem {A} (key : A -> Q) (xs : list A) (best : A) :
  max_from key best xs ∈ best :: xs.
Proof.
  revert best. induction xs as [|x xs IH]; intros best; simpl.
  - apply list_elem_of_here.
  - pose proof (IH (if gtb (key x) (key best) then x else best)) as Hin.
    apply elem_of_cons in Hin as [->|Hin].
    + destruct (gtb (key x) (key best)).
      * apply list_elem_of_further, list_elem_of_here.
      * apply list_elem_of_here.
    + by do 2 apply list_elem_of_further.
Qed.

Lemma max_from_first {A} (key : A -> Q) (xs : list A) (best : A) :
  (forall x, x ∈ xs -> gtb (key x) (key best) = false) ->
  max_from key best xs = best.
Proof.
  induction xs as [|x xs IH]; intros Hle; simpl; [done|].
  rewrite Hle by apply list_elem_of_here.
  apply IH. intros y Hy. apply Hle. by apply list_elem_of_further.
Qed.

Lemma max_key_elem {A} (key : A -> Q) (xs : list A) (x : A) :
  max_key key xs = Some x -> x ∈ xs.
Proof.
  destruct xs as [|y ys]; simpl; [discriminate|].
  intros [= <-]. apply max_from_elem.
Qed.

Lemma item_is_Some {K V} `{EqDecision K} (d : list (K * V)) (k : K) :
  k ∈ map fst d -> is_Some (item d k).
Proof.
  induction d as [|[k' v] d IH]; simpl; intros Hin.
  - by apply elem_of_nil in Hin.
  - destruct (decide (k' = k)); [eauto|].
    apply IH. apply elem_of_cons in Hin as [->|Hin]; [congruence | done].
Qed.

Lemma mem_In (x : string) (xs : list string) : mem x xs = true <-> In x xs.
Proof.
  unfold mem. rewrite existsb_exists. split.
  - intros (y & Hy & Hxy). apply String.eqb_eq in Hxy. by subst.
  - intros Hx. exists x. split; [done | apply String.eqb_refl].
Qed.

Lemma slice_from_0 {A} (xs : list A) : slice_from 0 xs = xs.
Proof. unfold slice_from. simpl. by rewrite Z.min_l by lia. Qed.

Lemma max_from_max {A} (key : A -> Q) (xs : list A) (best : A) (x : A) :
  x ∈ best :: xs -> (key x <= key (max_from key best xs))%Q.
Proof.
  revert best x. induction xs as [|y xs IH]; intros best x Hx; simpl.
  - apply list_elem_of_singleton in Hx as ->. apply Qle_refl.
  - set (b := if gtb (key y) (key best) then y else best).
    assert (key best <= key b /\ key y <= key b)%Q as [Hb Hy].
    { unfold b. destruct (gtb (key y) (key best)) eqn:Hgt.
      - apply gtb_gt in Hgt. split; [by apply Qlt_le_weak | apply Qle_refl].
      - apply gtb_le in Hgt. split; [apply Qle_refl | done]. }
    apply elem_of_cons in Hx as [->|Hx].
    + eapply Qle_trans; [exact Hb | apply IH, list_elem_of_here].
    + apply elem_of_cons in Hx as [->|Hx].
      * eapply Qle_trans; [exact Hy | apply IH, list_elem_of_here].
      * by apply IH, list_elem_of_further.
Qed.

Lemma max_key_max {A} (key : A -> Q) (xs : list A) (m x : A) :
  max_key key xs = Some m -> x ∈ xs -> (key x <= key m)%Q.
Proof.
  destruct xs as [|y ys]; simpl; [discriminate|].
  intros [= <-]. apply max_from_max.
Qed.

Lemma item_Some_elem {K V} `{EqDecision K} (d : list (K * V)) (k : K) (v : V) :
  item d k = Some v -> (k, v) ∈ d.
Proof.
  induction d as [|[k' v'] d IH]; simpl; [discriminate|].
  destruct (decide (k' = k)) as [->|_].
  - intros [= ->]. apply list_elem_of_here.
  - intros Hd. by apply list_elem_of_further, IH.
Qed.

Lemma count_le_length {A} (p : A -> bool) (xs : list A) :
  count p xs <= length xs.
Proof. unfold count. apply length_filter. Qed.


End PyFacts.

(** ** Properties of the voice scorer *)

Module VoiceSpec.
Import Py VoiceEmotionAnalyzer.

Lemma analyze_voice_features_returns (voice_features : gmap string Q) :
  is_Some (analyze_voice_features voice_features).
Proof.
  unfold analyze_voice_features.
  set (scores := _calculate_emotion_scores _ _ _ _ _).
  destruct (max_key _ (map fst scores)) as [primary|] eqn:Hmax; [|discriminate].
  apply max_key_elem in Hmax.
  destruct (item_is_Some scores primary Hmax) as [conf Hconf].
  unfold mbind, option_bind. rewrite Hconf.
  assert (is_Some (_assess_voice_risk scores voice_features)) as [risk ->]; [|by eauto].
  unfold _assess_voice_risk.
  destruct (item_is_Some scores DEPRESSED) as [d ->]; [in_list|].
  destruct (item_is_Some scores ANXIOUS) as [a ->]; [in_list|].
  destruct (item_is_Some scores STRESSED) as [s ->]; [in_list|].
  simpl.
  repeat match goal with |- context [if ?b then _ else _] => destruct b end;
    simpl; eauto.
Qed.

(** The voice scorer never raises: for every dict of features it hands back
    an analysis, because the dict of scores always has its six keys. *)
Theorem analyze_voice_features_total (voice_features : gmap string Q) :
  is_Some (analyze_voice_features voice_features).
Proof. apply analyze_voice_features_returns. Qed.

End VoiceSpec.

Module Binary64Spec.
Import PrimFloat.

(** On binary64 numbers the depression score of the scenario is the float
    just below 0.9; it is still above 0.8, so the crisis rule fires all the
    same. *)
Theorem binary64_depression_score :
  (Binary64._calculate_depression_score 110 0.1 0.5 90 = 0.8999999999999999)%float
  /\ (PrimFloat.eqb (Binary64._calculate_depression_score 110 0.1 0.5 90) 0.9)%float = false
  /\ (Binary64.crisis_rule (Binary64._calculate_depression_score 110 0.1 0.5 90)
                           0.1 90)%float = true.
Proof. repeat split; reflexivity. Qed.

(** C8, on the numbers the code computes with.  For pitch_mean 110,
    pitch_variance 15, speech_rate 90, energy 0.1 and the pause duration
    defaulted to 0.5, the scorer answers DEPRESSED; the score is the float
    0.8999999999999999, the sum 0.4 + 0.3 + 0.2 as binary64 rounds it, which
    is below 0.9; every other emotion scores strictly less; and the risk is
    CRISIS because the first rule of the risk assessment (depressed score
    above 0.8, energy below 0.2, speech rate below 100) fires. *)
Theorem C8_scenario_depressed_crisis :
  Py.get Binary64.scenario64 "avg_pause_duration" 0.5%float = 0.5%float
  /\ (exists a,
        Binary64.analyze_voice_features Binary64.scenario64 = Some a
        /\ Binary64.primary_emotion a = DEPRESSED
        /\ Binary64.confidence a = 0.8999999999999999%float
        /\ PrimFloat.ltb (Binary64.confidence a) 0.9 = true
        /\ Binary64.risk_level a = CRISIS)
  /\ Forall (fun entry =>
               fst entry = DEPRESSED
               \/ PrimFloat.ltb (snd entry) 0.8999999999999999 = true)
            Binary64.scenario64_scores
  /\ (exists d, Py.item Binary64.scenario64_scores DEPRESSED = Some d
                /\ PrimFloat.ltb 0.8 d = true
                /\ PrimFloat.ltb (Py.get Binary64.scenario64 "energy" 0.5%float) 0.2 = true
                /\ PrimFloat.ltb (Py.get Binary64.scenario64 "speech_rate" 150%float) 100
                   = true).
Proof.
  split; [reflexivity|]. split; [|split].
  - eexists. split; [vm_compute; reflexivity|]. by repeat split.
  - unfold Binary64.scenario64_scores, Binary64._calculate_emotion_scores.
    repeat (apply List.Forall_cons;
            [first [left; reflexivity | right; reflexivity]|]).
    apply List.Forall_nil.
  - eexists. split; [vm_compute; reflexivity|]. by repeat split.
Qed.

(** The claim C8 gives the score as 0.9: the score the scorer hands back
    for the scenario is not the float 0.9. *)
Lemma C8_counterexample :
  exists a,
    Binary64.analyze_voice_features Binary64.scenario64 = Some a
    /\ PrimFloat.eqb (Binary64.confidence a) 0.9 = false.
Proof. eexists. split; [vm_compute; reflexivity|]. reflexivity. Qed.

(** Rounding decides a risk level.  For a voice with energy 0.25 and 110
    words a minute the depression score is 0.4 + 0.2, which binary64 rounds
    to 0.6000000000000001: it passes the test "above 0.6" and the scorer
    answers MEDIUM, where the same sum in exact arithmetic is 0.6 and gives
    LOW. *)
Theorem binary64_rounding_raises_risk :
  (exists a,
     Binary64.analyze_voice_features Binary64.quiet_voice64 = Some a
     /\ Binary64.primary_emotion a = DEPRESSED
     /\ Binary64.confidence a = 0.6000000000000001%float
     /\ Binary64.risk_level a = MEDIUM)
  /\ (exists ea,
        VoiceEmotionAnalyzer.analyze_voice_features quiet_voice = Some ea
        /\ primary_emotion ea = DEPRESSED
        /\ (confidence ea == 0.6)%Q
        /\ risk_level ea = LOW).
Proof.
  split.
  - eexists. split; [vm_compute; reflexivity|]. by repeat split.
  - eexists. split; [vm_compute; reflexivity|]. by repeat split.
Qed.

End Binary64Spec.

(** ** Properties of the fusion engine *)

Module FusionSpec.
Import Py MultimodalEmotionFusion.

Lemma fuse_risk_level (va ta : EmotionAnalysis) :
  risk_level (fuse_emotions (Some va) ta)
  = max_from risk_priorities (risk_level va) [risk_level ta].
Proof. unfold fuse_emotions. by destruct (bool_decide _). Qed.

(** C7.  With a voice analysis present, the fused risk level is the larger
    of the two risk levels in the order low < medium < high < crisis: it is
    one of the two, and neither of the two lies above it. *)
Theorem C7_fused_risk_is_max (va ta : EmotionAnalysis) :
  let r := risk_level (fuse_emotions (Some va) ta) in
  r = risk_max (risk_level va) (risk_level ta)
  /\ (r = risk_level va \/ r = risk_level ta)
  /\ risk_le (risk_level va) r
  /\ risk_le (risk_level ta) r.
Proof.
  cbv zeta. rewrite fuse_risk_level.
  destruct (risk_level va), (risk_level ta); vm_compute; intuition lia.
Qed.

Lemma fuse_confidence (va ta : EmotionAnalysis) :
  confidence (fuse_emotions (Some va) ta)
  = Qmax (if bool_decide (primary_emotion va = primary_emotion ta)
          then Qmin (weighted va ta + agreement_bonus) 1.0
          else (weighted va ta * 0.8)%Q)
         min_confidence.
Proof. unfold fuse_emotions, weighted. by destruct (bool_decide _). Qed.

(** C9.  When both confidences lie in [0,1], the fused confidence lies in
    [0.3, 1]: it is the 0.4/0.6 weighted sum, plus 0.2 and capped at 1.0 when
    the emotions agree, times 0.8 when they differ, and in both cases raised
    to at least 0.3. *)
Theorem C9_fused_confidence_bounds (va ta : EmotionAnalysis) :
  (0 <= confidence va <= 1)%Q ->
  (0 <= confidence ta <= 1)%Q ->
  let w := (confidence va * 0.4 + confidence ta * 0.6)%Q in
  let c := confidence (fuse_emotions (Some va) ta) in
  (primary_emotion va = primary_emotion ta -> c = Qmax (Qmin (w + 0.2) 1.0) 0.3)
  /\ (primary_emotion va <> primary_emotion ta -> c = Qmax (w * 0.8) 0.3)
  /\ (0.3 <= c <= 1)%Q.
Proof.
  intros Hv Ht. cbv zeta. rewrite fuse_confidence.
  unfold weighted, voice_weight, text_weight, agreement_bonus, min_confidence.
  split; [|split].
  - intros Heq. by rewrite bool_decide_eq_true_2.
  - intros Hne. by rewrite bool_decide_eq_false_2.
  - destruct (bool_decide _).
    + split; [apply Q.le_max_r|]. apply Q.max_lub; [|lra].
      eapply Qle_trans; [apply Q.le_min_r | lra].
    + split; [apply Q.le_max_r|]. apply Q.max_lub; lra.
Qed.

Lemma C9_witness :
  (0.3 <= confidence
            (fuse_emotions (Some (analysis_of DEPRESSED 0.9 CRISIS))
                           (analysis_of ANXIOUS 0.1 LOW)) <= 1)%Q.
Proof.
  refine (proj2 (proj2 (C9_fused_confidence_bounds
                          (analysis_of DEPRESSED 0.9 CRISIS)
                          (analysis_of ANXIOUS 0.1 LOW) _ _)));
    split; vm_compute; discriminate.
Defined.

End FusionSpec.

(** ** Properties of the text analyzer *)

Module TextSpec.
Import Py TextEmotionAnalyzer.

Lemma detect_crisis_keywords_true (text : string) :
  _detect_crisis_keywords text = true
  <-> exists keyword, keyword ∈ crisis_keywords /\ contains keyword text = true.
Proof.
  unfold _detect_crisis_keywords. rewrite existsb_exists.
  split; intros (k & Hk & Hc); exists k; split; try done; by apply list_elem_of_In.
Qed.

Lemma keyword_scores_keys (text_lower : string) :
  map fst (keyword_scores text_lower) = [ANXIOUS; DEPRESSED; STRESSED; ANGRY; HAPPY].
Proof. reflexivity. Qed.

Lemma max_key_None {A} (key : A -> Q) (xs : list A) :
  max_key key xs = None -> xs = [].
Proof. by destruct xs. Qed.

(** The keyword fallback never raises, and its risk level is decided by the
    crisis flag alone. *)
Lemma fallback_total (text : string) (crisis_detected : bool) :
  exists ea, _fallback_text_analysis text crisis_detected = Some ea
             /\ risk_level ea = (if crisis_detected then CRISIS else LOW)
             /\ emotional_indicators ea = ["Keyword-based analysis"]
             /\ patterns ea = ["fallback_analysis"].
Proof.
  unfold _fallback_text_analysis.
  pose proof (keyword_scores_keys (lower text)) as Hkeys.
  set (scores := keyword_scores (lower text)) in *.
  destruct scores as [|entry rest] eqn:Hscores; [discriminate|].
  rewrite <- Hscores in *. clear Hscores entry rest.
  destruct (max_key _ (map fst scores)) as [primary|] eqn:Hmax.
  - apply max_key_elem in Hmax.
    destruct (item_is_Some scores primary Hmax) as [conf Hconf].
    unfold mbind, option_bind. rewrite Hconf. eauto.
  - apply max_key_None in Hmax. rewrite Hkeys in Hmax. discriminate.
Qed.

(** C1.  When the lowercased text contains one of the crisis keywords, the
    analysis is returned with risk level CRISIS, whatever dict the client
    handed back and also when the call failed and the keyword fallback ran. *)
Theorem C1_crisis_keyword_forces_crisis
    (text : string) (gemma : option GemmaAnalysis) :
  (exists keyword, keyword ∈ crisis_keywords
                   /\ contains keyword (lower text) = true) ->
  exists ea, analyze_text_emotion text gemma = Some ea /\ risk_level ea = CRISIS.
Proof.
  intros Hkw. apply detect_crisis_keywords_true in Hkw.
  unfold analyze_text_emotion. rewrite Hkw.
  destruct gemma as [g|].
  - eexists. split; [reflexivity|]. reflexivity.
  - destruct (fallback_total text true) as (ea & -> & Hrisk & _). eauto.
Qed.

(** C2, as the code has it.  When the lowercased text contains a crisis
    keyword and the client hands back a dict whose list of crisis indicators
    is empty or missing, the keyword fallback is not used: the result keeps the
    emotion and the patterns of the dict, its risk level is CRISIS, and its
    indicators are the positive indicators of the dict followed by
    "Crisis keywords detected". *)
Theorem C2_crisis_without_indicators_keeps_reply
    (text : string) (g : GemmaAnalysis) :
  (exists keyword, keyword ∈ crisis_keywords
                   /\ contains keyword (lower text) = true) ->
  default [] (g_crisis_indicators g) = [] ->
  exists ea,
    analyze_text_emotion text (Some g) = Some ea
    /\ primary_emotion ea = _string_to_emotion (default "calm" (g_primary_emotion g))
    /\ risk_level ea = CRISIS
    /\ emotional_indicators ea
       = default [] (g_positive_indicators g) ++ ["Crisis keywords detected"]
    /\ patterns ea = default [] (g_emotional_patterns g).
Proof.
  intros Hkw Hnone. apply detect_crisis_keywords_true in Hkw.
  unfold analyze_text_emotion. rewrite Hkw.
  eexists. split; [reflexivity|].
  unfold from_gemma. simpl. rewrite Hnone. by repeat split.
Qed.

(** When every keyword score is zero the fallback answers with the first key
    of its score dict, ANXIOUS, and the score 0. *)
Lemma fallback_all_zero (text : string) (crisis_detected : bool) :
  Forall (fun entry => (snd entry == 0)%Q) (keyword_scores (lower text)) ->
  exists ea, _fallback_text_analysis text crisis_detected = Some ea
             /\ primary_emotion ea = ANXIOUS
             /\ (confidence ea == 0)%Q
             /\ risk_level ea = (if crisis_detected then CRISIS else LOW).
Proof.
  intros Hzero. unfold _fallback_text_analysis.
  pose proof (keyword_scores_keys (lower text)) as Hkeys.
  remember (keyword_scores (lower text)) as scores eqn:Hscores. clear Hscores.
  destruct scores as [|[e1 s1] [|[e2 s2] [|[e3 s3] [|[e4 s4] [|[e5 s5] [|]]]]]];
    try discriminate.
  injection Hkeys as -> -> -> -> ->.
  apply Forall_cons in Hzero as [Hz1 Hzero].
  apply Forall_cons in Hzero as [Hz2 Hzero].
  apply Forall_cons in Hzero as [Hz3 Hzero].
  apply Forall_cons in Hzero as [Hz4 Hzero].
  apply Forall_cons in Hzero as [Hz5 _].
  cbn [snd] in *.
  assert (forall a b : Q, (a == 0)%Q -> (b == 0)%Q -> gtb a b = false) as Hgt.
  { intros a b Ha Hb. apply gtb_le. rewrite Ha, Hb. apply Qle_refl. }
  set (scores := [(ANXIOUS, s1); (DEPRESSED, s2); (STRESSED, s3);
                  (ANGRY, s4); (HAPPY, s5)]).
  assert (max_key (fun e => default 0%Q (item scores e)) (map fst scores)
          = Some ANXIOUS) as ->.
  { cbn [map fst scores max_key]. f_equal. apply max_from_first.
    intros x Hx. apply Hgt; [|exact Hz1].
    repeat (apply elem_of_cons in Hx as [->|Hx]; [assumption|]).
    by apply elem_of_nil in Hx. }
  unfold mbind, option_bind.
  change (item scores ANXIOUS) with (Some s1).
  eexists. split; [reflexivity|]. by repeat split.
Qed.

(** C3, at a text without any emotion keyword.  Every keyword score of
    "hello" is zero and no crisis keyword occurs in it; when the client call
    fails the fallback answers ANXIOUS with confidence 0 (and risk LOW), not
    CALM with confidence 0.3: the dict of scores is never empty, so the branch
    that holds the CALM default is not reached. *)
Theorem C3_all_zero_fallback_is_anxious :
  Forall (fun entry => (snd entry == 0)%Q) (keyword_scores (lower "hello"))
  /\ _detect_crisis_keywords (lower "hello") = false
  /\ exists ea,
       analyze_text_emotion "hello" None = Some ea
       /\ primary_emotion ea = ANXIOUS
       /\ (confidence ea == 0)%Q
       /\ risk_level ea = LOW
       /\ primary_emotion ea <> CALM
       /\ ~ (confidence ea == 0.3)%Q.
Proof.
  split; [|split].
  - vm_compute. by repeat constructor.
  - reflexivity.
  - eexists. split; [vm_compute; reflexivity|]. by repeat split.
Qed.

Lemma C1_witness :
  (exists ea,
     analyze_text_emotion "I want to end it all" (Some low_risk_reply) = Some ea
     /\ risk_level ea = CRISIS)
  /\ (exists ea,
        analyze_text_emotion "I want to end it all" None = Some ea
        /\ risk_level ea = CRISIS).
Proof.
  split; apply C1_crisis_keyword_forces_crisis; exists "end it all";
    (split; [in_list | reflexivity]).
Defined.

(** The claim C2 fails at "I want to end it all" with a reply that lists no
    crisis indicator: the result carries the indicator "Crisis keywords
    detected" and the patterns of the reply, not those of the fallback. *)
Lemma C2_counterexample :
  _detect_crisis_keywords (lower "I want to end it all") = true
  /\ g_crisis_indicators low_risk_reply = Some []
  /\ exists ea,
       analyze_text_emotion "I want to end it all" (Some low_risk_reply) = Some ea
       /\ primary_emotion ea = DEPRESSED
       /\ emotional_indicators ea = ["Crisis keywords detected"]
       /\ emotional_indicators ea <> ["Keyword-based analysis"]
       /\ patterns ea = ["hopelessness"]
       /\ patterns ea <> ["fallback_analysis"].
Proof.
  split; [reflexivity|]. split; [reflexivity|].
  eexists. split; [reflexivity|]. by repeat split.
Qed.

Lemma C2_witness :
  exists ea,
    analyze_text_emotion "I want to end it all" (Some low_risk_reply) = Some ea
    /\ primary_emotion ea = DEPRESSED
    /\ risk_level ea = CRISIS
    /\ emotional_indicators ea = ["Crisis keywords detected"]
    /\ patterns ea = ["hopelessness"].
Proof.
  apply (C2_crisis_without_indicators_keeps_reply
           "I want to end it all" low_risk_reply).
  - exists "end it all". split; [in_list | reflexivity].
  - reflexivity.
Defined.

End TextSpec.

(** ** Properties of the conversation manager *)

Module ConversationSpec.
Import Py ConversationManager.

Lemma add_interaction_conversation_history self t_stamp t_last context u a ea :
  conversation_history (add_interaction self t_stamp t_last context u a ea)
  = let conv :=
      conversation_history context
      ++ [ {| Interaction.timestamp := t_stamp;
              Interaction.user := u;
              Interaction.assistant := a;
              Interaction.emotion := emotion_value (primary_emotion ea);
              Interaction.risk_level := risk_value (risk_level ea);
              Interaction.confidence := confidence ea |} ] in
    if (max_history self <? Z.of_nat (length conv))%Z
    then slice_from (- max_history self) conv else conv.
Proof.
  unfold add_interaction. cbv zeta.
  by destruct (max_history self <? _)%Z.
Qed.

Lemma add_interaction_emotion_history self t_stamp t_last context u a ea :
  emotion_history (add_interaction self t_stamp t_last context u a ea)
  = let emo := emotion_history context ++ [ea] in
    if (max_history self <? Z.of_nat (length (conversation_history context ++
          [ {| Interaction.timestamp := t_stamp;
              Interaction.user := u;
              Interaction.assistant := a;
              Interaction.emotion := emotion_value (primary_emotion ea);
              Interaction.risk_level := risk_value (risk_level ea);
              Interaction.confidence := confidence ea |} ])))%Z
    then slice_from (- max_history self) emo else emo.
Proof.
  unfold add_interaction. cbv zeta.
  by destruct (max_history self <? _)%Z.
Qed.

Lemma update_risk_assessment_crisis context ea :
  risk_level ea = CRISIS ->
  "session_crisis_detected" ∈ risk_flags (_update_risk_assessment context ea).
Proof.
  intros Hrisk. unfold _update_risk_assessment. cbv zeta. simpl.
  rewrite decide_True by done.
  repeat match goal with
         | |- context [if ?b then _ else _] => destruct b
         end;
    rewrite ?elem_of_app, ?list_elem_of_singleton; tauto.
Qed.

Lemma update_therapeutic_goals_risk_flags context ea :
  risk_flags (_update_therapeutic_goals context ea) = risk_flags context.
Proof. reflexivity. Qed.

Lemma add_interaction_crisis_flag self t_stamp t_last context u a ea :
  risk_level ea = CRISIS ->
  "session_crisis_detected"
    ∈ risk_flags (add_interaction self t_stamp t_last context u a ea).
Proof.
  intros Hrisk. unfold add_interaction. cbv zeta.
  destruct (max_history self <? _)%Z;
    rewrite update_therapeutic_goals_risk_flags;
    by apply update_risk_assessment_crisis.
Qed.

(** C4.  [should_suggest_professional_help] answers true exactly when the
    flag "session_crisis_detected" is set, or both
    "session_persistent_negative_mood" and "session_escalating_risk" are set,
    or the session has lasted more than two hours and holds more than 15
    interactions; and it answers true for the context left by one
    [add_interaction] whose analysis has risk level CRISIS. *)
Theorem C4_professional_help_rule
    (self : t) (now t_stamp t_last : Z) (context : ConversationContext)
    (user_input ai_response : string) (ea : EmotionAnalysis) :
  (should_suggest_professional_help now context = true
   <-> ("session_crisis_detected" ∈ risk_flags context
        \/ ("session_persistent_negative_mood" ∈ risk_flags context
            /\ "session_escalating_risk" ∈ risk_flags context)
        \/ ((now - session_start context > timedelta_hours 2)%Z
            /\ 15 < length (conversation_history context))))
  /\ (risk_level ea = CRISIS ->
      should_suggest_professional_help now
        (add_interaction self t_stamp t_last context user_input ai_response ea)
      = true).
Proof.
  assert (forall now context,
    should_suggest_professional_help now context = true
    <-> ("session_crisis_detected" ∈ risk_flags context
         \/ ("session_persistent_negative_mood" ∈ risk_flags context
             /\ "session_escalating_risk" ∈ risk_flags context)
         \/ ((now - session_start context > timedelta_hours 2)%Z
             /\ 15 < length (conversation_history context)))) as Hrule.
  { clear. intros now context. unfold should_suggest_professional_help.
    rewrite !list_elem_of_In, <- !mem_In.
    destruct (mem "session_crisis_detected" _); [tauto|].
    destruct (mem "session_persistent_negative_mood" _),
             (mem "session_escalating_risk" _); simpl; try tauto.
    all: destruct (Z.gtb_spec (now - session_start context) (timedelta_hours 2));
      destruct (Nat.ltb_spec 15 (length (conversation_history context)));
      simpl; intuition (try discriminate; try lia). }
  split; [apply Hrule|].
  intros Hrisk. apply Hrule. left. by apply add_interaction_crisis_flag.
Qed.

Lemma C4_witness :
  should_suggest_professional_help 0
    (add_interaction (mk 20 3600 ∅) 0 0 (new_context "user" "s1" 0 0)
       "I want to end it all" "I am here with you"
       (analysis_of DEPRESSED 0.9 CRISIS))
  = true.
Proof.
  apply (proj2 (C4_professional_help_rule
                  (mk 20 3600 ∅) 0 0 0 (new_context "user" "s1" 0 0)
                  "I want to end it all" "I am here with you"
                  (analysis_of DEPRESSED 0.9 CRISIS))).
  reflexivity.
Defined.

(** *** The bounded histories *)

Lemma lastn_length {A} (n : nat) (xs : list A) :
  length (lastn n xs) = Nat.min n (length xs).
Proof. unfold lastn. rewrite length_drop. lia. Qed.

Lemma slice_from_neg_lastn {A} (n : Z) (xs : list A) :
  (0 < n)%Z -> slice_from (- n) xs = lastn (Z.to_nat n) xs.
Proof.
  intros Hn. unfold slice_from, lastn.
  destruct (Z.ltb_spec (- n) 0) as [_|]; [|lia].
  f_equal. lia.
Qed.

Lemma lastn_all {A} (n : nat) (xs : list A) :
  length xs <= n -> lastn n xs = xs.
Proof. intros Hle. unfold lastn. by replace (length xs - n) with 0 by lia. Qed.

Lemma lastn_snoc {A} (n : nat) (xs : list A) (x : A) :
  1 <= n -> lastn n (lastn n xs ++ [x]) = lastn n (xs ++ [x]).
Proof.
  intros Hn. destruct (Nat.le_gt_cases (length xs) n) as [Hle|Hgt].
  - by rewrite (lastn_all n xs).
  - unfold lastn at 1 3. rewrite !length_app, lastn_length. simpl.
    replace (Nat.min n (length xs) + 1 - n) with 1 by lia.
    unfold lastn.
    rewrite !drop_app_le by (rewrite ?length_drop; lia).
    rewrite drop_drop. do 2 f_equal. lia.
Qed.

(** One call keeps the last [max_history] entries of the extended lists. *)
Lemma step_histories (self : t) (context : ConversationContext) (call : Call) :
  (1 <= max_history self)%Z ->
  length (conversation_history context) = length (emotion_history context) ->
  let n := Z.to_nat (max_history self) in
  conversation_history (step self context call)
  = lastn n (conversation_history context ++ [interaction_of call])
  /\ emotion_history (step self context call)
     = lastn n (emotion_history context ++ [call_analysis call]).
Proof.
  intros Hmax Hlen n. unfold step.
  rewrite add_interaction_conversation_history, add_interaction_emotion_history.
  cbv zeta. fold (interaction_of call).
  destruct (Z.ltb_spec (max_history self)
              (Z.of_nat (length (conversation_history context ++ [interaction_of call]))))
    as [Hlt|Hge].
  - by rewrite !slice_from_neg_lastn by lia.
  - rewrite !lastn_all; [done| |]; rewrite length_app in *; simpl in *; lia.
Qed.

(** With a bound of at least one, the two histories of a context created by
    the manager are, after any sequence of calls, the last [max_history]
    interactions and the last [max_history] analyses of that sequence. *)
Lemma run_histories (self : t) (uid sid : string) (t_last t_start : Z)
    (calls : list Call) :
  (1 <= max_history self)%Z ->
  let n := Z.to_nat (max_history self) in
  let context := run self (new_context uid sid t_last t_start) calls in
  conversation_history context = lastn n (map interaction_of calls)
  /\ emotion_history context = lastn n (map call_analysis calls).
Proof.
  intros Hmax n. cbv zeta. unfold run.
  induction calls as [|call calls IH] using rev_ind; [done|].
  rewrite fold_left_app. simpl. destruct IH as [IHc IHe].
  destruct (step_histories self
              (fold_left (step self) calls (new_context uid sid t_last t_start))
              call Hmax) as [Hc He].
  { rewrite IHc, IHe, !lastn_length, !length_map. done. }
  rewrite Hc, He, IHc, IHe, !map_app. simpl.
  fold n. rewrite !lastn_snoc by lia. done.
Qed.

(** The invariant of the bounded histories, for a bound of at least one:
    after any sequence of calls on a context created by the manager the two
    histories have the same length, at most [max_history], and hold the last
    [max_history] interactions and analyses of the sequence. *)
Theorem run_bounded (self : t) (uid sid : string) (t_last t_start : Z)
    (calls : list Call) :
  (1 <= max_history self)%Z ->
  let context := run self (new_context uid sid t_last t_start) calls in
  length (conversation_history context) = length (emotion_history context)
  /\ (Z.of_nat (length (conversation_history context)) <= max_history self)%Z
  /\ (Z.of_nat (length (emotion_history context)) <= max_history self)%Z
  /\ conversation_history context
     = lastn (Z.to_nat (max_history self)) (map interaction_of calls)
  /\ emotion_history context
     = lastn (Z.to_nat (max_history self)) (map call_analysis calls).
Proof.
  intros Hmax. cbv zeta.
  destruct (run_histories self uid sid t_last t_start calls Hmax) as [-> ->].
  rewrite !lastn_length, !length_map. repeat split; lia.
Qed.

Lemma run_bounded_witness :
  let self := mk 3 3600 ∅ in
  let calls := [ call_of 1 HAPPY LOW; call_of 2 CALM LOW; call_of 3 ANXIOUS MEDIUM;
                 call_of 4 STRESSED MEDIUM; call_of 5 DEPRESSED HIGH ] in
  let context := run self (new_context "user" "session" 0 0) calls in
  length (conversation_history context) = length (emotion_history context)
  /\ (Z.of_nat (length (conversation_history context)) <= 3)%Z
  /\ (Z.of_nat (length (emotion_history context)) <= 3)%Z
  /\ conversation_history context = lastn 3 (map interaction_of calls)
  /\ emotion_history context = lastn 3 (map call_analysis calls).
Proof.
  cbv zeta.
  apply (run_bounded (mk 3 3600 ∅) "user" "session" 0 0). simpl. lia.
Defined.

(** With a bound of three, five additions leave the last three in both lists. *)
Example run_three_of_five :
  let self := mk 3 3600 ∅ in
  let calls := [ call_of 1 HAPPY LOW; call_of 2 CALM LOW; call_of 3 ANXIOUS MEDIUM;
                 call_of 4 STRESSED MEDIUM; call_of 5 DEPRESSED HIGH ] in
  let context := run self (new_context "user" "session" 0 0) calls in
  conversation_history context = map interaction_of (drop 2 calls)
  /\ emotion_history context = map call_analysis (drop 2 calls).
Proof. by vm_compute. Qed.

(** A bound of zero removes nothing: [xs[-0:]] is the whole list. *)
Lemma step_zero_bound (timeout : Z) (sessions : gmap string nat)
    (context : ConversationContext) (call : Call) :
  let self := mk 0 timeout sessions in
  conversation_history (step self context call)
  = conversation_history context ++ [interaction_of call]
  /\ emotion_history (step self context call)
     = emotion_history context ++ [call_analysis call].
Proof.
  cbv zeta. unfold step.
  rewrite add_interaction_conversation_history, add_interaction_emotion_history.
  cbv zeta. simpl max_history. fold (interaction_of call).
  destruct (0 <? _)%Z; by rewrite ?slice_from_0.
Qed.

(** C5, at the bound zero.  With [max_history = 0] nothing is ever evicted:
    after any sequence of calls on a context created by the manager both
    histories hold every interaction of the sequence, so that already after
    one call their length, one, exceeds the bound. *)
Theorem C5_zero_bound_never_evicts
    (timeout : Z) (sessions : gmap string nat) (uid sid : string)
    (t_last t_start : Z) (calls : list Call) :
  let self := mk 0 timeout sessions in
  let context := run self (new_context uid sid t_last t_start) calls in
  conversation_history context = map interaction_of calls
  /\ emotion_history context = map call_analysis calls
  /\ length (conversation_history
               (run self (new_context uid sid t_last t_start)
                    [call_of 1 DEPRESSED HIGH])) = 1
  /\ (max_history self
      < Z.of_nat (length (conversation_history
                            (run self (new_context uid sid t_last t_start)
                                 [call_of 1 DEPRESSED HIGH]))))%Z.
Proof.
  cbv zeta. split; [|split; [|split]]; [| |reflexivity|simpl; lia].
  - unfold run. induction calls as [|call calls IH] using rev_ind; [done|].
    rewrite fold_left_app, map_app. simpl.
    destruct (step_zero_bound timeout sessions
                (fold_left (step (mk 0 timeout sessions)) calls
                           (new_context uid sid t_last t_start)) call) as [-> _].
    by rewrite IH.
  - unfold run. induction calls as [|call calls IH] using rev_ind; [done|].
    rewrite fold_left_app, map_app. simpl.
    destruct (step_zero_bound timeout sessions
                (fold_left (step (mk 0 timeout sessions)) calls
                           (new_context uid sid t_last t_start)) call) as [_ ->].
    by rewrite IH.
Qed.

(** *** Sessions and their expiry *)

Lemma timedelta_Some (seconds : Z) :
  timedelta_ok seconds -> timedelta seconds = Some (timedelta_seconds seconds).
Proof.
  unfold timedelta_ok, timedelta. intros Hok.
  by destruct (Z.leb_spec (Z.abs (seconds / 86400)) 999999999); [|lia].
Qed.

Lemma timedelta_None (seconds : Z) :
  timedelta seconds = None <-> ~ timedelta_ok seconds.
Proof.
  unfold timedelta_ok, timedelta.
  destruct (Z.leb_spec (Z.abs (seconds / 86400)) 999999999); split;
    try done; try lia.
Qed.

Lemma timedelta_inv (seconds delta : Z) :
  timedelta seconds = Some delta ->
  timedelta_ok seconds /\ delta = timedelta_seconds seconds.
Proof.
  unfold timedelta_ok, timedelta.
  destruct (Z.leb_spec (Z.abs (seconds / 86400)) 999999999); [|done].
  by intros [= <-].
Qed.

Lemma init_wf (max_history session_timeout : Z) :
  wf (__init__ max_history session_timeout).
Proof. intros key ref Hkey. simpl in Hkey. by rewrite lookup_empty in Hkey. Qed.

Lemma create_new_context_spec (t_last t_start : Z) (st : Store) (uid sid : string) :
  let '(ref, st') := _create_new_context t_last t_start st uid sid in
  ref = length (heap st)
  /\ heap st' = heap st ++ [new_context uid sid t_last t_start]
  /\ heap st' !! ref = Some (new_context uid sid t_last t_start)
  /\ active_sessions (self st') !! context_key uid sid = Some ref
  /\ max_history (self st') = max_history (self st)
  /\ session_timeout (self st') = session_timeout (self st).
Proof.
  unfold _create_new_context. simpl. repeat split.
  - by apply list_lookup_middle.
  - apply lookup_insert_eq.
Qed.

Lemma create_new_context_wf (t_last t_start : Z) (st : Store) (uid sid : string) :
  wf st -> wf (snd (_create_new_context t_last t_start st uid sid)).
Proof.
  intros Hwf key ref. unfold _create_new_context. simpl.
  rewrite length_app. simpl. rewrite lookup_insert.
  case_decide; [intros [= <-]; lia|].
  intros Hkey. apply Hwf in Hkey. lia.
Qed.


(** When [get_or_create_context] raises.  On a store without dangling
    references the call fails in one case only: a session is stored under the
    key it looks up and the session timeout is more than a [timedelta] can
    hold, so that building the timeout for the expiry test overflows.  A
    lookup that misses never builds the timeout and never fails.  When the
    call returns, the context it hands back is stored under the key, and the
    store it leaves has no dangling reference and the same timeout. *)
Theorem get_or_create_context_outcome
    (now t_last t_start : Z) (uuid4 : string) (st : Store)
    (uid : string) (session : option string) :
  wf st ->
  let sid := if falsy session then uuid4 else default "" session in
  let result := get_or_create_context now t_last t_start uuid4 st uid session in
  (result = None
   <-> is_Some (active_sessions (self st) !! context_key uid sid)
       /\ ~ timedelta_ok (session_timeout (self st)))
  /\ (forall ref st',
        result = Some (ref, st') ->
        wf st'
        /\ session_timeout (self st') = session_timeout (self st)
        /\ active_sessions (self st') !! context_key uid sid = Some ref
        /\ is_Some (heap st' !! ref)).
Proof.
  intros Hwf. cbv zeta. unfold get_or_create_context.
  set (sid := if falsy session then uuid4 else default "" session).
  pose proof (create_new_context_spec t_last t_start st uid sid) as Hnew.
  pose proof (create_new_context_wf t_last t_start st uid sid Hwf) as Hwf'.
  destruct (_create_new_context t_last t_start st uid sid) as [ref' st'] eqn:Hcreate.
  destruct Hnew as (_ & _ & Hheap & Hkey' & _ & Htimeout).
  destruct (active_sessions (self st) !! context_key uid sid) as [ref|] eqn:Hkey.
  - destruct (lookup_lt_is_Some_2 (heap st) ref (Hwf _ _ Hkey)) as [context Hctx].
    rewrite Hctx. cbn [mbind option_bind].
    destruct (timedelta (session_timeout (self st))) as [timeout|] eqn:Hdelta;
      cbn [mbind option_bind].
    + apply timedelta_inv in Hdelta as [Hok _].
      destruct (_ >? _)%Z.
      * split; [split; [done | by intros [_ ?]]|].
        intros r s [= <- <-]. eauto.
      * split; [split; [done | by intros [_ ?]]|].
        intros r s [= <- <-]. eauto.
    + apply timedelta_None in Hdelta. split; [|done].
      split; [by eauto | done].
  - split; [split; [done | by intros [[? ?] _]]|].
    intros r s [= <- <-]. eauto.
Qed.

(** When a context is stored for the pair of a user id and a non-empty
    session id, [get_or_create_context] hands back that very context and
    leaves the store as it is, as long as the time since its last interaction
    does not exceed the session timeout; once it does, the call hands back a
    new context, stored under the same key, whose history, emotion history,
    risk flags and goals are empty, while the expired context itself is left
    as it was. *)
Lemma stored_session_lookup
    (st : Store) (uid sid : string) (ref : nat) (context : ConversationContext)
    (now t_last t_start : Z) (uuid4 : string) :
  sid <> "" ->
  timedelta_ok (session_timeout (self st)) ->
  active_sessions (self st) !! context_key uid sid = Some ref ->
  heap st !! ref = Some context ->
  let timeout := timedelta_seconds (session_timeout (self st)) in
  let result :=
    get_or_create_context now t_last t_start uuid4 st uid (Some sid) in
  ((now - last_interaction context <= timeout)%Z -> result = Some (ref, st))
  /\ ((now - last_interaction context > timeout)%Z ->
      exists ref' st' fresh,
        result = Some (ref', st')
        /\ ref' <> ref
        /\ active_sessions (self st') !! context_key uid sid = Some ref'
        /\ heap st' !! ref' = Some fresh
        /\ user_id fresh = uid /\ session_id fresh = sid
        /\ conversation_history fresh = []
        /\ emotion_history fresh = []
        /\ risk_flags fresh = []
        /\ therapeutic_goals fresh = []
        /\ heap st' !! ref = Some context).
Proof.
  intros Hsid Hok Hkey Hctx timeout result. subst timeout result.
  unfold get_or_create_context, falsy.
  rewrite bool_decide_eq_false_2 by done. simpl default.
  rewrite Hkey, Hctx, (timedelta_Some _ Hok). simpl.
  destruct (Z.gtb_spec (now - last_interaction context)
              (timedelta_seconds (session_timeout (self st)))) as [Hgt|Hle].
  - split; [lia|]. intros _.
    pose proof (create_new_context_spec t_last t_start st uid sid) as Hnew.
    destruct (_create_new_context t_last t_start st uid sid) as [ref' st'].
    destruct Hnew as (-> & Hheap & Hfresh & Hkey' & _).
    exists (length (heap st)), st', (new_context uid sid t_last t_start).
    apply lookup_lt_Some in Hctx as Hlt.
    repeat split; try done; [lia|].
    rewrite Hheap, lookup_app_l by done.
    by apply lookup_lt_Some in Hlt || idtac.
  - split; [done|]. lia.
Qed.

(** After a call with a non-empty session id a context is stored for the pair. *)
Lemma get_or_create_context_binds
    (now t_last t_start : Z) (uuid4 : string) (st : Store) (uid sid : string)
    (ref : nat) (st' : Store) :
  sid <> "" ->
  get_or_create_context now t_last t_start uuid4 st uid (Some sid) = Some (ref, st') ->
  active_sessions (self st') !! context_key uid sid = Some ref
  /\ is_Some (heap st' !! ref).
Proof.
  intros Hsid. unfold get_or_create_context, falsy.
  rewrite bool_decide_eq_false_2 by done. simpl default.
  pose proof (create_new_context_spec t_last t_start st uid sid) as Hnew.
  destruct (_create_new_context t_last t_start st uid sid) as [r s].
  destruct Hnew as (_ & _ & Hfresh & Hkey' & _).
  destruct (active_sessions (self st) !! context_key uid sid) as [r0|] eqn:Hkey.
  - destruct (heap st !! r0) as [context|] eqn:Hctx; [|discriminate].
    cbn [mbind option_bind].
    destruct (timedelta (session_timeout (self st))); [|discriminate].
    cbn [mbind option_bind].
    destruct (_ >? _)%Z; intros [= <- <-]; eauto.
  - intros [= <- <-]. eauto.
Qed.

Lemma get_or_create_context_outcome_witness :
  get_or_create_context 1 1 1 "uuid"
    (mkStore (heap store_s1) (mk 20 100000000000000 (active_sessions (self store_s1))))
    "user" (Some "s1")
  = None.
Proof.
  apply (get_or_create_context_outcome 1 1 1 "uuid"
           (mkStore (heap store_s1)
                    (mk 20 100000000000000 (active_sessions (self store_s1))))
           "user" (Some "s1")).
  - intros key ref Hkey. by apply (create_new_context_wf 0 0 (__init__ 20 3600)
                                      "user" "s1" (init_wf 20 3600) key).
  - split; [by eexists|]. vm_compute. by intros H.
Defined.

(** C6, for a session id that is given and a session timeout that a
    [timedelta] can hold.  After a call of
    [get_or_create_context] with a user id and a non-empty session id, a
    second call with the same pair hands back the very same context and
    leaves the store as it is, as long as the time since the last interaction
    of that context does not exceed the session timeout; once it does, the
    second call hands back a new context, stored under the same key, whose
    history, emotion history, risk flags and goals are empty, while the
    expired context itself is left as it was. *)
Theorem C6_same_session_until_expiry
    (st : Store) (uid sid : string) (now1 t_last1 t_start1 : Z) (uuid1 : string)
    (ref1 : nat) (st1 : Store) :
  sid <> "" ->
  timedelta_ok (session_timeout (self st1)) ->
  get_or_create_context now1 t_last1 t_start1 uuid1 st uid (Some sid)
  = Some (ref1, st1) ->
  exists context1,
    heap st1 !! ref1 = Some context1
    /\ forall (now2 t_last2 t_start2 : Z) (uuid2 : string),
         let timeout := timedelta_seconds (session_timeout (self st1)) in
         let second :=
           get_or_create_context now2 t_last2 t_start2 uuid2 st1 uid (Some sid) in
         ((now2 - last_interaction context1 <= timeout)%Z ->
          second = Some (ref1, st1))
         /\ ((now2 - last_interaction context1 > timeout)%Z ->
             exists ref2 st2 fresh,
               second = Some (ref2, st2)
               /\ ref2 <> ref1
               /\ active_sessions (self st2) !! context_key uid sid = Some ref2
               /\ heap st2 !! ref2 = Some fresh
               /\ user_id fresh = uid /\ session_id fresh = sid
               /\ conversation_history fresh = []
               /\ emotion_history fresh = []
               /\ risk_flags fresh = []
               /\ therapeutic_goals fresh = []
               /\ heap st2 !! ref1 = Some context1).
Proof.
  intros Hsid Hok Hfirst.
  destruct (get_or_create_context_binds _ _ _ _ _ _ _ _ _ Hsid Hfirst)
    as [Hkey [context1 Hctx]].
  exists context1. split; [done|].
  intros now2 t_last2 t_start2 uuid2.
  by apply stored_session_lookup.
Qed.

Example first_lookup_s1 :
  get_or_create_context 0 0 0 "uuid-0" (__init__ 20 3600) "user" (Some "s1")
  = Some (0, store_s1).
Proof. reflexivity. Qed.

Lemma C6_witness :
  get_or_create_context 1000000 1000000 1000000 "uuid-1" store_s1 "user" (Some "s1")
  = Some (0, store_s1)
  /\ exists ref2 st2 fresh,
       get_or_create_context 3600000001 3600000001 3600000001 "uuid-2"
         store_s1 "user" (Some "s1") = Some (ref2, st2)
       /\ ref2 <> 0
       /\ active_sessions (self st2) !! context_key "user" "s1" = Some ref2
       /\ heap st2 !! ref2 = Some fresh
       /\ conversation_history fresh = []
       /\ emotion_history fresh = []
       /\ risk_flags fresh = []
       /\ therapeutic_goals fresh = [].
Proof.
  assert ("s1" <> "") as Hsid by discriminate.
  assert (timedelta_ok (session_timeout (self store_s1))) as Hok
    by (vm_compute; discriminate).
  destruct (C6_same_session_until_expiry
              (__init__ 20 3600) "user" "s1" 0 0 0 "uuid-0" 0 store_s1
              Hsid Hok eq_refl) as (context1 & Hctx & Hsecond).
  change (Some (new_context "user" "s1" 0 0) = Some context1) in Hctx.
  injection Hctx as <-.
  split.
  - apply (Hsecond 1000000 1000000 1000000 "uuid-1")%Z. vm_compute. discriminate.
  - destruct (proj2 (Hsecond 3600000001 3600000001 3600000001 "uuid-2")%Z)
      as (ref2 & st2 & fresh & H1 & H2 & H3 & H4 & _ & _ & H7 & H8 & H9 & H10 & _).
    { vm_compute. reflexivity. }
    exists ref2, st2, fresh. repeat split; assumption.
Defined.

(** The claim C6 fails for the empty session id: each of two lookups of
    ("user", "") made one microsecond apart draws a new uuid and creates a
    session of its own, so the second call does not hand back the context of
    the first. *)
Lemma C6_counterexample :
  exists r1 st1 c1 r2 st2 c2,
    get_or_create_context 0 0 0 "uuid-1" (__init__ 20 3600) "user" (Some "")
    = Some (r1, st1)
    /\ heap st1 !! r1 = Some c1
    /\ (1 - last_interaction c1 < timedelta_seconds (session_timeout (self st1)))%Z
    /\ get_or_create_context 1 1 1 "uuid-2" st1 "user" (Some "") = Some (r2, st2)
    /\ heap st2 !! r2 = Some c2
    /\ r2 <> r1
    /\ session_id c1 = "uuid-1"
    /\ session_id c2 = "uuid-2"
    /\ length (heap st2) = 2.
Proof.
  eexists _, _, _, _, _, _.
  split; [vm_compute; reflexivity|].
  split; [vm_compute; reflexivity|].
  split; [vm_compute; reflexivity|].
  split; [vm_compute; reflexivity|].
  split; [vm_compute; reflexivity|].
  split; [discriminate|].
  by repeat split.
Qed.

End ConversationSpec.

(** ** Properties of the crisis detector *)

Module CrisisSpec.
Import Py CrisisDetector.

Lemma scan_fst (text_lower : string) (table : list (CrisisType * Patterns))
    (acc : list DetectedCrisis) (h : option CrisisUrgency) :
  fst (scan text_lower table acc h) = acc ++ omap (entry text_lower) table.
Proof.
  revert acc h. induction table as [|[c p] table IH]; intros acc h; simpl.
  - by rewrite app_nil_r.
  - unfold entry at 1. simpl.
    destruct (gtb _ 0.3); rewrite IH; [|done].
    by rewrite <- app_assoc.
Qed.

Lemma detect_crisis_types (text : string) (emotion_context : option EmotionContext) :
  crisis_types (detect_crisis text emotion_context)
  = omap (entry (lower text)) crisis_patterns ++ from_context emotion_context.
Proof.
  unfold detect_crisis.
  pose proof (scan_fst (lower text) crisis_patterns [] None) as Hscan.
  destruct (scan (lower text) crisis_patterns [] None) as [detected h].
  cbn [fst] in Hscan. rewrite app_nil_l in Hscan. subst detected.
  destruct emotion_context; cbn [crisis_types from_context];
    [done | by rewrite app_nil_r].
Qed.

Lemma detect_crisis_detected (text : string) (emotion_context : option EmotionContext) :
  crisis_detected (detect_crisis text emotion_context)
  = (0 <? length (crisis_types (detect_crisis text emotion_context)))%nat.
Proof.
  unfold detect_crisis.
  destruct (scan (lower text) crisis_patterns [] None) as [detected h].
  by destruct emotion_context.
Qed.

(** The threshold in terms of the two match counts. *)
Lemma score_above_threshold (text : string) (patterns : Patterns) :
  (0.3 < _calculate_crisis_score text patterns)%Q
  <-> 2 <= keyword_matches text patterns \/ 1 <= phrase_matches text patterns.
Proof.
  unfold _calculate_crisis_score.
  set (k := keyword_matches text patterns). set (p := phrase_matches text patterns).
  rewrite Q.max_lt_iff, !Q.min_glb_lt_iff.
  assert ((0.3 < inject_Z (Z.of_nat k) * 0.3)%Q <-> 2 <= k) as ->.
  { unfold Qlt. simpl. lia. }
  assert ((0.3 < inject_Z (Z.of_nat p) * 0.5)%Q <-> 1 <= p) as ->.
  { unfold Qlt. simpl. lia. }
  assert (0.3 < 0.8)%Q by reflexivity. assert (0.3 < 1.0)%Q by reflexivity.
  tauto.
Qed.

Lemma single_keyword_score (text : string) (patterns : Patterns) :
  keyword_matches text patterns = 1 ->
  phrase_matches text patterns = 0 ->
  (_calculate_crisis_score text patterns == 0.3)%Q.
Proof.
  intros Hk Hp. unfold _calculate_crisis_score. rewrite Hk, Hp. reflexivity.
Qed.

Lemma entries_types (text_lower : string) (table : list (CrisisType * Patterns))
    (name : string) :
  name ∈ map dc_type (omap (entry text_lower) table)
  <-> exists c p, (c, p) ∈ table /\ name = crisis_type_value c
                  /\ (0.3 < _calculate_crisis_score text_lower p)%Q.
Proof.
  induction table as [|[c p] table IH]; simpl.
  - split; [intros Hin; by apply elem_of_nil in Hin|].
    intros (c & p & Hin & _). by apply elem_of_nil in Hin.
  - unfold entry at 1. simpl.
    destruct (gtb _ 0.3) eqn:Hgt; simpl.
    + apply gtb_gt in Hgt. rewrite elem_of_cons, IH. split.
      * intros [->|(c' & p' & Hin & Hname & Hs)].
        -- exists c, p. split; [apply list_elem_of_here | done].
        -- exists c', p'. split; [by apply list_elem_of_further | done].
      * intros (c' & p' & Hin & Hname & Hs).
        apply elem_of_cons in Hin as [[= -> ->]|Hin]; [by left|].
        right. eauto.
    + apply gtb_le in Hgt. rewrite IH. split.
      * intros (c' & p' & Hin & Hname & Hs).
        exists c', p'. split; [by apply list_elem_of_further | done].
      * intros (c' & p' & Hin & Hname & Hs).
        apply elem_of_cons in Hin as [[= -> ->]|Hin]; [|eauto].
        exfalso. by apply (Qlt_not_le _ _ Hs).
Qed.

Lemma context_types (emotion_context : option EmotionContext) (name : string) :
  name ∈ map dc_type (from_context emotion_context) ->
  name = "contextual_crisis" \/ name = "contextual_high_risk".
Proof.
  destruct emotion_context as [ctx|]; simpl;
    [|intros Hin; by apply elem_of_nil in Hin].
  unfold _detect_contextual_crisis.
  repeat match goal with |- context [if ?b then _ else _] => destruct b end;
    simpl; rewrite ?list_elem_of_singleton; auto;
    intros Hin; by apply elem_of_nil in Hin.
Qed.

(** C10, with the part the emotion context plays.  A category of the table
    is listed in the result exactly when its score is strictly above 0.3; a
    single keyword match without a phrase match scores exactly 0.3, which is
    not above the threshold; and when the emotion context adds no crisis of
    its own (it is missing, or reports neither risk "crisis" with confidence
    above 0.7 nor risk "high" with confidence above 0.8), a crisis is detected
    exactly when some category has two keyword matches or one phrase match. *)
Theorem C10_detection_threshold
    (text : string) (emotion_context : option EmotionContext) :
  (forall c p,
     (c, p) ∈ crisis_patterns ->
     crisis_type_value c
       ∈ map dc_type (crisis_types (detect_crisis text emotion_context))
     <-> (0.3 < _calculate_crisis_score (lower text) p)%Q)
  /\ (forall p,
        keyword_matches (lower text) p = 1 ->
        phrase_matches (lower text) p = 0 ->
        (_calculate_crisis_score (lower text) p == 0.3)%Q)
  /\ (from_context emotion_context = [] ->
      crisis_detected (detect_crisis text emotion_context) = true
      <-> exists c p,
            (c, p) ∈ crisis_patterns
            /\ (2 <= keyword_matches (lower text) p
                \/ 1 <= phrase_matches (lower text) p)).
Proof.
  split; [|split].
  - intros c p Hin. rewrite detect_crisis_types, map_app, elem_of_app, entries_types.
    split.
    + intros [(c' & p' & Hin' & Hname & Hs)|Hctx].
      * assert (c' = c) as ->.
        { destruct c, c'; simpl in Hname; congruence. }
        assert (p' = p) as ->; [|done].
        clear -Hin Hin'. unfold crisis_patterns in *.
        repeat (apply elem_of_cons in Hin as [Hin|Hin];
                [injection Hin as -> ->|]);
          try (by apply elem_of_nil in Hin);
          repeat (apply elem_of_cons in Hin' as [Hin'|Hin'];
                  [try discriminate; by injection Hin' as ->|]);
          by apply elem_of_nil in Hin'.
      * apply context_types in Hctx. destruct c, Hctx; discriminate.
    + intros Hs. left. eauto.
  - intros p. apply single_keyword_score.
  - intros Hctx. rewrite detect_crisis_detected, detect_crisis_types, Hctx, app_nil_r.
    rewrite Nat.ltb_lt. split.
    + intros Hlen.
      destruct (omap (entry (lower text)) crisis_patterns) as [|d ds] eqn:Hd;
        [simpl in Hlen; lia|].
      assert (dc_type d ∈ map dc_type (omap (entry (lower text)) crisis_patterns))
        as Hin by (rewrite Hd; apply list_elem_of_here).
      apply entries_types in Hin as (c & p & Hin & _ & Hs).
      exists c, p. split; [done|]. by apply score_above_threshold.
    + intros (c & p & Hin & Hs). apply score_above_threshold in Hs.
      assert (crisis_type_value c
                ∈ map dc_type (omap (entry (lower text)) crisis_patterns)) as Hmem.
      { apply entries_types. eauto. }
      destruct (omap (entry (lower text)) crisis_patterns);
        [by apply elem_of_nil in Hmem | simpl; lia].
Qed.

Lemma C10_witness :
  crisis_detected (detect_crisis "I feel hopeless and worthless" None) = true.
Proof.
  apply (proj2 (proj2 (C10_detection_threshold
                         "I feel hopeless and worthless" None)) eq_refl).
  eexists SEVERE_DEPRESSION, _. split.
  - apply list_elem_of_In. simpl. right. right. left. reflexivity.
  - left. vm_compute. lia.
Defined.

(** The claim C10 fails when the emotion context reports a crisis: the text
    "I feel hopeless" matches one keyword of one category and nothing else,
    and a crisis is detected all the same. *)
Lemma C10_counterexample :
  map (fun row => (keyword_matches (lower "I feel hopeless") (snd row),
                   phrase_matches (lower "I feel hopeless") (snd row)))
      crisis_patterns
  = [(0, 0); (0, 0); (1, 0); (0, 0)]
  /\ crisis_detected (detect_crisis "I feel hopeless" (Some crisis_context)) = true
  /\ map dc_type
         (crisis_types (detect_crisis "I feel hopeless" (Some crisis_context)))
     = ["contextual_crisis"]
  /\ crisis_detected (detect_crisis "I feel hopeless" None) = false.
Proof. repeat split; vm_compute; reflexivity. Qed.

End CrisisSpec.

(** ** More on the voice scorer *)

Module VoiceOutput.
Import Py VoiceEmotionAnalyzer.

(** Settles the comparisons of a goal: one that follows from the hypotheses
    is replaced by its value, any other is split into its two cases. *)
Ltac settle_comparisons :=
  repeat match goal with
         | |- context [gtb ?x ?c] =>
             first [ rewrite (proj2 (gtb_le x c)) by lra
                   | rewrite (proj2 (gtb_gt x c)) by lra
                   | destruct (gtb x c) ]
         | |- context [ltb ?x ?c] =>
             first [ rewrite (proj2 (ltb_ge x c)) by lra
                   | rewrite (proj2 (ltb_lt x c)) by lra
                   | destruct (ltb x c) ]
         end.

Ltac closed_bound := vm_compute; discriminate.

Lemma anxiety_score_bounds (p v r e : Q) :
  (0 <= _calculate_anxiety_score p v r e <= 1)%Q.
Proof.
  unfold _calculate_anxiety_score. cbv zeta.
  settle_comparisons; split; closed_bound.
Qed.

Lemma depression_score_bounds (p e u r : Q) :
  (0 <= _calculate_depression_score p e u r <= 1)%Q.
Proof.
  unfold _calculate_depression_score. cbv zeta.
  settle_comparisons; split; closed_bound.
Qed.

Lemma stress_score_bounds (r v e : Q) :
  (0 <= _calculate_stress_score r v e <= 1)%Q.
Proof.
  unfold _calculate_stress_score. cbv zeta.
  settle_comparisons; split; closed_bound.
Qed.

Lemma anger_score_bounds (p e r : Q) :
  (0 <= _calculate_anger_score p e r <= 1)%Q.
Proof.
  unfold _calculate_anger_score. cbv zeta.
  settle_comparisons; split; closed_bound.
Qed.

Lemma happiness_score_bounds (p e r v : Q) :
  (0 <= _calculate_happiness_score p e r v <= 1)%Q.
Proof.
  unfold _calculate_happiness_score. cbv zeta.
  settle_comparisons; split; closed_bound.
Qed.

Lemma calm_score_bounds (v r e u : Q) :
  (0 <= _calculate_calm_score v r e u <= 1)%Q.
Proof.
  unfold _calculate_calm_score. cbv zeta.
  settle_comparisons; split; closed_bound.
Qed.

Lemma voice_scores_bounds (voice_features : gmap string Q) :
  Forall (fun entry => (0 <= snd entry <= 1)%Q) (voice_scores voice_features).
Proof.
  unfold voice_scores, _calculate_emotion_scores.
  repeat apply List.Forall_cons; try apply List.Forall_nil; cbn [snd].
  - apply anxiety_score_bounds.
  - apply depression_score_bounds.
  - apply stress_score_bounds.
  - apply anger_score_bounds.
  - apply happiness_score_bounds.
  - apply calm_score_bounds.
Qed.

(** What an analysis that was handed back is made of. *)
Lemma analyze_voice_features_inv (voice_features : gmap string Q)
    (ea : EmotionAnalysis) :
  analyze_voice_features voice_features = Some ea ->
  let scores := voice_scores voice_features in
  item scores (primary_emotion ea) = Some (confidence ea)
  /\ (forall e, e ∈ map fst scores ->
                (default 0 (item scores e) <= confidence ea)%Q)
  /\ _assess_voice_risk scores voice_features = Some (risk_level ea)
  /\ emotional_indicators ea = _generate_voice_indicators voice_features
  /\ suggested_technique ea
     = _suggest_voice_technique (primary_emotion ea) (risk_level ea)
  /\ intensity ea = _calculate_intensity (confidence ea)
  /\ patterns ea = _identify_voice_patterns voice_features.
Proof.
  unfold analyze_voice_features. fold (voice_scores voice_features).
  intros Hea. set (scores := voice_scores voice_features) in *.
  destruct (max_key _ (map fst scores)) as [primary|] eqn:Hmax; [|discriminate].
  unfold mbind, option_bind in Hea.
  destruct (item scores primary) as [conf|] eqn:Hconf; [|discriminate].
  destruct (_assess_voice_risk scores voice_features) as [risk|] eqn:Hrisk;
    [|discriminate].
  injection Hea as <-. cbn [primary_emotion confidence risk_level
    emotional_indicators suggested_technique intensity patterns].
  repeat split; try done.
  intros e He. pose proof (max_key_max _ _ _ _ Hmax He) as Hle.
  cbv beta in Hle. by rewrite Hconf in Hle.
Qed.

(** The scorer always hands back an analysis, and what it hands back is well
    formed: the confidence is one of the six scores, no score is above it,
    it lies between 0 and 1, the technique is "crisis_intervention" exactly
    for the risk level CRISIS and "safety_planning" exactly for HIGH, and the
    intensity is one of the three labels. *)
Theorem voice_analysis_well_formed (voice_features : gmap string Q) :
  exists ea,
    analyze_voice_features voice_features = Some ea
    /\ (0 <= confidence ea <= 1)%Q
    /\ (primary_emotion ea, confidence ea) ∈ voice_scores voice_features
    /\ Forall (fun entry => (snd entry <= confidence ea)%Q)
              (voice_scores voice_features)
    /\ (suggested_technique ea = "crisis_intervention" <-> risk_level ea = CRISIS)
    /\ (suggested_technique ea = "safety_planning" <-> risk_level ea = HIGH)
    /\ intensity ea ∈ ["low"; "medium"; "high"].
Proof.
  destruct (VoiceSpec.analyze_voice_features_returns voice_features) as [ea Hea].
  exists ea. split; [done|].
  destruct (analyze_voice_features_inv _ _ Hea)
    as (Hconf & Hmax & _ & _ & Htech & Hint & _).
  apply item_Some_elem in Hconf as Hin.
  split; [|split; [done|split; [|split; [|split]]]].
  - pose proof (voice_scores_bounds voice_features) as Hb.
    rewrite List.Forall_forall in Hb.
    apply (Hb (primary_emotion ea, confidence ea)). by apply list_elem_of_In.
  - unfold voice_scores, _calculate_emotion_scores in *.
    repeat apply List.Forall_cons; try apply List.Forall_nil; cbn [snd].
    + apply (Hmax ANXIOUS). in_list.
    + apply (Hmax DEPRESSED). in_list.
    + apply (Hmax STRESSED). in_list.
    + apply (Hmax ANGRY). in_list.
    + apply (Hmax HAPPY). in_list.
    + apply (Hmax CALM). in_list.
  - rewrite Htech.
    destruct (risk_level ea), (primary_emotion ea); split; intros; done.
  - rewrite Htech.
    destruct (risk_level ea), (primary_emotion ea); split; intros; done.
  - rewrite Hint. unfold _calculate_intensity.
    destruct (gtb _ 0.7); [in_list|]. destruct (gtb _ 0.4); in_list.
Qed.

(** A dict that holds none of the five features the scorer reads is scored
    with the defaults alone: the answer is CALM with confidence 1, risk LOW,
    technique "maintenance_check", and no indicator or pattern. *)
Theorem voice_missing_features_calm (voice_features : gmap string Q) :
  voice_features !! "pitch_mean" = None ->
  voice_features !! "pitch_variance" = None ->
  voice_features !! "speech_rate" = None ->
  voice_features !! "energy" = None ->
  voice_features !! "avg_pause_duration" = None ->
  exists ea,
    analyze_voice_features voice_features = Some ea
    /\ primary_emotion ea = CALM
    /\ (confidence ea == 1)%Q
    /\ risk_level ea = LOW
    /\ emotional_indicators ea = []
    /\ suggested_technique ea = "maintenance_check"
    /\ intensity ea = "high"
    /\ patterns ea = [].
Proof.
  intros H1 H2 H3 H4 H5.
  unfold analyze_voice_features, _assess_voice_risk, _generate_voice_indicators,
    _identify_voice_patterns, get.
  rewrite H1, H2, H3, H4, H5.
  eexists. split; [vm_compute; reflexivity|]. by repeat split.
Qed.

Lemma voice_missing_features_calm_witness :
  exists ea,
    analyze_voice_features {[ "jitter" := 0.02%Q ]} = Some ea
    /\ primary_emotion ea = CALM
    /\ (confidence ea == 1)%Q
    /\ risk_level ea = LOW
    /\ emotional_indicators ea = []
    /\ suggested_technique ea = "maintenance_check"
    /\ intensity ea = "high"
    /\ patterns ea = [].
Proof.
  apply (voice_missing_features_calm {[ "jitter" := 0.02%Q ]}); reflexivity.
Defined.

(** With a very low energy and a very slow speech every score but the
    depression score stays at 0.6 or below. *)
Lemma slow_and_flat_scores (p v r e u : Q) :
  (e < 0.2)%Q -> (r < 100)%Q ->
  (_calculate_anxiety_score p v r e <= 0.6)%Q
  /\ (_calculate_stress_score r v e <= 0.6)%Q
  /\ (_calculate_anger_score p e r <= 0.6)%Q
  /\ (_calculate_happiness_score p e r v <= 0.6)%Q
  /\ (_calculate_calm_score v r e u <= 0.6)%Q.
Proof.
  intros He Hr.
  unfold _calculate_anxiety_score, _calculate_stress_score,
    _calculate_anger_score, _calculate_happiness_score, _calculate_calm_score.
  cbv zeta.
  repeat split; settle_comparisons; closed_bound.
Qed.

(** The voice scorer reports the risk level CRISIS only for a depressed
    voice: whenever the risk is CRISIS the primary emotion is DEPRESSED with a
    confidence above 0.8 and a high intensity, the technique is
    "crisis_intervention", and the slow speech, the low energy and the
    depression pattern are all listed. *)
Theorem voice_crisis_is_depressed
    (voice_features : gmap string Q) (ea : EmotionAnalysis) :
  analyze_voice_features voice_features = Some ea ->
  risk_level ea = CRISIS ->
  primary_emotion ea = DEPRESSED
  /\ (0.8 < confidence ea)%Q
  /\ suggested_technique ea = "crisis_intervention"
  /\ intensity ea = "high"
  /\ "Slow speech pattern" ∈ emotional_indicators ea
  /\ "Low vocal energy" ∈ emotional_indicators ea
  /\ "potential_depression_indicators" ∈ patterns ea.
Proof.
  intros Hea Hrisk.
  destruct (analyze_voice_features_inv _ _ Hea)
    as (Hconf & Hmax & Hassess & Hind & Htech & Hint & Hpat).
  rewrite Hrisk in *.
  unfold _assess_voice_risk, voice_scores, _calculate_emotion_scores in *.
  set (p := get voice_features "pitch_mean" 150%Q) in *.
  set (v := get voice_features "pitch_variance" 50%Q) in *.
  set (r := get voice_features "speech_rate" 150%Q) in *.
  set (e := get voice_features "energy" 0.5%Q) in *.
  set (u := get voice_features "avg_pause_duration" 0.5%Q) in *.
  remember (_calculate_anxiety_score p v r e) as anx eqn:Hanx.
  remember (_calculate_depression_score p e u r) as dep eqn:Hdep.
  remember (_calculate_stress_score r v e) as str eqn:Hstr.
  remember (_calculate_anger_score p e r) as ang eqn:Hang.
  remember (_calculate_happiness_score p e r v) as hap eqn:Hhap.
  remember (_calculate_calm_score v r e u) as cal eqn:Hcal.
  cbn [item mbind option_bind] in Hassess. simpl in Hassess.
  destruct (gtb dep 0.8 && ltb e 0.2 && ltb r 100) eqn:Hrule.
  2:{ repeat match type of Hassess with
             | context [if ?b then _ else _] => destruct b
             end; discriminate. }
  apply andb_true_iff in Hrule as [Hrule Hr].
  apply andb_true_iff in Hrule as [Hd He].
  apply gtb_gt in Hd. apply ltb_lt in He. apply ltb_lt in Hr.
  destruct (slow_and_flat_scores p v r e u He Hr) as (B1 & B2 & B3 & B4 & B5).
  rewrite <- Hanx in B1. rewrite <- Hstr in B2. rewrite <- Hang in B3.
  rewrite <- Hhap in B4. rewrite <- Hcal in B5.
  pose proof (Hmax DEPRESSED ltac:(in_list)) as Hle. simpl in Hle.
  assert (primary_emotion ea = DEPRESSED /\ confidence ea = dep) as [Hprim Hc].
  { destruct (primary_emotion ea); simpl in Hconf;
      try discriminate; injection Hconf as Hconf; rewrite <- Hconf in *;
      try done; exfalso; lra. }
  rewrite Hprim in Htech. rewrite Hc in *.
  split; [done|]. split; [done|]. split; [done|]. split.
  { rewrite Hint. unfold _calculate_intensity.
    by rewrite (proj2 (gtb_gt dep 0.7)) by lra. }
  rewrite Hind, Hpat. unfold _generate_voice_indicators, _identify_voice_patterns.
  fold r e v u.
  repeat split; settle_comparisons; in_list.
Qed.

Lemma voice_crisis_is_depressed_witness :
  exists ea,
    analyze_voice_features scenario = Some ea
    /\ primary_emotion ea = DEPRESSED
    /\ (0.8 < confidence ea)%Q
    /\ suggested_technique ea = "crisis_intervention"
    /\ intensity ea = "high"
    /\ "Slow speech pattern" ∈ emotional_indicators ea
    /\ "Low vocal energy" ∈ emotional_indicators ea
    /\ "potential_depression_indicators" ∈ patterns ea.
Proof.
  eexists. split; [vm_compute; reflexivity|].
  apply (voice_crisis_is_depressed scenario); reflexivity.
Defined.


End VoiceOutput.

(** ** More on the text analyzer *)

Module TextOutput.
Import Py TextEmotionAnalyzer.

Lemma string_to_emotion_inv (s : string) (e : EmotionState) :
  _string_to_emotion s = e -> e <> CALM -> lower s = emotion_value e.
Proof.
  unfold _string_to_emotion. cbn [item].
  repeat (destruct (decide (_ = lower s)) as [<-|_];
          [simpl; intros <- Hne; done|]).
  simpl. intros <- Hne. done.
Qed.

Lemma string_to_risk_inv (s : string) (r : RiskLevel) :
  _string_to_risk s = r -> r <> LOW -> lower s = risk_value r.
Proof.
  unfold _string_to_risk. cbn [item].
  repeat (destruct (decide (_ = lower s)) as [<-|_];
          [simpl; intros <- Hne; done|]).
  simpl. intros <- Hne. done.
Qed.

Lemma string_to_risk_of_lower (s : string) (r : RiskLevel) :
  lower s = risk_value r -> _string_to_risk s = r.
Proof.
  unfold _string_to_risk. intros ->. by destruct r.
Qed.

(** The labels of the two enums survive the trip through the parsers of the
    analyzer, and nothing but the lowercase of a label is read as an emotion
    other than CALM or as a risk level other than LOW. *)
Theorem labels_round_trip :
  (forall e, _string_to_emotion (emotion_value e) = e)
  /\ (forall r, _string_to_risk (risk_value r) = r)
  /\ (forall s e, _string_to_emotion s = e -> e <> CALM ->
                  lower s = emotion_value e)
  /\ (forall s r, _string_to_risk s = r -> r <> LOW ->
                  lower s = risk_value r).
Proof.
  split; [by intros []|]. split; [by intros []|].
  split; [apply string_to_emotion_inv | apply string_to_risk_inv].
Qed.

(** When the generation behind the client fails, the client answers with its
    own fallback dict and the analyzer builds its result from that dict: CALM
    with confidence 0.0 and the pattern "analysis_unavailable", the risk and
    the technique decided by the crisis keywords alone.  The keyword scores
    of the text are not consulted. *)
Theorem analysis_when_generation_fails (text : string) :
  let crisis := _detect_crisis_keywords (lower text) in
  analyze_text_emotion text (Some (GemmaClient.analyze_emotion_from_text None))
  = Some {| primary_emotion := CALM;
            confidence := 0.0;
            risk_level := if crisis then CRISIS else LOW;
            emotional_indicators :=
              if crisis then ["Crisis keywords detected"] else [];
            suggested_technique :=
              if crisis then "crisis_intervention" else "validation";
            intensity := "medium";
            patterns := ["analysis_unavailable"] |}.
Proof.
  cbv zeta. unfold analyze_text_emotion.
  by destruct (_detect_crisis_keywords (lower text)).
Qed.

(** For an analysis built from a reply of the client: the risk level is
    CRISIS exactly when a crisis keyword occurs in the text or the lowercase
    of the reported risk is "crisis"; CRISIS and HIGH fix the technique; and
    the technique is always one of nine names, whatever the reply suggests. *)
Theorem analysis_from_reply (text : string) (g : GemmaAnalysis) :
  exists ea,
    analyze_text_emotion text (Some g) = Some ea
    /\ (risk_level ea = CRISIS
        <-> _detect_crisis_keywords (lower text) = true
            \/ lower (default "low" (g_risk_level g)) = "crisis")
    /\ (suggested_technique ea = "crisis_intervention"
        <-> risk_level ea = CRISIS
            \/ (risk_level ea <> HIGH
                /\ g_suggested_approach g = Some "crisis_intervention"))
    /\ (suggested_technique ea = "safety_planning" <-> risk_level ea = HIGH)
    /\ suggested_technique ea ∈ text_techniques.
Proof.
  unfold analyze_text_emotion. eexists. split; [reflexivity|].
  unfold from_gemma. cbn [risk_level suggested_technique].
  set (crisis := _detect_crisis_keywords (lower text)).
  set (label := default "low" (g_risk_level g)).
  set (primary := _string_to_emotion _).
  assert ((if crisis then CRISIS else _string_to_risk label) = CRISIS
          <-> crisis = true \/ lower label = "crisis") as Hrisk.
  { destruct crisis; [by intuition|]. split.
    - intros H. right. by apply (string_to_risk_inv label CRISIS).
    - intros [?|H]; [done|]. by apply (string_to_risk_of_lower label CRISIS). }
  split; [exact Hrisk|]. clear Hrisk.
  generalize (if crisis then CRISIS else _string_to_risk label). intros risk.
  unfold _suggest_text_technique.
  destruct (g_suggested_approach g) as [approach|]; simpl default.
  - destruct (mem approach _) eqn:Hmem.
    + apply mem_In in Hmem. simpl in Hmem.
      destruct Hmem as [<-|[<-|[<-|[<-|[]]]]];
        destruct risk; simpl; (split; [|split]);
        try (apply list_elem_of_In; simpl; tauto);
        split; intros; try done; intuition congruence.
    + assert (approach <> "crisis_intervention") as Hne.
      { intros ->. discriminate. }
      destruct risk, primary; simpl; (split; [|split]);
        try (apply list_elem_of_In; simpl; tauto);
        split; intros; try done; intuition congruence.
  - destruct risk, primary; simpl; (split; [|split]);
      try (apply list_elem_of_In; simpl; tauto);
      split; intros; try done; intuition congruence.
Qed.

Lemma fraction_bounds (a b : nat) :
  a <= b -> 0 < b ->
  (0 <= inject_Z (Z.of_nat a) / inject_Z (Z.of_nat b) <= 1)%Q.
Proof.
  intros Hab Hb.
  assert (0 < inject_Z (Z.of_nat b))%Q as Hpos.
  { unfold Qlt. simpl. lia. }
  split.
  - apply Qle_shift_div_l; [done|]. unfold Qle. simpl. lia.
  - apply Qle_shift_div_r; [done|]. unfold Qle. simpl. lia.
Qed.

Lemma keyword_scores_bounds (text_lower : string) :
  Forall (fun entry => (0 <= snd entry <= 1)%Q) (keyword_scores text_lower).
Proof.
  unfold keyword_scores, emotion_keywords. cbn [map].
  repeat apply List.Forall_cons; try apply List.Forall_nil; cbn [snd];
    (apply fraction_bounds; [apply count_le_length | simpl; lia]).
Qed.

(** The keyword fallback always answers, with the best keyword score: its
    emotion is one of the five emotions that have keywords (never CALM), its
    confidence is the score of that emotion, between 0 and 1, and no emotion
    scores higher.  Its technique is "validation" whatever the risk level,
    also when the crisis flag makes the risk level CRISIS. *)
Theorem keyword_fallback_picks_best (text : string) (crisis_detected : bool) :
  exists ea,
    _fallback_text_analysis text crisis_detected = Some ea
    /\ (primary_emotion ea, confidence ea) ∈ keyword_scores (lower text)
    /\ Forall (fun entry => (snd entry <= confidence ea)%Q)
              (keyword_scores (lower text))
    /\ (0 <= confidence ea <= 1)%Q
    /\ primary_emotion ea ∈ [ANXIOUS; DEPRESSED; STRESSED; ANGRY; HAPPY]
    /\ risk_level ea = (if crisis_detected then CRISIS else LOW)
    /\ suggested_technique ea = "validation".
Proof.
  unfold _fallback_text_analysis.
  pose proof (TextSpec.keyword_scores_keys (lower text)) as Hkeys.
  pose proof (keyword_scores_bounds (lower text)) as Hbounds.
  remember (keyword_scores (lower text)) as scores eqn:Hscores. clear Hscores.
  destruct scores as [|[e1 s1] [|[e2 s2] [|[e3 s3] [|[e4 s4] [|[e5 s5] [|]]]]]];
    try discriminate.
  injection Hkeys as -> -> -> -> ->.
  set (scores := [(ANXIOUS, s1); (DEPRESSED, s2); (STRESSED, s3);
                  (ANGRY, s4); (HAPPY, s5)]) in *.
  destruct (max_key (fun e => default 0%Q (item scores e)) (map fst scores))
    as [primary|] eqn:Hmax; [|discriminate].
  pose proof (max_key_elem _ _ _ Hmax) as Hin.
  destruct (item_is_Some scores primary Hin) as [conf Hconf].
  unfold mbind, option_bind. rewrite Hconf.
  eexists. split; [reflexivity|].
  cbn [primary_emotion confidence risk_level suggested_technique].
  assert (forall e, e ∈ map fst scores -> (default 0 (item scores e) <= conf)%Q)
    as Hle.
  { intros e He. pose proof (max_key_max _ _ _ _ Hmax He) as H.
    cbv beta in H. by rewrite Hconf in H. }
  apply item_Some_elem in Hconf as Hmem.
  split; [done|]. split; [|split; [|split; [done|done]]].
  - repeat apply List.Forall_cons; try apply List.Forall_nil; cbn [snd].
    + apply (Hle ANXIOUS). in_list.
    + apply (Hle DEPRESSED). in_list.
    + apply (Hle STRESSED). in_list.
    + apply (Hle ANGRY). in_list.
    + apply (Hle HAPPY). in_list.
  - rewrite List.Forall_forall in Hbounds.
    apply (Hbounds (primary, conf)). by apply list_elem_of_In.
Qed.

End TextOutput.

(** ** More on the fusion engine *)

Module FusionOutput.
Import Py MultimodalEmotionFusion.

(** The emotion of a fused analysis is always the emotion of the text
    analysis, and so is its technique unless the fused risk level is CRISIS
    or HIGH: the voice analysis changes neither.  The fused risk level is
    CRISIS exactly when one of the two risk levels is. *)
Theorem fusion_keeps_text_emotion_and_technique (va ta : EmotionAnalysis) :
  let fused := fuse_emotions (Some va) ta in
  primary_emotion fused = primary_emotion ta
  /\ (risk_level fused = CRISIS
      <-> risk_level va = CRISIS \/ risk_level ta = CRISIS)
  /\ suggested_technique fused
     = (if decide (risk_level fused = CRISIS) then "crisis_intervention"
        else if decide (risk_level fused = HIGH) then "safety_planning"
        else suggested_technique ta).
Proof.
  cbv zeta. split; [|split].
  - unfold fuse_emotions.
    destruct (bool_decide _) eqn:Hagree; [|done].
    by apply bool_decide_eq_true in Hagree.
  - rewrite FusionSpec.fuse_risk_level.
    destruct (risk_level va), (risk_level ta); vm_compute; intuition congruence.
  - rewrite FusionSpec.fuse_risk_level.
    unfold fuse_emotions.
    destruct (bool_decide _); cbn [suggested_technique];
      unfold _choose_combined_technique;
      repeat case_decide; try done;
      destruct (String.eqb_spec (suggested_technique va) (suggested_technique ta));
      congruence.
Qed.

(** The patterns of a fused analysis are the union of the patterns of the
    two analyses, each listed once. *)
Theorem fused_patterns_union (va ta : EmotionAnalysis) :
  let fused := fuse_emotions (Some va) ta in
  NoDup (patterns fused)
  /\ forall x, x ∈ patterns fused <-> x ∈ patterns va \/ x ∈ patterns ta.
Proof.
  cbv zeta.
  assert (patterns (fuse_emotions (Some va) ta)
          = remove_dups (patterns va ++ patterns ta)) as ->.
  { unfold fuse_emotions. by destruct (bool_decide _). }
  split; [apply NoDup_remove_dups|].
  intros x. by rewrite elem_of_remove_dups, elem_of_app.
Qed.

(** When the two analyses carry the same intensity label, the fused analysis
    carries it too, whatever the confidences are. *)
Theorem fused_intensity_agreement (va ta : EmotionAnalysis) (label : string) :
  label ∈ ["low"; "medium"; "high"] ->
  intensity va = label ->
  intensity ta = label ->
  intensity (fuse_emotions (Some va) ta) = label.
Proof.
  intros Hlabel Hva Hta.
  assert (forall c, _determine_combined_intensity label label c = label) as Hsame.
  { intros c. unfold _determine_combined_intensity.
    apply list_elem_of_In in Hlabel. simpl in Hlabel.
    destruct Hlabel as [<-|[<-|[<-|[]]]];
      destruct (gtb c 0.8), (ltb c 0.4); reflexivity. }
  unfold fuse_emotions.
  destruct (bool_decide _); cbn [intensity]; rewrite Hva, Hta; apply Hsame.
Qed.

Lemma fused_intensity_agreement_witness :
  intensity (fuse_emotions (Some (analysis_of DEPRESSED 0.9 CRISIS))
                           (analysis_of ANXIOUS 0.1 LOW)) = "medium".
Proof.
  apply fused_intensity_agreement; [in_list | reflexivity | reflexivity].
Defined.

End FusionOutput.

(** ** More on the conversation manager *)

Module ConversationOutput.
Import Py ConversationManager.

Lemma lastn_lastn {A} (m n : nat) (xs : list A) :
  lastn m (lastn n xs) = lastn (Nat.min m n) xs.
Proof.
  unfold lastn. rewrite length_drop, drop_drop. f_equal. lia.
Qed.

Lemma slice_from_neg (n : nat) {A} (xs : list A) :
  0 < n -> slice_from (- Z.of_nat n) xs = lastn n xs.
Proof.
  intros Hn. rewrite ConversationSpec.slice_from_neg_lastn by lia.
  by rewrite Nat2Z.id.
Qed.

(** The flags after [_update_risk_assessment]: the flags that do not start
    with "session_", followed by the session tags computed afresh. *)
Lemma update_risk_assessment_flags (context : ConversationContext)
    (ea : EmotionAnalysis) :
  risk_flags (_update_risk_assessment context ea)
  = filter (fun flag => startswith flag "session_" = false) (risk_flags context)
    ++ session_flags (emotion_history context) ea.
Proof.
  unfold _update_risk_assessment, session_flags. cbn [risk_flags].
  change (-5)%Z with (- Z.of_nat 5)%Z. change (-3)%Z with (- Z.of_nat 3)%Z.
  rewrite !slice_from_neg by lia.
  assert ((if (5 <=? length (emotion_history context))%nat
           then lastn 5 (emotion_history context)
           else emotion_history context) = lastn 5 (emotion_history context)) as ->.
  { destruct (Nat.leb_spec 5 (length (emotion_history context))); [done|].
    rewrite ConversationSpec.lastn_all; [done | lia]. }
  fold (escalating (lastn 3 (emotion_history context))).
  change (fun analysis => bool_decide (primary_emotion analysis ∈ negative_emotions))
    with negative.
  destruct (decide (risk_level ea = CRISIS));
    destruct (4 <=? count negative _)%nat;
    destruct (3 <=? length _)%nat;
    destruct (escalating _); simpl;
    rewrite <- ?app_assoc, ?app_nil_r; reflexivity.
Qed.

Lemma add_interaction_flags self t_stamp t_last context u a ea :
  risk_flags (add_interaction self t_stamp t_last context u a ea)
  = filter (fun flag => startswith flag "session_" = false) (risk_flags context)
    ++ session_flags
         (emotion_history (add_interaction self t_stamp t_last context u a ea)) ea.
Proof.
  unfold add_interaction. cbv zeta.
  destruct (max_history self <? _)%Z;
    rewrite ConversationSpec.update_therapeutic_goals_risk_flags,
      update_risk_assessment_flags; reflexivity.
Qed.

Lemma session_flags_tags (history : list EmotionAnalysis) (ea : EmotionAnalysis)
    (flag : string) :
  flag ∈ session_flags history ea ->
  flag ∈ session_tags /\ startswith flag "session_" = true.
Proof.
  unfold session_flags.
  destruct (decide _), (4 <=? _)%nat, (_ && _); simpl;
    rewrite ?elem_of_cons; intros H;
    repeat (destruct H as [->|H]; [split; [in_list | reflexivity]|]);
    by apply elem_of_nil in H.
Qed.

Lemma session_flags_crisis (history : list EmotionAnalysis) (ea : EmotionAnalysis) :
  "session_crisis_detected" ∈ session_flags history ea <-> risk_level ea = CRISIS.
Proof.
  unfold session_flags.
  destruct (decide _), (4 <=? _)%nat, (_ && _); simpl;
    rewrite ?elem_of_cons, ?elem_of_nil; intuition congruence.
Qed.

Lemma session_flags_persistent (history : list EmotionAnalysis)
    (ea : EmotionAnalysis) :
  "session_persistent_negative_mood" ∈ session_flags history ea
  <-> 4 <= count negative (lastn 5 history).
Proof.
  unfold session_flags.
  destruct (decide _), (Nat.leb_spec 4 (count negative (lastn 5 history))),
    (_ && _); simpl;
    rewrite ?elem_of_cons, ?elem_of_nil; intuition (congruence || lia).
Qed.

Lemma session_flags_escalating (history : list EmotionAnalysis)
    (ea : EmotionAnalysis) :
  "session_escalating_risk" ∈ session_flags history ea
  <-> 3 <= length history /\ escalating (lastn 3 history) = true.
Proof.
  unfold session_flags.
  destruct (decide _), (4 <=? _)%nat,
    (Nat.leb_spec 3 (length history)), (escalating _); simpl;
    rewrite ?elem_of_cons, ?elem_of_nil; intuition (congruence || lia).
Qed.

Lemma elem_of_filter_not_session (flag : string) (flags : list string) :
  flag ∈ filter (fun flag => startswith flag "session_" = false) flags
  <-> startswith flag "session_" = false /\ flag ∈ flags.
Proof. by rewrite list_elem_of_filter. Qed.

(** One interaction recomputes the session tags: a flag that does not start
    with "session_" is kept as it was, every other flag afterwards is one of
    the three session tags, and "session_crisis_detected" is set exactly when
    the analysis of this interaction has the risk level CRISIS, whatever the
    flags were before. *)
Theorem session_flags_recomputed
    (self : t) (t_stamp t_last : Z) (context : ConversationContext)
    (user_input ai_response : string) (ea : EmotionAnalysis) :
  let after :=
    add_interaction self t_stamp t_last context user_input ai_response ea in
  (forall flag, startswith flag "session_" = false ->
                (flag ∈ risk_flags after <-> flag ∈ risk_flags context))
  /\ (forall flag, flag ∈ risk_flags after ->
                   startswith flag "session_" = true -> flag ∈ session_tags)
  /\ ("session_crisis_detected" ∈ risk_flags after <-> risk_level ea = CRISIS).
Proof.
  cbv zeta. rewrite add_interaction_flags.
  set (history := emotion_history _).
  assert (forall flag,
    flag ∈ filter (fun flag => startswith flag "session_" = false)
                  (risk_flags context) ++ session_flags history ea
    <-> (startswith flag "session_" = false /\ flag ∈ risk_flags context)
        \/ flag ∈ session_flags history ea) as Hin.
  { intros flag. by rewrite elem_of_app, elem_of_filter_not_session. }
  assert ("session_crisis_detected"
            ∈ filter (fun flag => startswith flag "session_" = false)
                     (risk_flags context) ++ session_flags history ea
          <-> risk_level ea = CRISIS) as Hcrisis.
  { rewrite Hin, session_flags_crisis. split; [|by right].
    intros [[Hs _]|H]; [discriminate | done]. }
  split; [|split].
  - intros flag Hflag. rewrite Hin. split.
    + intros [[_ H]|H]; [done|].
      apply session_flags_tags in H as [_ H]. congruence.
    + intros H. by left.
  - intros flag Hflag Hs. apply Hin in Hflag as [[H _]|H]; [congruence|].
    by apply session_flags_tags in H as [H _].
  - exact Hcrisis.
Qed.

Lemma run_flags_all_session (self : t) (context : ConversationContext)
    (calls : list Call) :
  Forall (fun flag => startswith flag "session_" = true) (risk_flags context) ->
  Forall (fun flag => startswith flag "session_" = true)
         (risk_flags (run self context calls)).
Proof.
  intros Hctx. unfold run.
  induction calls as [|call calls IH] using rev_ind; [done|].
  rewrite fold_left_app. simpl. unfold step at 1.
  rewrite add_interaction_flags. apply Forall_app. split.
  - apply Forall_forall. intros flag Hflag.
    apply elem_of_filter_not_session in Hflag as [Hs Hflag].
    rewrite Forall_forall in IH. apply IH in Hflag. congruence.
  - apply Forall_forall. intros flag Hflag.
    by apply session_flags_tags in Hflag as [_ ?].
Qed.

Lemma filter_not_session_nil (flags : list string) :
  Forall (fun flag => startswith flag "session_" = true) flags ->
  filter (fun flag => startswith flag "session_" = false) flags = [].
Proof.
  induction 1 as [|flag flags Hflag _ IH]; [done|].
  rewrite filter_cons. destruct (decide _) as [H|_]; [congruence | done].
Qed.

(** The flags of a conversation that started with a context created by the
    manager, after at least one interaction and for a bound of at least one:
    they are session tags only; the crisis tag is set exactly when the latest
    analysis has the risk level CRISIS; the tag of a persistent negative mood
    exactly when at least four of the last five analyses kept in the history
    are depressed, anxious or stressed; and the tag of an escalating risk
    exactly when three analyses are kept and the risk levels of the last
    three never go down. *)
Theorem run_session_flags
    (self : t) (uid sid : string) (t_last t_start : Z)
    (calls : list Call) (call : Call) :
  (1 <= max_history self)%Z ->
  let n := Z.to_nat (max_history self) in
  let analyses := map call_analysis (calls ++ [call]) in
  let flags :=
    risk_flags (run self (new_context uid sid t_last t_start) (calls ++ [call])) in
  (forall flag, flag ∈ flags -> flag ∈ session_tags)
  /\ ("session_crisis_detected" ∈ flags
      <-> risk_level (call_analysis call) = CRISIS)
  /\ ("session_persistent_negative_mood" ∈ flags
      <-> 4 <= count negative (lastn (Nat.min 5 n) analyses))
  /\ ("session_escalating_risk" ∈ flags
      <-> 3 <= n /\ 3 <= length analyses /\ escalating (lastn 3 analyses) = true).
Proof.
  intros Hmax. cbv zeta.
  set (n := Z.to_nat (max_history self)).
  set (fresh := new_context uid sid t_last t_start).
  assert (risk_flags (run self fresh (calls ++ [call]))
          = session_flags (lastn n (map call_analysis (calls ++ [call])))
                          (call_analysis call)) as ->.
  { destruct (ConversationSpec.run_histories self uid sid t_last t_start
                (calls ++ [call]) Hmax) as [_ Hemo].
    fold fresh n in Hemo. rewrite <- Hemo.
    unfold run. rewrite fold_left_app. simpl. unfold step at 1 3.
    rewrite add_interaction_flags.
    rewrite filter_not_session_nil; [done|].
    apply (run_flags_all_session self fresh calls). constructor. }
  split; [|split; [|split]].
  - intros flag Hflag. by apply session_flags_tags in Hflag as [? _].
  - apply session_flags_crisis.
  - by rewrite session_flags_persistent, lastn_lastn.
  - rewrite session_flags_escalating, lastn_lastn,
      ConversationSpec.lastn_length.
    split.
    + intros [Hlen Hesc]. rewrite (Nat.min_l 3 n) in Hesc by lia.
      repeat split; [lia | lia | done].
    + intros (Hn & Hlen & Hesc). rewrite (Nat.min_l 3 n) by lia.
      split; [lia | done].
Qed.

(** Four negative interactions and a happy one set the tag. *)
Lemma run_session_flags_witness :
  "session_persistent_negative_mood"
    ∈ risk_flags
        (run (mk 20 3600 ∅) (new_context "user" "s1" 0 0)
             ([ call_of 1 ANXIOUS LOW; call_of 2 DEPRESSED LOW;
                call_of 3 STRESSED LOW; call_of 4 ANXIOUS LOW ]
              ++ [call_of 5 HAPPY LOW])).
Proof.
  pose proof (run_session_flags (mk 20 3600 ∅) "user" "s1" 0 0
                [ call_of 1 ANXIOUS LOW; call_of 2 DEPRESSED LOW;
                  call_of 3 STRESSED LOW; call_of 4 ANXIOUS LOW ]
                (call_of 5 HAPPY LOW)) as H.
  cbv zeta in H. destruct H as (_ & _ & H & _).
  - simpl. lia.
  - apply H. vm_compute. lia.
Defined.

(** *** The therapeutic goals *)

Lemma add_interaction_goals self t_stamp t_last context u a ea :
  therapeutic_goals (add_interaction self t_stamp t_last context u a ea)
  = goals_after (therapeutic_goals context) ea.
Proof.
  unfold add_interaction. cbv zeta.
  by destruct (max_history self <? _)%Z.
Qed.

Lemma goal_mapping_tags (e : EmotionState) (goal : string) :
  goal_mapping e = Some goal -> goal ∈ goal_tags.
Proof. destruct e; intros [= <-]; in_list. Qed.

Lemma elem_of_drop_inv {A} (x : A) (n : nat) (l : list A) :
  x ∈ drop n l -> x ∈ l.
Proof.
  intros Hx. rewrite <- (take_drop n l). apply elem_of_app. by right.
Qed.

(** The goals stay a duplicate-free list of at most three goal tags, and a
    goal the latest emotion maps to is among them. *)
Lemma goals_after_invariant (goals : list string) (ea : EmotionAnalysis) :
  length goals <= 3 -> NoDup goals ->
  (forall goal, goal ∈ goals -> goal ∈ goal_tags) ->
  length (goals_after goals ea) <= 3
  /\ NoDup (goals_after goals ea)
  /\ (forall goal, goal ∈ goals_after goals ea -> goal ∈ goal_tags)
  /\ (forall goal, goal_mapping (primary_emotion ea) = Some goal ->
                   goal ∈ goals_after goals ea)
  /\ (forall goal, goal ∈ goals_after goals ea ->
                   goal ∈ goals
                   \/ goal_mapping (primary_emotion ea) = Some goal).
Proof.
  intros Hlen Hnodup Htags. unfold goals_after.
  destruct (goal_mapping (primary_emotion ea)) as [goal|] eqn:Hgoal.
  2:{ destruct (Nat.ltb_spec 3 (length goals)); [lia|].
      repeat split; try done; auto. }
  destruct (mem goal goals) eqn:Hmem.
  - apply mem_In, list_elem_of_In in Hmem.
    destruct (Nat.ltb_spec 3 (length goals)); [lia|].
    repeat split; try done; try (by intros ? [= <-]); auto.
  - assert (goal ∉ goals) as Hnotin.
    { rewrite list_elem_of_In, <- mem_In. congruence. }
    assert (NoDup (goals ++ [goal])) as Hnodup'.
    { apply NoDup_app. repeat split; [done| |apply NoDup_singleton].
      intros x Hx Hx'. apply list_elem_of_singleton in Hx' as ->. done. }
    destruct (Nat.ltb_spec 3 (length (goals ++ [goal]))) as [Hlong|Hshort].
    + change (-3)%Z with (- Z.of_nat 3)%Z. rewrite slice_from_neg by lia.
      unfold lastn. rewrite length_app in *. simpl in *.
      replace (length goals + 1 - 3) with (length goals - 2) by lia.
      rewrite drop_app_le by lia.
      repeat split.
      * rewrite length_app, length_drop. simpl. lia.
      * apply NoDup_app. repeat split.
        -- apply (sublist_NoDup _ goals); [exact Hnodup | apply sublist_drop].
        -- intros x Hx Hx'. apply list_elem_of_singleton in Hx' as ->.
           apply Hnotin. eapply elem_of_drop_inv; eauto.
        -- apply NoDup_singleton.
      * intros g Hg. apply elem_of_app in Hg as [Hg|Hg].
        -- apply Htags. eapply elem_of_drop_inv; eauto.
        -- apply list_elem_of_singleton in Hg as ->.
           by apply (goal_mapping_tags (primary_emotion ea)).
      * intros g [= <-]. apply elem_of_app. right. apply list_elem_of_here.
      * intros g Hg. apply elem_of_app in Hg as [Hg|Hg].
        -- left. eapply elem_of_drop_inv; eauto.
        -- apply list_elem_of_singleton in Hg as ->. by right.
    + rewrite length_app in Hshort. simpl in Hshort.
      repeat split.
      * rewrite length_app. simpl. lia.
      * done.
      * intros g Hg. apply elem_of_app in Hg as [Hg|Hg]; [auto|].
        apply list_elem_of_singleton in Hg as ->.
        by apply (goal_mapping_tags (primary_emotion ea)).
      * intros g [= <-]. apply elem_of_app. right. apply list_elem_of_here.
      * intros g Hg. apply elem_of_app in Hg as [Hg|Hg]; [by left|].
        apply list_elem_of_singleton in Hg as ->. by right.
Qed.

(** The therapeutic goals of a conversation that started with a context
    created by the manager: at most three, without duplicates, each one of the
    four goal tags and each the goal of an emotion met in the conversation;
    and the goal of the latest emotion, if it has one, is among them. *)
Theorem run_goals
    (self : t) (uid sid : string) (t_last t_start : Z) (calls : list Call) :
  let goals :=
    therapeutic_goals (run self (new_context uid sid t_last t_start) calls) in
  length goals <= 3
  /\ NoDup goals
  /\ (forall goal, goal ∈ goals ->
        goal ∈ goal_tags
        /\ exists call, call ∈ calls
             /\ goal_mapping (primary_emotion (call_analysis call)) = Some goal)
  /\ (forall goal,
        (last calls ≫= fun call =>
           goal_mapping (primary_emotion (call_analysis call))) = Some goal ->
        goal ∈ goals).
Proof.
  cbv zeta. unfold run.
  induction calls as [|call calls IH] using rev_ind.
  - simpl. split; [lia|]. split; [apply NoDup_nil_2|]. split.
    + intros goal Hgoal. by apply elem_of_nil in Hgoal.
    + intros goal Hgoal. discriminate.
  - rewrite fold_left_app. simpl.
    assert (forall context,
              therapeutic_goals (step self context call)
              = goals_after (therapeutic_goals context) (call_analysis call))
      as Hstep by (intros; apply add_interaction_goals).
    rewrite !Hstep.
    destruct IH as (Hlen & Hnodup & Htags & _).
    destruct (goals_after_invariant _ (call_analysis call) Hlen Hnodup
                (fun goal Hgoal => proj1 (Htags goal Hgoal)))
      as (Hlen' & Hnodup' & Htags' & Hlatest & Hfrom).
    split; [done|]. split; [done|]. split.
    + intros goal Hgoal. split; [by apply Htags'|].
      apply Hfrom in Hgoal as [Hold|Hnew].
      * destruct (Htags goal Hold) as [_ (c & Hc & Hgoal)].
        exists c. split; [|done]. apply elem_of_app. by left.
      * exists call. split; [|done]. apply elem_of_app. right.
        apply list_elem_of_here.
    + intros goal. rewrite last_snoc. simpl. apply Hlatest.
Qed.


(** *** The expiry sweep *)

Lemma expired_sessions_keys (heap : list ConversationContext) (cutoff_time : Z)
    (items : list (string * nat)) :
  (forall key ref, (key, ref) ∈ items -> ref < length heap) ->
  expired_sessions heap cutoff_time items
  = Some (omap (fun '(key, ref) =>
                  if expired heap cutoff_time ref then Some key else None)
               items).
Proof.
  induction items as [|[key ref] items IH]; intros Hwf; [done|].
  simpl. unfold expired at 1.
  destruct (lookup_lt_is_Some_2 heap ref) as [context ->].
  { apply (Hwf key). apply list_elem_of_here. }
  simpl. rewrite IH.
  - simpl. by destruct (_ <? _)%Z.
  - intros k r Hin. apply (Hwf k). by apply list_elem_of_further.
Qed.

Lemma lookup_fold_delete (keys : list string) (m : gmap string nat) (key : string) :
  fold_left (fun sessions session_key => delete session_key sessions) keys m !! key
  = if decide (key ∈ keys) then None else m !! key.
Proof.
  revert m. induction keys as [|k keys IH]; intros m; cbn [fold_left].
  - destruct (decide (key ∈ [])) as [Hin|_]; [|done].
    by apply elem_of_nil in Hin.
  - rewrite IH.
    destruct (decide (key ∈ keys)) as [Hin|Hnotin],
             (decide (key ∈ k :: keys)) as [Hin'|Hnotin']; try done.
    + exfalso. apply Hnotin'. by apply list_elem_of_further.
    + apply elem_of_cons in Hin' as [->|?]; [|done]. apply lookup_delete_eq.
    + rewrite lookup_delete_ne; [done|].
      intros ->. apply Hnotin'. apply list_elem_of_here.
Qed.

Lemma size_fold_delete (keys : list string) (m : gmap string nat) :
  NoDup keys -> (forall key, key ∈ keys -> is_Some (m !! key)) ->
  size (fold_left (fun sessions session_key => delete session_key sessions) keys m)
  + length keys = size m.
Proof.
  revert m. induction keys as [|k keys IH]; intros m Hnodup Hin;
    cbn [fold_left length]; [lia|].
  apply NoDup_cons in Hnodup as [Hk Hnodup].
  specialize (IH (delete k m) Hnodup).
  destruct (Hin k) as [r Hr]; [apply list_elem_of_here|].
  pose proof (map_size_delete_Some k m (ex_intro _ r Hr)) as Hsize.
  assert (size m <> 0) as Hpos.
  { intros H0. apply map_size_empty_inv in H0. subst.
    by rewrite lookup_empty in Hr. }
  rewrite Hsize in IH. rewrite Nat.add_succ_r, IH; [lia|].
  intros key Hkey. rewrite lookup_delete_ne.
  - apply Hin. by apply list_elem_of_further.
  - intros ->. done.
Qed.

Lemma expired_keys_elem (heap : list ConversationContext) (cutoff_time : Z)
    (m : gmap string nat) (key : string) :
  key ∈ omap (fun '(key, ref) =>
                if expired heap cutoff_time ref then Some key else None)
             (map_to_list m)
  <-> exists ref, m !! key = Some ref /\ expired heap cutoff_time ref = true.
Proof.
  rewrite list_elem_of_omap. split.
  - intros ([k r] & Hin & Hf). apply elem_of_map_to_list in Hin.
    destruct (expired heap cutoff_time r) eqn:He; [|discriminate].
    injection Hf as ->. eauto.
  - intros (r & Hm & He). exists (key, r). split.
    + by apply elem_of_map_to_list.
    + by rewrite He.
Qed.

Lemma expired_keys_NoDup (heap : list ConversationContext) (cutoff_time : Z)
    (items : list (string * nat)) :
  NoDup (map fst items) ->
  NoDup (omap (fun '(key, ref) =>
                 if expired heap cutoff_time ref then Some key else None)
              items).
Proof.
  induction items as [|[k r] items IH]; simpl; intros Hnodup;
    [apply NoDup_nil_2|].
  apply NoDup_cons in Hnodup as [Hk Hnodup].
  destruct (expired heap cutoff_time r); [|by apply IH].
  apply NoDup_cons. split; [|by apply IH].
  intros Hin. apply list_elem_of_omap in Hin as ([k' r'] & Hin & Hf).
  destruct (expired heap cutoff_time r'); [|discriminate].
  injection Hf as ->. apply Hk.
  apply list_elem_of_fmap. by exists (k, r').
Qed.

Lemma kept_sessions (heap : list ConversationContext) (cutoff_time : Z)
    (sessions : gmap string nat) (key : string) (ref : nat) :
  (forall key ref, sessions !! key = Some ref -> ref < length heap) ->
  let keys :=
    omap (fun '(key, ref) =>
            if expired heap cutoff_time ref then Some key else None)
         (map_to_list sessions) in
  fold_left (fun sessions session_key => delete session_key sessions) keys sessions
    !! key = Some ref
  <-> sessions !! key = Some ref
      /\ exists context,
           heap !! ref = Some context
           /\ (cutoff_time <= last_interaction context)%Z.
Proof.
  intros Hwf keys. rewrite lookup_fold_delete.
  destruct (decide (key ∈ keys)) as [Hin|Hnotin].
  - apply expired_keys_elem in Hin as (r & Hr & He). split; [discriminate|].
    intros [Hm (context & Hctx & Hle)].
    rewrite Hr in Hm. injection Hm as ->.
    unfold expired in He. rewrite Hctx in He.
    apply Z.ltb_lt in He. lia.
  - split.
    + intros Hm. split; [done|].
      destruct (lookup_lt_is_Some_2 heap ref (Hwf _ _ Hm)) as [context Hctx].
      exists context. split; [done|].
      destruct (Z.le_gt_cases cutoff_time (last_interaction context)); [done|].
      exfalso. apply Hnotin. apply expired_keys_elem.
      exists ref. split; [done|]. unfold expired. rewrite Hctx.
      by apply Z.ltb_lt.
    + by intros [Hm _].
Qed.

Lemma datetime_sub_Some (d delta : Z) :
  datetime_ok (d - delta) -> datetime_sub d delta = Some (d - delta)%Z.
Proof.
  unfold datetime_ok, datetime_sub. intros [Hlo Hhi]. cbv zeta.
  destruct (Z.leb_spec 0 (d - delta)); [|lia].
  by destruct (Z.leb_spec (d - delta) datetime_max); [|lia].
Qed.

Lemma datetime_sub_inv (d delta result : Z) :
  datetime_sub d delta = Some result ->
  datetime_ok (d - delta) /\ result = (d - delta)%Z.
Proof.
  unfold datetime_ok, datetime_sub. cbv zeta.
  destruct (Z.leb_spec 0 (d - delta)); [|done].
  destruct (Z.leb_spec (d - delta) datetime_max); [|done].
  by intros [= <-].
Qed.

Lemma datetime_sub_None (d delta : Z) :
  datetime_sub d delta = None <-> ~ datetime_ok (d - delta).
Proof.
  split.
  - intros Hnone Hok. by rewrite (datetime_sub_Some _ _ Hok) in Hnone.
  - intros Hnot. destruct (datetime_sub d delta) eqn:Hsub; [|done].
    by apply datetime_sub_inv in Hsub as [? _].
Qed.

Lemma cleanup_expired_sessions_result (now : Z) (st : Store) :
  wf st ->
  let cutoff_time := (now - timedelta_seconds (session_timeout (self st)))%Z in
  let keys :=
    omap (fun '(key, ref) =>
            if expired (heap st) cutoff_time ref then Some key else None)
         (map_to_list (active_sessions (self st))) in
  timedelta_ok (session_timeout (self st)) ->
  datetime_ok cutoff_time ->
  cleanup_expired_sessions now st
  = Some (length keys,
          {| heap := heap st;
             self := {| max_history := max_history (self st);
                        session_timeout := session_timeout (self st);
                        active_sessions :=
                          fold_left (fun sessions session_key =>
                                       delete session_key sessions)
                                    keys (active_sessions (self st)) |} |}).
Proof.
  intros Hwf. cbv zeta. intros Hok Hcut. unfold cleanup_expired_sessions.
  rewrite (ConversationSpec.timedelta_Some _ Hok). cbn [mbind option_bind].
  rewrite (datetime_sub_Some _ _ Hcut). cbn [mbind option_bind].
  rewrite expired_sessions_keys; [done|].
  intros key ref Hin. apply elem_of_map_to_list in Hin. by apply (Hwf key).
Qed.

Lemma cleanup_expired_sessions_None (now : Z) (st : Store) :
  wf st ->
  cleanup_expired_sessions now st = None
  <-> ~ timedelta_ok (session_timeout (self st))
      \/ ~ datetime_ok (now - timedelta_seconds (session_timeout (self st))).
Proof.
  intros Hwf. split.
  - intros Hnone.
    destruct (decide (Z.abs (session_timeout (self st) / 86400) <= 999999999)%Z)
      as [Hok|Hno]; [|by left].
    right. intros Hcut.
    pose proof (cleanup_expired_sessions_result now st Hwf Hok Hcut) as Hsome.
    cbv zeta in Hsome. congruence.
  - unfold cleanup_expired_sessions. intros [Hno|Hno].
    + apply ConversationSpec.timedelta_None in Hno. by rewrite Hno.
    + destruct (timedelta (session_timeout (self st))) as [delta|] eqn:Hdelta;
        [|done].
      cbn [mbind option_bind].
      apply ConversationSpec.timedelta_inv in Hdelta as [_ ->].
      apply datetime_sub_None in Hno. by rewrite Hno.
Qed.

Lemma cleanup_expired_sessions_ranges (now : Z) (st : Store)
    (removed : nat) (st' : Store) :
  wf st ->
  cleanup_expired_sessions now st = Some (removed, st') ->
  timedelta_ok (session_timeout (self st))
  /\ datetime_ok (now - timedelta_seconds (session_timeout (self st))).
Proof.
  intros Hwf Hsome.
  pose proof (cleanup_expired_sessions_None now st Hwf) as Hnone.
  split.
  - destruct (decide (Z.abs (session_timeout (self st) / 86400) <= 999999999)%Z)
      as [Hok|Hno]; [done|].
    rewrite (proj2 Hnone (or_introl Hno)) in Hsome. done.
  - unfold datetime_ok.
    destruct (decide (0 <= now - timedelta_seconds (session_timeout (self st))
                      <= datetime_max)%Z) as [Hok|Hno]; [done|].
    rewrite (proj2 Hnone (or_intror Hno)) in Hsome. done.
Qed.

(** The sweep of a store without dangling references.  It raises exactly
    when the session timeout is more than a [timedelta] can hold or the
    cutoff, [now] minus the timeout, is no [datetime].  When it returns, it has
    left the contexts themselves and the settings alone, it has kept exactly
    the sessions whose context was last used at or after the cutoff, and the
    number it returns is the number of sessions it removed. *)
Theorem cleanup_expired_sessions_sweeps (now : Z) (st : Store) :
  wf st ->
  let cutoff_time := (now - timedelta_seconds (session_timeout (self st)))%Z in
  (cleanup_expired_sessions now st = None
   <-> ~ timedelta_ok (session_timeout (self st)) \/ ~ datetime_ok cutoff_time)
  /\ (forall removed st',
        cleanup_expired_sessions now st = Some (removed, st') ->
        heap st' = heap st
        /\ max_history (self st') = max_history (self st)
        /\ session_timeout (self st') = session_timeout (self st)
        /\ (forall key ref,
              active_sessions (self st') !! key = Some ref
              <-> active_sessions (self st) !! key = Some ref
                  /\ exists context,
                       heap st !! ref = Some context
                       /\ (cutoff_time <= last_interaction context)%Z)
        /\ size (active_sessions (self st')) + removed
           = size (active_sessions (self st))
        /\ wf st').
Proof.
  intros Hwf. cbv zeta. split; [by apply cleanup_expired_sessions_None|].
  intros removed st' Hsome.
  destruct (cleanup_expired_sessions_ranges now st removed st' Hwf Hsome)
    as [Hok Hcut].
  rewrite (cleanup_expired_sessions_result now st Hwf Hok Hcut) in Hsome.
  injection Hsome as <- <-.
  set (cutoff := (now - timedelta_seconds (session_timeout (self st)))%Z).
  set (keys := omap _ (map_to_list (active_sessions (self st)))).
  cbn [heap self max_history session_timeout active_sessions].
  split; [done|]. split; [done|]. split; [done|].
  split; [|split].
  - intros key ref. by apply kept_sessions.
  - apply size_fold_delete.
    + apply expired_keys_NoDup, NoDup_fst_map_to_list.
    + intros key Hkey. apply expired_keys_elem in Hkey as (r & Hr & _). eauto.
  - intros key ref Hm. cbn [heap self active_sessions] in Hm.
    apply kept_sessions in Hm as [Hm _]; [|done]. by apply (Hwf key).
Qed.

(** One microsecond after [datetime.min] the cutoff of the default timeout
    lies before [datetime.min], and the sweep raises. *)
Lemma cleanup_expired_sessions_sweeps_witness :
  cleanup_expired_sessions 1 store_s1 = None.
Proof.
  apply (proj1 (cleanup_expired_sessions_sweeps 1 store_s1
                  (ConversationSpec.create_new_context_wf _ _ _ _ _
                     (ConversationSpec.init_wf _ _)))).
  right. vm_compute. intros [Hlo _]. by apply Hlo.
Defined.

(** The sweep and the lookup agree on what has expired: a session the sweep
    at the instant [now] keeps is handed back as it is by a lookup at the same
    instant, and a session such a lookup would replace is removed by the
    sweep. *)
Theorem cleanup_agrees_with_lookup
    (now : Z) (st st' : Store) (removed : nat) (uid sid : string) :
  wf st ->
  sid <> "" ->
  cleanup_expired_sessions now st = Some (removed, st') ->
  (forall ref t_last t_start uuid4,
     active_sessions (self st') !! context_key uid sid = Some ref ->
     get_or_create_context now t_last t_start uuid4 st' uid (Some sid)
     = Some (ref, st'))
  /\ (forall ref context,
        active_sessions (self st) !! context_key uid sid = Some ref ->
        heap st !! ref = Some context ->
        (now - last_interaction context
         > timedelta_seconds (session_timeout (self st)))%Z ->
        active_sessions (self st') !! context_key uid sid = None).
Proof.
  intros Hwf Hsid Hclean.
  destruct (cleanup_expired_sessions_ranges now st removed st' Hwf Hclean)
    as [Hok Hcut].
  rewrite (cleanup_expired_sessions_result now st Hwf Hok Hcut) in Hclean.
  injection Hclean as _ <-.
  pose proof (fun key ref =>
                kept_sessions (heap st)
                  (now - timedelta_seconds (session_timeout (self st)))
                  (active_sessions (self st)) key ref Hwf) as Hkeep.
  cbv zeta in Hkeep.
  set (st' := {| heap := heap st; self := _ |}) in *.
  assert (heap st' = heap st) as Hheap by done.
  assert (session_timeout (self st') = session_timeout (self st)) as Htimeout
    by done.
  change (forall key ref,
            active_sessions (self st') !! key = Some ref
            <-> active_sessions (self st) !! key = Some ref
                /\ exists context,
                     heap st !! ref = Some context
                     /\ (now - timedelta_seconds (session_timeout (self st))
                         <= last_interaction context)%Z) in Hkeep.
  clearbody st'.
  split.
  - intros ref t_last t_start uuid4 Hkey.
    apply Hkeep in Hkey as Hkept. destruct Hkept as [_ (context & Hctx & Hle)].
    rewrite <- Hheap in Hctx. rewrite <- Htimeout in Hok.
    apply (ConversationSpec.stored_session_lookup st' uid sid ref context
             now t_last t_start uuid4 Hsid Hok Hkey Hctx).
    rewrite Htimeout. lia.
  - intros ref context Hkey Hctx Hgt.
    destruct (active_sessions (self st') !! context_key uid sid) as [r|] eqn:Hkey';
      [|done].
    apply Hkeep in Hkey' as [Hm (c & Hc & Hle)].
    rewrite Hkey in Hm. injection Hm as <-.
    rewrite Hctx in Hc. injection Hc as <-. lia.
Qed.

Lemma cleanup_agrees_with_lookup_witness :
  get_or_create_context 3600000000 2 3 "uuid" store_s1 "user" (Some "s1")
  = Some (0, store_s1).
Proof.
  apply (proj1 (cleanup_agrees_with_lookup 3600000000 store_s1 store_s1 0
                  "user" "s1"
                  (ConversationSpec.create_new_context_wf _ _ _ _ _
                     (ConversationSpec.init_wf _ _))
                  ltac:(discriminate) eq_refl)).
  reflexivity.
Defined.

Lemma lower_app (a b : string) : lower (a ++ b)%string = (lower a ++ lower b)%string.
Proof. induction a as [|c a IH]; simpl; [done|]. by rewrite IH. Qed.

Lemma lower_join (xs : list string) :
  lower (join " " xs) = join " " (map lower xs).
Proof.
  induction xs as [|x [|y rest] IH]; [done..|].
  change (join " " (x :: y :: rest))
    with (x ++ " " ++ join " " (y :: rest))%string.
  rewrite !lower_app, IH. done.
Qed.

Lemma prefix_app_sep (kw s rest : string) :
  spaceless kw = true ->
  String.prefix kw (s ++ " " ++ rest)%string = String.prefix kw s.
Proof.
  revert kw. induction s as [|x s IH]; intros [|c kw] Hkw; try done.
  - simpl in *. apply andb_prop in Hkw as [Hc _].
    destruct (ascii_dec c " ") as [->|_]; [done|done].
  - simpl in *. apply andb_prop in Hkw as [_ Hkw].
    destruct (ascii_dec c x); [by apply IH|done].
Qed.

Lemma contains_app_sep (kw a b : string) :
  spaceless kw = true -> kw <> "" ->
  contains kw (a ++ " " ++ b)%string = contains kw a || contains kw b.
Proof.
  intros Hkw Hne. induction a as [|x a IH].
  - change ("" ++ " " ++ b)%string with (String " " b).
    cbn [contains].
    rewrite (prefix_app_sep kw "" b Hkw : String.prefix kw (String " " b) = _).
    done.
  - change (String x a ++ " " ++ b)%string with (String x (a ++ " " ++ b)%string).
    cbn [contains].
    rewrite (prefix_app_sep kw (String x a) b Hkw
             : String.prefix kw (String x (a ++ " " ++ b)%string) = _).
    rewrite IH. by rewrite orb_assoc.
Qed.

Lemma contains_join (kw : string) (msgs : list string) :
  spaceless kw = true -> kw <> "" ->
  contains kw (join " " msgs) = existsb (contains kw) msgs.
Proof.
  intros Hkw Hne. induction msgs as [|x [|y rest] IH].
  - destruct kw; done.
  - simpl. by rewrite orb_false_r.
  - change (join " " (x :: y :: rest))
      with (x ++ " " ++ join " " (y :: rest))%string.
    rewrite contains_app_sep, IH by done. done.
Qed.

Lemma theme_keywords_spaceless :
  Forall (fun row => Forall (fun kw => spaceless kw = true /\ kw <> "") (snd row))
         theme_keywords.
Proof.
  repeat (apply List.Forall_cons; [simpl; repeat constructor; discriminate|]).
  apply List.Forall_nil.
Qed.

Lemma theme_matches_recent_text (context : ConversationContext)
    (row : string * list string) :
  row ∈ theme_keywords ->
  existsb (fun keyword => contains keyword (recent_text context)) (snd row)
  = theme_matches context row.
Proof.
  intros Hrow. unfold theme_matches.
  pose proof theme_keywords_spaceless as Hall.
  rewrite List.Forall_forall in Hall.
  apply list_elem_of_In, Hall in Hrow.
  induction Hrow as [|kw kws [Hkw Hne] _ IH]; [done|].
  cbn [existsb]. rewrite IH. f_equal.
  unfold recent_text. rewrite lower_join, contains_join by done.
  generalize (slice_from (-5) (conversation_history context)).
  intros l. induction l as [|i l IHl]; [done|].
  cbn [map existsb]. by rewrite IHl.
Qed.

(** The key themes.  Looking for the keywords in the joined text of the last
    five user messages finds what looking in each message finds, since no
    keyword holds a space: the themes reported are the first three, in the
    order of the table, of the themes with a keyword that occurs in the
    lower-cased text of one of the last five user messages. *)
Theorem key_themes_per_message (context : ConversationContext) :
  _extract_key_themes context
  = take 3 (map fst (filter (fun row => theme_matches context row = true)
                            theme_keywords)).
Proof.
  unfold _extract_key_themes. f_equal.
  pose proof (theme_matches_recent_text context) as Hrow.
  induction theme_keywords as [|[theme keywords] rows IH]; [done|].
  cbn [omap]. unfold omap in IH |- *. cbn [list_omap].
  pose proof (Hrow (theme, keywords) (list_elem_of_here _ _)) as Hhd.
  cbn [snd] in Hhd. rewrite Hhd.
  rewrite filter_cons.
  destruct (decide (theme_matches context (theme, keywords) = true)) as [->|Hno].
  - cbn [map fst]. f_equal. apply IH.
    intros row Hin. apply Hrow. by apply list_elem_of_further.
  - apply not_true_is_false in Hno. rewrite Hno. apply IH.
    intros row Hin. apply Hrow. by apply list_elem_of_further.
Qed.


Lemma run_session_start self context calls :
  session_start (run self context calls) = session_start context.
Proof.
  unfold run. induction calls as [|call calls IH] using rev_ind; [done|].
  rewrite fold_left_app. simpl. rewrite <- IH.
  unfold step, add_interaction. cbv zeta.
  by destruct (max_history self <? _)%Z.
Qed.

Lemma last_lastn_snoc {A} (n : nat) (xs : list A) (x : A) :
  1 <= n -> last (lastn n (xs ++ [x])) = Some x.
Proof.
  intros Hn. unfold lastn. rewrite length_app. simpl.
  rewrite drop_app_le by lia. apply last_snoc.
Qed.

(** The summary of a conversation that started with a context created by the
    manager, for a history bound of at least one and at least one call: it is
    never the "New conversation" reply; it counts the interactions kept, which
    are all of them up to the bound; it lists the emotions of the last five
    analyses kept, oldest first; its risk level is that of the latest call;
    and its session length is the number of whole minutes since the context
    was created. *)
Theorem summary_of_run
    (self : t) (uid sid : string) (t_last t_start now : Z)
    (calls : list Call) (call : Call) :
  (1 <= max_history self)%Z ->
  let n := Z.to_nat (max_history self) in
  let analyses := map call_analysis (calls ++ [call]) in
  exists summary,
    get_conversation_summary now
      (run self (new_context uid sid t_last t_start) (calls ++ [call]))
    = Summarised summary
    /\ Summary.session_length_minutes summary
       = Z.quot (now - t_start) 60000000
    /\ Summary.total_interactions summary = Nat.min n (length calls + 1)
    /\ Summary.recent_emotions summary
       = map (fun analysis => emotion_value (primary_emotion analysis))
             (lastn (Nat.min 5 n) analyses)
    /\ Summary.current_risk_level summary
       = risk_value (risk_level (call_analysis call)).
Proof.
  intros Hmax. cbv zeta.
  set (n := Z.to_nat (max_history self)).
  set (context := run self (new_context uid sid t_last t_start) (calls ++ [call])).
  destruct (ConversationSpec.run_histories self uid sid t_last t_start
              (calls ++ [call]) Hmax) as [Hconv Hemo].
  fold n context in Hconv, Hemo.
  assert (length (conversation_history context) = Nat.min n (length calls + 1))
    as Hlen.
  { by rewrite Hconv, ConversationSpec.lastn_length, length_map, length_app. }
  unfold get_conversation_summary.
  destruct (conversation_history context) as [|i l] eqn:Hhist.
  { simpl in Hlen. lia. }
  eexists. split; [reflexivity|]. cbn [Summary.session_length_minutes
    Summary.total_interactions Summary.recent_emotions
    Summary.current_risk_level].
  split; [|split; [done|split]].
  - unfold context. by rewrite run_session_start.
  - rewrite Hemo. change (-5)%Z with (- Z.of_nat 5)%Z.
    rewrite slice_from_neg by lia. by rewrite lastn_lastn.
  - rewrite Hemo, map_app. cbn [map]. by rewrite last_lastn_snoc by lia.
Qed.

Lemma summary_of_run_witness :
  exists summary,
    get_conversation_summary 120000000
      (run (mk 2 3600 ∅) (new_context "user" "s1" 0 0)
           ([call_of 1 CALM LOW; call_of 2 STRESSED MEDIUM] ++ [call_of 3 ANXIOUS HIGH]))
    = Summarised summary
    /\ Summary.session_length_minutes summary = 2%Z
    /\ Summary.total_interactions summary = 2
    /\ Summary.recent_emotions summary = ["stressed"; "anxious"]
    /\ Summary.current_risk_level summary = "high".
Proof.
  apply (summary_of_run (mk 2 3600 ∅) "user" "s1" 0 0 120000000
           [call_of 1 CALM LOW; call_of 2 STRESSED MEDIUM] (call_of 3 ANXIOUS HIGH)).
  simpl. lia.
Defined.

(** *** Lookups without a session id *)

(** A lookup without a session id, or with the empty one, never finds a
    session: when the identifier drawn is not in use for the user, the call
    adds a context that is new and empty under the drawn identifier, the
    number of sessions held grows by one, and every session held before is
    held afterwards under the same key with its context untouched. *)
Theorem lookup_without_session_id_adds_session
    (now t_last t_start : Z) (uuid4 : string) (st : Store) (uid : string)
    (session_id : option string) :
  falsy session_id = true ->
  active_sessions (self st) !! context_key uid uuid4 = None ->
  exists st',
    get_or_create_context now t_last t_start uuid4 st uid session_id
    = Some (length (heap st), st')
    /\ heap st' !! length (heap st)
       = Some (new_context uid uuid4 t_last t_start)
    /\ size (active_sessions (self st')) = S (size (active_sessions (self st)))
    /\ (forall key ref context,
          active_sessions (self st) !! key = Some ref ->
          heap st !! ref = Some context ->
          active_sessions (self st') !! key = Some ref
          /\ heap st' !! ref = Some context).
Proof.
  intros Hfalsy Hfresh. unfold get_or_create_context. rewrite Hfalsy.
  cbv zeta. rewrite Hfresh. unfold _create_new_context. cbv zeta.
  eexists. split; [reflexivity|]. cbn [heap self active_sessions].
  split; [|split].
  - by rewrite list_lookup_middle.
  - by rewrite map_size_insert_None.
  - intros key ref context Hkey Hctx. split.
    + rewrite lookup_insert_ne; [done|]. intros <-. congruence.
    + rewrite lookup_app_l; [done|]. by eapply lookup_lt_Some.
Qed.

Lemma lookup_without_session_id_adds_session_witness :
  exists st',
    get_or_create_context 1 1 1 "uuid" store_s1 "user" (Some "")
    = Some (length (heap store_s1), st')
    /\ heap st' !! length (heap store_s1) = Some (new_context "user" "uuid" 1 1)
    /\ size (active_sessions (self st')) = S (size (active_sessions (self store_s1)))
    /\ (forall key ref context,
          active_sessions (self store_s1) !! key = Some ref ->
          heap store_s1 !! ref = Some context ->
          active_sessions (self st') !! key = Some ref
          /\ heap st' !! ref = Some context).
Proof.
  apply (lookup_without_session_id_adds_session 1 1 1 "uuid" store_s1 "user"
           (Some "")); reflexivity.
Defined.


End ConversationOutput.


(** ** The crisis detector and the intervention protocol *)

Module CrisisOutput.
Import Py CrisisDetector CrisisInterventionProtocol.

Lemma scan_snd_None (text_lower : string) (table : list (CrisisType * Patterns))
    (acc : list DetectedCrisis) (h : option CrisisUrgency) :
  snd (scan text_lower table acc h) = None
  <-> h = None /\ omap (entry text_lower) table = [].
Proof.
  revert acc h. induction table as [|[c p] table IH]; intros acc h.
  - simpl. tauto.
  - cbn [scan omap list_omap]. unfold omap in IH. unfold entry at 1. cbn [fst snd].
    destruct (gtb _ 0.3); rewrite IH; [|done].
    split; [|intros [_ ?]; discriminate].
    intros [Hh _]. destruct h; [destruct (_ >? _)%Z|]; discriminate.
Qed.

Lemma scan_snd_immediate (text_lower : string) (table : list (CrisisType * Patterns))
    (acc : list DetectedCrisis) (h : option CrisisUrgency) :
  snd (scan text_lower table acc h) = Some IMMEDIATE
  <-> h = Some IMMEDIATE
      \/ exists c p, (c, p) ∈ table /\ urgency p = IMMEDIATE
                     /\ gtb (_calculate_crisis_score text_lower p) 0.3 = true.
Proof.
  revert acc h. induction table as [|[c p] table IH]; intros acc h.
  - simpl. split; [by left|]. intros [?|(c & p & Hin & _)]; [done|].
    by apply elem_of_nil in Hin.
  - cbn [scan]. destruct (gtb _ 0.3) eqn:Hgt; rewrite IH.
    + split.
      * intros [Hh|(c' & p' & Hin & Hu & Hs)].
        -- destruct h as [h0|].
           ++ destruct (_ >? _)%Z eqn:Hprio; [|by left].
              right. exists c, p. split; [apply list_elem_of_here|].
              split; [congruence | done].
           ++ right. exists c, p. split; [apply list_elem_of_here|].
              split; [congruence | done].
        -- right. exists c', p'. split; [by apply list_elem_of_further | done].
      * intros [->|(c' & p' & Hin & Hu & Hs)].
        -- left. by destruct (urgency p).
        -- apply elem_of_cons in Hin as [[= -> ->]|Hin]; [|right; eauto].
           left. rewrite Hu. by destruct h as [[]|].
    + split.
      * intros [?|(c' & p' & Hin & Hu & Hs)]; [by left|].
        right. exists c', p'. split; [by apply list_elem_of_further | done].
      * intros [?|(c' & p' & Hin & Hu & Hs)]; [by left|].
        apply elem_of_cons in Hin as [[= -> ->]|Hin]; [congruence|].
        right. eauto.
Qed.

Lemma detect_crisis_urgency (text : string) (emotion_context : option EmotionContext) :
  let h := snd (scan (lower text) crisis_patterns [] None) in
  highest_urgency (detect_crisis text emotion_context) = urgency_value <$> h
  /\ immediate_action_needed (detect_crisis text emotion_context)
     = bool_decide (h = Some IMMEDIATE).
Proof.
  unfold detect_crisis.
  destruct (scan (lower text) crisis_patterns [] None) as [detected h].
  by destruct emotion_context.
Qed.

Lemma crisis_patterns_inv (c : CrisisType) (p : Patterns) :
  (c, p) ∈ crisis_patterns ->
  c ∈ priority_order
  /\ (c = SUICIDAL_IDEATION <-> urgency p = IMMEDIATE).
Proof.
  intros Hin. unfold crisis_patterns in Hin.
  repeat (apply elem_of_cons in Hin as [Hin|Hin]; [injection Hin as -> ->|]);
    try (by apply elem_of_nil in Hin);
    (split; [in_list | split; intros; done]).
Qed.

Lemma suicidal_row :
  exists p, (SUICIDAL_IDEATION, p) ∈ crisis_patterns.
Proof. eexists. apply list_elem_of_here. Qed.

Lemma crisis_type_value_inj (c c' : CrisisType) :
  crisis_type_value c = crisis_type_value c' -> c = c'.
Proof. destruct c, c'; simpl; congruence. Qed.

Lemma determine_primary_crisis_listed (crisis_types : list string) (c : CrisisType) :
  c ∈ priority_order -> crisis_type_value c ∈ crisis_types ->
  is_Some (_determine_primary_crisis crisis_types).
Proof.
  intros Hc Hin. unfold _determine_primary_crisis.
  destruct (find _ priority_order) as [c'|] eqn:Hfind; [by eauto|].
  apply list_elem_of_In in Hc. apply (find_none _ _ Hfind c) in Hc as Hmem.
  apply list_elem_of_In, mem_In in Hin. simpl in Hmem. congruence.
Qed.

Lemma determine_primary_crisis_contextual (crisis_types : list string) :
  crisis_types <> [] ->
  (forall name, name ∈ crisis_types ->
     name = "contextual_crisis" \/ name = "contextual_high_risk") ->
  _determine_primary_crisis crisis_types = None.
Proof.
  intros Hne Hctx. unfold _determine_primary_crisis.
  destruct (find _ priority_order) as [c|] eqn:Hfind.
  { apply find_some in Hfind as [_ Hmem]. simpl in Hmem.
    apply mem_In, list_elem_of_In, Hctx in Hmem.
    destruct c, Hmem; discriminate. }
  destruct crisis_types as [|first rest]; [done|].
  destruct (Hctx first) as [-> | ->]; [apply list_elem_of_here|done..].
Qed.

(** The urgency of a detection comes from the text alone.  The emotion
    context adds its entries to the list of crises, but neither the highest
    urgency nor the flag for immediate action looks at them: both are what
    they are without the context, the flag is set exactly when the category
    of suicidal ideation is listed, and no urgency is reported exactly when
    every crisis listed comes from the context. *)
Theorem urgency_comes_from_text
    (text : string) (emotion_context : option EmotionContext) :
  let result := detect_crisis text emotion_context in
  highest_urgency result = highest_urgency (detect_crisis text None)
  /\ immediate_action_needed result
     = immediate_action_needed (detect_crisis text None)
  /\ (immediate_action_needed result = true
      <-> highest_urgency result = Some "immediate")
  /\ (immediate_action_needed result = true
      <-> "suicidal_ideation" ∈ map dc_type (crisis_types result))
  /\ (highest_urgency result = None
      <-> crisis_types result = from_context emotion_context).
Proof.
  cbv zeta.
  destruct (detect_crisis_urgency text emotion_context) as [Hh Hi].
  destruct (detect_crisis_urgency text None) as [Hh0 Hi0].
  cbv zeta in *. rewrite Hh, Hi, Hh0, Hi0.
  set (h := snd (scan (lower text) crisis_patterns [] None)) in *.
  split; [done|]. split; [done|]. rewrite bool_decide_eq_true.
  split; [|split].
  - split; [by intros ->|]. destruct h as [[]|]; try done.
  - unfold h. rewrite scan_snd_immediate.
    rewrite CrisisSpec.detect_crisis_types, map_app, elem_of_app,
      CrisisSpec.entries_types.
    split.
    + intros [?|(c & p & Hin & Hu & Hs)]; [done|].
      left. exists c, p. split; [done|].
      apply crisis_patterns_inv in Hin as [_ Hc]. apply Hc in Hu as ->.
      split; [done|]. by apply gtb_gt.
    + intros [(c & p & Hin & Hname & Hs)|Hctx].
      * right. exists c, p. split; [done|].
        apply (crisis_type_value_inj SUICIDAL_IDEATION) in Hname as <-.
        apply crisis_patterns_inv in Hin as [_ Hc].
        split; [by apply Hc | by apply gtb_gt].
      * apply CrisisSpec.context_types in Hctx as [?|?]; discriminate.
  - rewrite CrisisSpec.detect_crisis_types.
    assert (urgency_value <$> h = None <-> h = None) as ->.
    { by destruct h. }
    unfold h. rewrite scan_snd_None. split.
    + by intros [_ ->].
    + intros Happ. split; [done|].
      apply (f_equal length) in Happ. rewrite length_app in Happ.
      destruct (omap _ crisis_patterns); [done|]. simpl in Happ. lia.
Qed.

(** The intervention for the result of a detection.  The reply without
    intervention is given exactly when no crisis was detected.  The call
    raises exactly when a crisis was detected from the emotion context
    alone, the names of the contextual crises being no crisis type.  And
    when immediate action is needed the intervention is the one for suicidal
    ideation: its urgency is "immediate", its text and its safety questions
    are those of that protocol, and its actions those for "immediate". *)
Theorem crisis_response_of_detection
    (text : string) (emotion_context : option EmotionContext) :
  let result := detect_crisis text emotion_context in
  let response :=
    generate_crisis_response result (resources_needed text emotion_context) in
  (response = Some NoCrisis <-> crisis_detected result = false)
  /\ (response = None
      <-> crisis_detected result = true /\ highest_urgency result = None)
  /\ (immediate_action_needed result = true ->
      exists r protocol,
        response = Some (Intervention r)
        /\ intervention_responses SUICIDAL_IDEATION = Some protocol
        /\ CrisisResponse.urgency_level r = Some "immediate"
        /\ CrisisResponse.immediate_response r = immediate_response protocol
        /\ CrisisResponse.safety_questions r = Some (safety_questions protocol)
        /\ CrisisResponse.recommended_actions r
           = _get_recommended_actions (Some "immediate")
        /\ CrisisResponse.crisis_resources r
           = resources_needed text emotion_context).
Proof.
  cbv zeta.
  destruct (detect_crisis_urgency text emotion_context) as [Hh Hi].
  cbv zeta in Hh, Hi.
  pose proof (CrisisSpec.detect_crisis_detected text emotion_context) as Hdet.
  pose proof (CrisisSpec.detect_crisis_types text emotion_context) as Htypes.
  pose proof (scan_snd_None (lower text) crisis_patterns [] None) as Hnone.
  pose proof (scan_snd_immediate (lower text) crisis_patterns [] None) as Himm.
  set (h := snd (scan (lower text) crisis_patterns [] None)) in *.
  set (result := detect_crisis text emotion_context) in *.
  unfold generate_crisis_response.
  destruct (crisis_detected result) eqn:Hd; cbn [negb].
  2:{ split; [done|]. split; [split; [done | by intros [? _]]|].
      intros Himmediate. exfalso.
      rewrite Hi in Himmediate. apply bool_decide_eq_true, Himm in Himmediate.
      destruct Himmediate as [?|(c & p & Hin & _ & Hs)]; [done|].
      assert (crisis_type_value c ∈ map dc_type (crisis_types result)) as Hmem.
      { rewrite Htypes, map_app, elem_of_app. left.
        apply CrisisSpec.entries_types. exists c, p.
        split; [done|]. split; [done | by apply gtb_gt]. }
      symmetry in Hdet. apply Nat.ltb_ge in Hdet.
      destruct (crisis_types result); [by apply elem_of_nil in Hmem|].
      simpl in Hdet. lia. }
  symmetry in Hdet. apply Nat.ltb_lt in Hdet.
  destruct (omap (entry (lower text)) crisis_patterns) as [|d ds] eqn:Hentries.
  - (* every crisis listed comes from the context *)
    assert (h = None) as Hhnone by (by apply Hnone).
    rewrite Hh, Hi, Hhnone. rewrite app_nil_l in Htypes.
    rewrite determine_primary_crisis_contextual.
    + split; [done|]. split; [done|]. intros Himmediate. done.
    + intros Hnil. apply map_eq_nil in Hnil. rewrite Hnil in Hdet.
      simpl in Hdet. lia.
    + intros name Hname. rewrite Htypes in Hname.
      by apply CrisisSpec.context_types in Hname.
  - (* a category of the table is listed *)
    assert (dc_type d ∈ map dc_type (omap (entry (lower text)) crisis_patterns))
      as Hd0 by (rewrite Hentries; apply list_elem_of_here).
    apply CrisisSpec.entries_types in Hd0 as (c & p & Hin & Hname & Hs).
    assert (h <> None) as Hsome.
    { intros Hhn. apply Hnone in Hhn as [_ Hnil]. congruence. }
    destruct (determine_primary_crisis_listed
                (map dc_type (crisis_types result)) c) as [primary Hprimary].
    { by apply crisis_patterns_inv in Hin as [? _]. }
    { rewrite Htypes, <- Hname. apply list_elem_of_here. }
    rewrite Hprimary. cbn [mbind option_bind].
    split; [done|]. split.
    { split; [done|]. intros [_ Hno]. rewrite Hh in Hno. by destruct h. }
    intros Himmediate. rewrite Hi in Himmediate.
    apply bool_decide_eq_true in Himmediate.
    assert ("suicidal_ideation" ∈ map dc_type (crisis_types result)) as Hsui.
    { apply Himm in Himmediate as [?|(c' & p' & Hin' & Hu & Hs')]; [done|].
      rewrite Htypes, map_app, elem_of_app. left.
      rewrite <- Hentries. apply CrisisSpec.entries_types. exists c', p'.
      split; [done|].
      apply crisis_patterns_inv in Hin' as [_ Hc]. apply Hc in Hu as ->.
      split; [done | by apply gtb_gt]. }
    assert (primary = SUICIDAL_IDEATION) as ->.
    { unfold _determine_primary_crisis in Hprimary.
      apply list_elem_of_In, mem_In in Hsui.
      cbn [find priority_order crisis_type_value] in Hprimary.
      rewrite Hsui in Hprimary. congruence. }
    eexists _, _. split; [reflexivity|]. split; [reflexivity|].
    rewrite Hh, Himmediate. done.
Qed.

Lemma entries_inv (text_lower : string) (table : list (CrisisType * Patterns))
    (d : DetectedCrisis) :
  d ∈ omap (entry text_lower) table ->
  exists c p, (c, p) ∈ table /\ dc_type d = crisis_type_value c
              /\ dc_urgency d = urgency_value (urgency p).
Proof.
  intros Hd. apply list_elem_of_omap in Hd as ([c p] & Hin & Hentry).
  unfold entry in Hentry. cbn [fst snd] in Hentry.
  destruct (gtb _ 0.3); [|discriminate]. injection Hentry as <-.
  by exists c, p.
Qed.

Lemma from_context_inv (emotion_context : option EmotionContext)
    (d : DetectedCrisis) :
  d ∈ from_context emotion_context ->
  (dc_type d = "contextual_crisis" /\ dc_urgency d = "immediate")
  \/ (dc_type d = "contextual_high_risk" /\ dc_urgency d = "urgent").
Proof.
  destruct emotion_context as [ctx|]; simpl;
    [|intros Hin; by apply elem_of_nil in Hin].
  unfold _detect_contextual_crisis.
  repeat match goal with |- context [if ?b then _ else _] => destruct b end;
    intros Hin;
    try (apply list_elem_of_singleton in Hin as ->; simpl; by auto);
    by apply elem_of_nil in Hin.
Qed.

Lemma detected_urgency_immediate
    (text : string) (emotion_context : option EmotionContext) (d : DetectedCrisis) :
  d ∈ crisis_types (detect_crisis text emotion_context) ->
  dc_urgency d = "immediate"
  <-> dc_type d = "suicidal_ideation" \/ dc_type d = "contextual_crisis".
Proof.
  rewrite CrisisSpec.detect_crisis_types, elem_of_app.
  intros [Hd|Hd].
  - apply entries_inv in Hd as (c & p & Hin & -> & ->).
    apply crisis_patterns_inv in Hin as [_ Hc].
    split.
    + intros Hu. left. destruct (urgency p); try discriminate.
      by rewrite (proj2 Hc eq_refl).
    + intros [Hname|Hname]; [|destruct c; discriminate].
      apply (crisis_type_value_inj c SUICIDAL_IDEATION) in Hname.
      apply Hc in Hname. by rewrite Hname.
  - apply from_context_inv in Hd as [[-> ->]|[-> ->]]; split; auto;
      try discriminate; intros [?|?]; discriminate.
Qed.

Lemma immediate_listed
    (text : string) (emotion_context : option EmotionContext) :
  let detected := crisis_types (detect_crisis text emotion_context) in
  "immediate" ∈ map dc_urgency detected
  <-> "suicidal_ideation" ∈ map dc_type detected
      \/ "contextual_crisis" ∈ map dc_type detected.
Proof.
  cbv zeta. rewrite !list_elem_of_fmap. split.
  - intros (d & Hu & Hd). symmetry in Hu.
    apply (detected_urgency_immediate _ _ _ Hd) in Hu as [Ht|Ht];
      [left | right]; by exists d.
  - intros [(d & Ht & Hd)|(d & Ht & Hd)]; exists d; (split; [|done]);
      symmetry; apply (detected_urgency_immediate _ _ _ Hd); auto.
Qed.

Lemma get_crisis_resources_inv (detected : list DetectedCrisis) (r : Resources) :
  _get_crisis_resources detected = Some r ->
  let urgencies := map dc_urgency detected in
  let listed := map dc_type detected in
  immediate_help r
  = (if mem "immediate" urgencies
     then [ ("suicide_crisis_lifeline", "988");
            ("emergency_services", "911");
            ("crisis_text_line", "Text HOME to 741741") ]
     else if mem "urgent" urgencies
     then [ ("suicide_crisis_lifeline", "988");
            ("crisis_text_line", "Text HOME to 741741") ]
     else [])
  /\ (professional_resources r <> []
      <-> mem "suicidal_ideation" listed || mem "self_harm" listed = true)
  /\ (self_help_techniques r = []
      <-> forallb (fun urgency => negb (String.eqb urgency "immediate")) urgencies
          = false).
Proof.
  destruct detected as [|d ds]; [done|].
  unfold _get_crisis_resources. intros Hr. injection Hr as <-.
  cbv zeta. cbn [immediate_help professional_resources self_help_techniques].
  split; [reflexivity|]. split.
  - cbn [existsb]. rewrite orb_false_r.
    destruct (_ || _); split; intros; done.
  - cbn [map forallb]. destruct (negb _ && _); split; intros; done.
Qed.

(** The resources named for the result of a detection.  None are named
    exactly when no crisis was detected.  Otherwise the emergency number
    is among the immediate help, and no self-help technique is named,
    exactly when suicidal ideation or a crisis of the emotion context is
    listed (the context counts here, though it never counts for the
    urgency); and professional resources are named exactly when suicidal
    ideation or self-harm is listed. *)
Theorem resources_of_detection
    (text : string) (emotion_context : option EmotionContext) :
  let result := detect_crisis text emotion_context in
  let listed := map dc_type (crisis_types result) in
  (resources_needed text emotion_context = None
   <-> crisis_detected result = false)
  /\ (forall r,
        resources_needed text emotion_context = Some r ->
        (("emergency_services", "911") ∈ immediate_help r
         <-> "suicidal_ideation" ∈ listed \/ "contextual_crisis" ∈ listed)
        /\ (self_help_techniques r = []
            <-> "suicidal_ideation" ∈ listed \/ "contextual_crisis" ∈ listed)
        /\ (professional_resources r <> []
            <-> "suicidal_ideation" ∈ listed \/ "self_harm" ∈ listed)).
Proof.
  cbv zeta.
  pose proof (immediate_listed text emotion_context) as Himm. cbv zeta in Himm.
  rewrite CrisisSpec.detect_crisis_detected. unfold resources_needed.
  remember (crisis_types (detect_crisis text emotion_context)) as detected
    eqn:Hdetected.
  clear Hdetected. split.
  { destruct detected; split; intros; done. }
  intros r Hr. apply get_crisis_resources_inv in Hr as (Hhelp & Hpro & Hself).
  cbv zeta in Hhelp, Hpro, Hself. rewrite Hhelp, Hpro, Hself, <- Himm.
  clear Hhelp Hpro Hself Himm.
  split; [|split].
  - destruct (mem "immediate" (map dc_urgency detected)) eqn:Hmem.
    + apply mem_In, list_elem_of_In in Hmem. split; [done|]. intros _.
      apply list_elem_of_further, list_elem_of_here.
    + assert ("immediate" ∉ map dc_urgency detected) as Hnot.
      { rewrite list_elem_of_In, <- mem_In. congruence. }
      split; [|done]. intros Hin. exfalso.
      destruct (mem "urgent" _); apply list_elem_of_In in Hin; simpl in Hin;
        intuition discriminate.
  - destruct (forallb _ (map dc_urgency detected)) eqn:Hall.
    + split; [done|]. intros Hin. exfalso.
      rewrite forallb_forall in Hall. apply list_elem_of_In, Hall in Hin.
      discriminate.
    + split; [|done]. intros _.
      destruct (mem "immediate" (map dc_urgency detected)) eqn:Hmem.
      * by apply mem_In, list_elem_of_In in Hmem.
      * exfalso. apply not_true_iff_false in Hall. apply Hall.
        apply forallb_forall. intros u Hu.
        destruct (String.eqb_spec u "immediate") as [->|]; [|done].
        apply mem_In in Hu. congruence.
  - rewrite !list_elem_of_In, <- !mem_In.
    destruct (mem "suicidal_ideation" _), (mem "self_harm" _); simpl;
      intuition congruence.
Qed.


End CrisisOutput.


(** ** The endpoints *)

Module ApiOutput.
Import Py TextEmotionAnalyzer MultimodalEmotionFusion ConversationManager
  GemmaClient Api.




Lemma generate_therapeutic_response_returns
    (generated : option string) (emotion_context : TherapyContext) :
  is_Some (generate_therapeutic_response generated emotion_context).
Proof.
  unfold generate_therapeutic_response. destruct generated; [by eauto|].
  unfold _fallback_therapeutic_response.
  assert (is_Some (item fallback_responses "unknown")) as [unknown ->].
  { vm_compute. eauto. }
  cbn [mbind option_bind]. eauto.
Qed.

(** What the health check tells.  Its answer depends on one thing only,
    whether [gemma_client] has been set: with a client it answers "healthy"
    also when the generation of the model fails, because the client then
    falls back to a canned reply instead of raising; without a client, before
    the startup, it answers "degraded" with the client "unhealthy". *)
Theorem health_check_tells_client_only :
  (forall client, health_check (Some client) = ("healthy", "healthy"))
  /\ health_check None = ("degraded", "unhealthy").
Proof.
  split; [|reflexivity].
  intros client. unfold health_check.
  by destruct (generate_therapeutic_response_returns (generation client)
                 {| tc_primary_emotion := Some "calm";
                    tc_risk_level := Some "low" |}) as [r ->].
Qed.



(** The endpoint for extracted voice features answers a request either
    with the status 400 or with an analysis, never with the status 500; and
    it answers 400 exactly when the pitch or the energy is missing or zero,
    so that a recording without energy is turned away as invalid. *)
Theorem voice_features_endpoint_status
    (request_voice_features : option (gmap string Q)) :
  let voice_features := default ∅ request_voice_features in
  let reply := analyze_voice_features_endpoint request_voice_features in
  reply <> HttpError 500
  /\ (reply = HttpError 400
      <-> (forall value, voice_features !! "pitch_mean" = Some value ->
                         (value == 0)%Q)
          \/ (forall value, voice_features !! "energy" = Some value ->
                            (value == 0)%Q))
  /\ (reply <> HttpError 400 ->
      exists ea, VoiceEmotionAnalyzer.analyze_voice_features voice_features
                 = Some ea
                 /\ reply = Ok (ea, voice_features)).
Proof.
  cbv zeta. unfold analyze_voice_features_endpoint.
  set (voice_features := default ∅ request_voice_features).
  destruct (VoiceSpec.analyze_voice_features_returns voice_features) as [ea Hea].
  rewrite Hea.
  assert (forall k,
            missing_or_zero voice_features k = true
            <-> forall value, voice_features !! k = Some value -> (value == 0)%Q)
    as Hmissing.
  { intros k. unfold missing_or_zero.
    destruct (voice_features !! k) as [v|]; [|by split].
    rewrite Qeq_bool_iff. split; [by intros ? ? [= <-]|]. intros H. by apply H. }
  rewrite <- !Hmissing.
  destruct (missing_or_zero voice_features "pitch_mean"),
           (missing_or_zero voice_features "energy"); cbn [orb];
    (split; [done|]); (split; [intuition congruence|]);
    intros Hreply; try done; by exists ea.
Qed.

End ApiOutput.
